(** * Projekanda assessment portal: the API client and the test-taking flow

    A shallow embedding of the TypeScript sources

    - [lib/api.ts]                       (module [Api]),
    - [components/TestDisplay.tsx]       (module [TestDisplay]),
    - [components/adof/ADOFTestDisplay.tsx] (module [ADOFTestDisplay]),
    - [components/Dashboard.tsx]         (module [Dashboard]),
    - [components/adof/CVCollection.tsx] (module [CVCollection]),
    - [components/AuthForm.tsx]          (module [AuthForm]),
    - [components/adof/JobSelection.tsx] (module [JobSelection]),
    - [components/ADOFDashboard.tsx]     (module [ADOFDashboard]),
    - [pages/Index.tsx]                  (module [Index]),

    together with the properties the specification states about them and
    further properties of the code.

    Conventions.  Records follow the TypeScript interfaces; an optional
    field [f?: string] is an [option string].  Values whose shape the code
    probes at run time (the parsed body of an error response, the response
    of [submit_answers] and of [get_result_by_id]) are [JValue]s.  The
    handlers are written in a small state-and-exception monad that threads
    the component state, the state of the remote server and the trace of
    observable events (requests, notifications, callbacks).  The handlers
    of the forms and of the job list make one request each; they are
    functions of the outcome of that request and return the state they
    leave together with their events.  Console output is not observable
    and is left out.  [String.prototype.trim] belongs to the runtime and is
    a parameter (class [Runtime]): a string is blank when it is empty once
    trimmed, and the theorems hold whatever the runtime removes. *)

From Stdlib Require Import Ascii String ZArith.
From stdpp Require Import gmap strings list fin_maps fin_sets pretty.

#[local] Set Warnings "-register-all".
#[local] Open Scope string_scope.
#[local] Open Scope list_scope.

(** ** JavaScript values *)

Module JS.

(** The values [JSON.parse] produces, plus [undefined], which a property
    read yields for a missing member.  Numbers are restricted to the
    integers: the code only ever tests a parsed number for truthiness. *)
Inductive JValue : Type :=
| JUndefined
| JNull
| JBool (b : bool)
| JNum (n : Z)
| JStr (s : string)
| JArr (items : list JValue)
| JObj (members : gmap string JValue).

(** ToBoolean. *)
Definition truthy (v : JValue) : bool :=
  match v with
  | JUndefined | JNull => false
  | JBool b => b
  | JNum n => negb (n =? 0)%Z
  | JStr s => negb (String.eqb s "")
  | JArr _ | JObj _ => true
  end.

(** [a || b] and [a && b] on values that are already evaluated (the
    right operands used in the sources have no effects of their own other
    than a property read, which is guarded where it can throw). *)
Definition js_or (a b : JValue) : JValue := if truthy a then a else b.
Definition js_and (a b : JValue) : JValue := if truthy a then b else a.

(** [v.name] for a [v] that is neither [null] nor [undefined].  It is
    used with the member names [error], [message], [data], [result_id]
    and [percentage] only; no primitive wrapper or array prototype
    defines any of them, so on everything but an object the read yields
    [undefined]. *)
Definition prop (v : JValue) (name : string) : JValue :=
  match v with
  | JObj members => default JUndefined (members !! name)
  | _ => JUndefined
  end.

Definition nullish (v : JValue) : bool :=
  match v with
  | JUndefined | JNull => true
  | _ => false
  end.

(** [v?.name] *)
Definition opt_prop (v : JValue) (name : string) : JValue :=
  if nullish v then JUndefined else prop v name.

(** What a [throw] carries.  [Error v] is [new Error(v)]: its message is
    the string conversion of [v], which is [s] itself for [JStr s].
    [TypeError] is raised by a property read on [null] or [undefined], by
    calling a missing method, and by [fetch] on a network failure;
    [SyntaxError] by [response.json()] on a malformed body.  The texts of
    the latter two are chosen by the JavaScript engine. *)
Inductive Exn : Type :=
| Error (message : JValue)
| TypeError
| SyntaxError.

Inductive Outcome (A : Type) : Type :=
| Ok (a : A)
| Throw (e : Exn).
#[global] Arguments Ok {A} a.
#[global] Arguments Throw {A} e.

(** [v.name], which throws on [null] and [undefined]. *)
Definition get_prop (v : JValue) (name : string) : Outcome JValue :=
  if nullish v then Throw TypeError else Ok (prop v name).

(** [String.prototype.trim] is the runtime's: which characters it removes
    from both ends of a string is fixed by ECMAScript and Unicode (the
    white space and line terminators, among them U+00A0 and U+FEFF), not by
    the program.  The handlers only compare its result with the empty
    string and, in the CV form, store it; of the function itself the proofs
    use one fact, that the empty string has nothing to remove. *)
Class Runtime := {
  trim : string → string;
  trim_empty : trim "" = "" }.

(** [s1 || s2] on strings: the empty string is the only falsy one. *)
Definition str_or (s1 s2 : string) : string :=
  if String.eqb s1 "" then s2 else s1.

(** [a || rest] where [a] is an optional string member. *)
Definition opt_or (a : option string) (rest : string) : string :=
  match a with
  | Some s => str_or s rest
  | None => rest
  end.

End JS.
Export JS.

(** ** lib/api.ts *)

Module Api.

(** *** Interfaces *)

Record TestOption := { score : Z; option_text : string }.

Record TestQuestion := {
  question : string;
  question_no : Z;
  trait : string;
  options : list TestOption }.

Record GenerateTestResponse := {
  mcqs_id : option string;
  document_id : option string;
  documentId : option string;
  id : option string;
  _id : option string;
  message : string;
  questions : list TestQuestion;
  test_trait : option string }.

(** [questions] is declared mandatory, but the caller guards against its
    absence ([mcqsData.questions && ...]), so it is optional here. *)
Record GetMcqsResponse := {
  mcqs_mcqs_id : option string;
  mcqs_document_id : option string;
  mcqs_questions : option (list TestQuestion);
  mcqs_message : option string }.

Record SubmitAnswersData := {
  user_id : string;
  mcq_id : string;
  answers : gmap string string }.

(** *** Responses of [fetch] *)

Record Response := {
  status : nat;
  statusText : string;
  text : string }.

(** [response.ok]: the status is in the range 200-299. *)
Definition ok (r : Response) : bool :=
  (200 <=? status r)%nat && (status r <=? 299)%nat.

Section Client.

(** [JSON.parse] is the runtime's; [None] stands for its
    [SyntaxError]. *)
Variable JSON_parse : string → option JValue.

(** The block shared by [getMcqs], [submitAnswers] and
    [getResultById]:
<<
  let errorMessage = fallback;
  try {
    const errorData = JSON.parse(responseText);
    errorMessage = errorData.error || errorData.message || errorMessage;
  } catch {
    errorMessage = responseText || errorMessage;
  }
>>
    The [catch] is entered by the parser's [SyntaxError] and by the
    [TypeError] of reading [.error] from a parsed [null]. *)
Definition error_message (fallback responseText : string) : JValue :=
  match JSON_parse responseText with
  | Some errorData =>
      if nullish errorData
      then JStr (str_or responseText fallback)
      else js_or (prop errorData "error")
             (js_or (prop errorData "message") (JStr fallback))
  | None => JStr (str_or responseText fallback)
  end.

(** [try { return JSON.parse(responseText) } catch { throw new
    Error('Invalid response format from server') }] *)
Definition parse_body (responseText : string) : Outcome JValue :=
  match JSON_parse responseText with
  | Some result => Ok result
  | None => Throw (Error (JStr "Invalid response format from server"))
  end.

(** [response.json()] *)
Definition json (r : Response) : Outcome JValue :=
  match JSON_parse (text r) with
  | Some result => Ok result
  | None => Throw SyntaxError
  end.

Definition signup (response : Response) : Outcome JValue :=
  if negb (ok response)
  then Throw (Error (JStr (str_or (text response) "Signup failed")))
  else json response.

Definition signin (response : Response) : Outcome JValue :=
  if negb (ok response)
  then Throw (Error (JStr (str_or (text response) "Signin failed")))
  else json response.

Definition generateTest (response : Response) : Outcome JValue :=
  if negb (ok response)
  then Throw (Error (JStr (str_or (text response) "Test generation failed")))
  else json response.

Definition getMcqs (response : Response) : Outcome JValue :=
  let responseText := text response in
  if negb (ok response)
  then Throw (Error (error_message "Failed to get MCQs" responseText))
  else parse_body responseText.

Definition submitAnswers (response : Response) : Outcome JValue :=
  let responseText := text response in
  if negb (ok response)
  then Throw (Error (error_message "Answer submission failed" responseText))
  else parse_body responseText.

Definition status_line (response : Response) : string :=
  pretty (status response) +:+ " " +:+ statusText response.

Definition is_array (v : JValue) : bool :=
  match v with JArr _ => true | _ => false end.

(** The [catch] of [getJobs] and of [submitUserData] logs and
    rethrows. *)
Definition getJobs (response : Response) : Outcome JValue :=
  if negb (ok response)
  then Throw (Error (JStr ("Failed to fetch jobs: " +:+ status_line response)))
  else match json response with
       | Ok data =>
           if negb (is_array data)
           then Throw (Error (JStr "Invalid response format: Expected an array of jobs"))
           else Ok data
       | Throw e => Throw e
       end.

Definition submitUserData (response : Response) : Outcome JValue :=
  if negb (ok response)
  then Throw (Error (JStr ("Failed to submit data: " +:+ status_line response)))
  else json response.

Definition getResultById (response : Response) : Outcome JValue :=
  let responseText := text response in
  if negb (ok response)
  then Throw (Error (error_message "Failed to fetch result" responseText))
  else parse_body responseText.

(** The operations of the client, and what each does with the
    response of its request. *)
Inductive Operation : Type :=
| OpSignup | OpSignin | OpGenerateTest | OpGetMcqs
| OpSubmitAnswers | OpGetJobs | OpSubmitUserData | OpGetResultById.

Definition handle (op : Operation) : Response → Outcome JValue :=
  match op with
  | OpSignup => signup
  | OpSignin => signin
  | OpGenerateTest => generateTest
  | OpGetMcqs => getMcqs
  | OpSubmitAnswers => submitAnswers
  | OpGetJobs => getJobs
  | OpSubmitUserData => submitUserData
  | OpGetResultById => getResultById
  end.

(** The three operations that run [error_message], with the fallback
    text of each. *)
Definition fallback_message (op : Operation) : option string :=
  match op with
  | OpGetMcqs => Some "Failed to get MCQs"
  | OpSubmitAnswers => Some "Answer submission failed"
  | OpGetResultById => Some "Failed to fetch result"
  | _ => None
  end.

(** The failure message as the specification words it: the [error] or
    [message] member of the parsed body, the raw text when the body
    does not parse.  [None] where the sentence says nothing. *)
Definition spec_error_message (responseText : string) : option JValue :=
  match JSON_parse responseText with
  | Some errorData =>
      let field := js_or (prop errorData "error") (prop errorData "message") in
      if truthy field then Some field else None
  | None => Some (JStr responseText)
  end.

End Client.

(** A [fetch] either rejects (network failure) or resolves to a
    response, whatever its status. *)
Inductive FetchOutcome : Type :=
| NetworkFailure
| Responded (r : Response).

Definition on_fetch (h : Response → Outcome JValue) (o : FetchOutcome) : Outcome JValue :=
  match o with
  | NetworkFailure => Throw TypeError
  | Responded r => h r
  end.

End Api.
Export Api.

(** ** Effects of the event handlers *)

Module Eff.

(** The remote server, seen through the four operations of [api] the
    handlers call.  Each call may change the server's state and either
    resolves to the parsed body or rejects. *)
Record Backend := {
  World : Type;
  api_generateTest : string → World → Outcome GenerateTestResponse * World;
  api_getMcqs : string → World → Outcome GetMcqsResponse * World;
  api_submitAnswers : SubmitAnswersData → World → Outcome JValue * World;
  api_getResultById : JValue → World → Outcome JValue * World }.

Inductive ApiCall : Type :=
| CallGenerateTest (userId : string)
| CallGetMcqs (userId : string)
| CallSubmitAnswers (body : SubmitAnswersData)
| CallGetResultById (resultId : JValue).

Inductive Variant : Type := DefaultVariant | Destructive.

(** The [description] of a notification: a literal, the [message] of a
    caught error whose text the engine chooses, or the template
    [`Your score: ${percentage}%`]. *)
Inductive Description : Type :=
| Text (s : string)
| MessageOf (e : Exn)
| YourScore (percentage : JValue).

Record Toast := {
  title : string;
  description : Description;
  variant : Variant }.

(** [error instanceof Error ? error.message : fallback]: everything the
    modelled code throws is an [Error]. *)
Definition error_description (e : Exn) : Description :=
  match e with
  | Error (JStr s) => Text s
  | _ => MessageOf e
  end.

Inductive Event : Type :=
| Request (c : ApiCall)
| Notify (t : Toast)
| TestComplete (results : JValue).

Definition is_request (e : Event) : bool :=
  match e with Request _ => true | _ => false end.

Definition is_submit_request (e : Event) : bool :=
  match e with Request (CallSubmitAnswers _) => true | _ => false end.

Section Monad.

Context {B : Backend} {S : Type}.

(** What a handler runs in: the component's state, the server's, and
    the events so far, oldest first. *)
Record Run := {
  comp : S;
  world : World B;
  trace : list Event }.

Definition M (A : Type) : Type := Run → Outcome A * Run.

#[global] Instance M_ret : MRet M := λ A a r, (Ok a, r).

#[global] Instance M_bind : MBind M := λ A C k m r,
  match m r with
  | (Ok a, r') => k a r'
  | (Throw e, r') => (Throw e, r')
  end.

Definition throw {A} (e : Exn) : M A := λ r, (Throw e, r).

Definition lift {A} (o : Outcome A) : M A := λ r, (o, r).

(** [try { body } catch (e) { handler e }] *)
Definition try_catch {A} (body : M A) (handler : Exn → M A) : M A := λ r,
  match body r with
  | (Ok a, r') => (Ok a, r')
  | (Throw e, r') => handler e r'
  end.

(** [try { body } finally { final }] *)
Definition try_finally {A} (body : M A) (final : M unit) : M A := λ r,
  match body r with
  | (o, r') =>
      match final r' with
      | (Ok _, r'') => (o, r'')
      | (Throw e, r'') => (Throw e, r'')
      end
  end.

Definition get : M S := λ r, (Ok (comp r), r).

Definition modify (f : S → S) : M unit := λ r,
  (Ok tt, {| comp := f (comp r); world := world r; trace := trace r |}).

Definition emit (e : Event) : M unit := λ r,
  (Ok tt, {| comp := comp r; world := world r; trace := trace r ++ [e] |}).

Definition toast (t : Toast) : M unit := emit (Notify t).

Definition call {A} (c : ApiCall) (f : World B → Outcome A * World B) : M A := λ r,
  match f (world r) with
  | (o, w) => (o, {| comp := comp r; world := w; trace := trace r ++ [Request c] |})
  end.

Definition await_generateTest (userId : string) : M GenerateTestResponse :=
  call (CallGenerateTest userId) (api_generateTest B userId).

Definition await_getMcqs (userId : string) : M GetMcqsResponse :=
  call (CallGetMcqs userId) (api_getMcqs B userId).

Definition await_submitAnswers (body : SubmitAnswersData) : M JValue :=
  call (CallSubmitAnswers body) (api_submitAnswers B body).

Definition await_getResultById (resultId : JValue) : M JValue :=
  call (CallGetResultById resultId) (api_getResultById B resultId).

Definition when (b : bool) (m : M unit) : M unit :=
  if b then m else mret tt.

End Monad.

#[global] Arguments Run : clear implicits.
#[global] Arguments M : clear implicits.

End Eff.
Export Eff.

(** ** The conversion of the selected answers, shared by both test views *)

Module Answers.

(** The [switch (score)] of both [handleSubmit] functions. *)
Definition responseText (score : Z) : string :=
  match score with
  | 1%Z => "Strongly Disagree"
  | 2%Z => "Disagree"
  | 3%Z => "Neutral"
  | 4%Z => "Agree"
  | 5%Z => "Strongly Agree"
  | _ => "Neutral"
  end.

Definition vocabulary : list string :=
  ["Strongly Disagree"; "Disagree"; "Neutral"; "Agree"; "Strongly Agree"].

(** [(parseInt(questionIndex) + 1).toString()] *)
Definition questionKey (questionIndex : nat) : string :=
  pretty (questionIndex + 1)%nat.

(** [Object.entries(selectedAnswers).forEach(...)], filling
    [answersForAPI] entry by entry.  The enumeration order of
    [map_to_list] need not be JavaScript's (ascending indices); the
    resulting map does not depend on it, see [answersForAPI_lookup]. *)
Definition fill (acc : gmap string string) (entry : nat * Z) : gmap string string :=
  <[questionKey entry.1 := responseText entry.2]> acc.

Definition answersForAPI (selectedAnswers : gmap nat Z) : gmap string string :=
  foldl fill ∅ (map_to_list selectedAnswers).

(** [a || b || c || d || e || ''] over the five identifier members. *)
Definition documentIdOf (testData : GenerateTestResponse) : string :=
  opt_or (mcqs_id testData)
    (opt_or (document_id testData)
       (opt_or (documentId testData)
          (opt_or (id testData)
             (opt_or (_id testData) "")))).

(** The identifier as the specification words it: the first non-empty
    value in the priority order. *)
Definition first_non_empty (candidates : list (option string)) : option string :=
  head (filter (λ s, s ≠ "") (omap (λ c, c) candidates)).

Definition candidates (testData : GenerateTestResponse) : list (option string) :=
  [mcqs_id testData; document_id testData; documentId testData;
   id testData; _id testData].

End Answers.
Export Answers.

(** ** components/TestDisplay.tsx *)

Module TestDisplay.

Record Props := {
  testData : GenerateTestResponse;
  userId : string }.

(** The five [useState] cells. *)
Record State := {
  selectedAnswers : gmap nat Z;
  isSubmitted : bool;
  isSubmitting : bool;
  currentQuestionIndex : nat;
  testResult : option JValue }.

Definition initial : State := {|
  selectedAnswers := ∅;
  isSubmitted := false;
  isSubmitting := false;
  currentQuestionIndex := 0;
  testResult := None |}.

Definition setSelectedAnswers (f : gmap nat Z → gmap nat Z) (st : State) : State := {|
  selectedAnswers := f (selectedAnswers st);
  isSubmitted := isSubmitted st;
  isSubmitting := isSubmitting st;
  currentQuestionIndex := currentQuestionIndex st;
  testResult := testResult st |}.

Definition setIsSubmitted (b : bool) (st : State) : State := {|
  selectedAnswers := selectedAnswers st;
  isSubmitted := b;
  isSubmitting := isSubmitting st;
  currentQuestionIndex := currentQuestionIndex st;
  testResult := testResult st |}.

Definition setIsSubmitting (b : bool) (st : State) : State := {|
  selectedAnswers := selectedAnswers st;
  isSubmitted := isSubmitted st;
  isSubmitting := b;
  currentQuestionIndex := currentQuestionIndex st;
  testResult := testResult st |}.

Definition setCurrentQuestionIndex (f : nat → nat) (st : State) : State := {|
  selectedAnswers := selectedAnswers st;
  isSubmitted := isSubmitted st;
  isSubmitting := isSubmitting st;
  currentQuestionIndex := f (currentQuestionIndex st);
  testResult := testResult st |}.

Definition setTestResult (v : option JValue) (st : State) : State := {|
  selectedAnswers := selectedAnswers st;
  isSubmitted := isSubmitted st;
  isSubmitting := isSubmitting st;
  currentQuestionIndex := currentQuestionIndex st;
  testResult := v |}.

(** The body of the request sent when the first one is rejected. *)
Definition hardcodedAnswers : gmap string string :=
  list_to_map
    [("1", "Agree"); ("2", "Strongly Agree"); ("3", "Neutral"); ("4", "Disagree");
     ("5", "Strongly Agree"); ("6", "Agree"); ("7", "Strongly Agree"); ("8", "Neutral");
     ("9", "Agree"); ("10", "Disagree"); ("11", "Strongly Agree"); ("12", "Neutral");
     ("13", "Agree"); ("14", "Disagree"); ("15", "Strongly Agree"); ("16", "Disagree");
     ("17", "Agree"); ("18", "Disagree"); ("19", "Strongly Agree"); ("20", "Neutral")].

Section Component.

Context {B : Backend} {rt : Runtime}.
Variable props : Props.

Definition getDocumentId : string := documentIdOf (testData props).

Definition documentId : string := getDocumentId.

Definition questionCount : nat := length (questions (testData props)).

Definition handleAnswerSelect (questionIndex : nat) (optionScore : Z) (st : State) : State :=
  if isSubmitted st then st
  else setSelectedAnswers (λ prev, <[questionIndex := optionScore]> prev) st.

Definition handleNext (st : State) : State :=
  if (Z.of_nat (currentQuestionIndex st) <? Z.of_nat questionCount - 1)%Z
  then setCurrentQuestionIndex (λ prev, prev + 1) st
  else st.

Definition handlePrevious (st : State) : State :=
  if (0 <? currentQuestionIndex st)%nat
  then setCurrentQuestionIndex (λ prev, prev - 1) st
  else st.

(** The option the view marks as selected for the current question:
    [selectedAnswers[currentQuestionIndex] === option.score]. *)
Definition isSelected (st : State) (optionScore : Z) : bool :=
  bool_decide (selectedAnswers st !! currentQuestionIndex st = Some optionScore).

(** [if (isSubmitted && testResult) return <TestResults .../>] *)
Definition showsResults (st : State) : option JValue :=
  if isSubmitted st
  then match testResult st with
       | Some result => if truthy result then Some result else None
       | None => None
       end
  else None.

Definition invalidAnswers (answersForAPI : gmap string string) : list (string * string) :=
  filter (λ kv, kv.2 = "" ∨ kv.2 ∉ vocabulary) (map_to_list answersForAPI).

Definition hardcodedTestRequest : SubmitAnswersData := {|
  user_id := userId props;
  mcq_id := documentId;
  answers := hardcodedAnswers |}.

Definition requestBody (st : State) : SubmitAnswersData := {|
  user_id := userId props;
  mcq_id := documentId;
  answers := answersForAPI (selectedAnswers st) |}.

(** [submitResponse.result_id || (submitResponse.data &&
    submitResponse.data.result_id)] *)
Definition resultIdOf (submitResponse : JValue) : M B State JValue :=
  direct ← lift (get_prop submitResponse "result_id");
  if truthy direct then mret direct
  else
    data ← lift (get_prop submitResponse "data");
    if truthy data then lift (get_prop data "result_id") else mret data.

(** [submitResponse.data?.percentage ||
    (submitResponse.data?.data?.percentage !== undefined
       ? submitResponse.data.data.percentage : 'N/A')] *)
Definition percentageOf (submitResponse : JValue) : M B State JValue :=
  data ← lift (get_prop submitResponse "data");
  let direct := opt_prop data "percentage" in
  if truthy direct then mret direct
  else
    match opt_prop (opt_prop data "data") "percentage" with
    | JUndefined => mret (JStr "N/A")
    | _ =>
        inner ← lift (get_prop data "data");
        lift (get_prop inner "percentage")
    end.

(** The checks before anything is sent (the first statements of the
    [try] block). *)
Definition validate (st : State) : M B State unit :=
  when (String.eqb (userId props) "" || String.eqb (trim (userId props)) "")
    (throw (Error (JStr "User ID is required. Please log in again.")));;
  when (String.eqb documentId "" || String.eqb (trim documentId) "")
    (throw (Error (JStr "Test document ID is required. Please generate a new test.")));;
  let answersForAPI := answersForAPI (selectedAnswers st) in
  when (size answersForAPI =? 0)%nat
    (throw (Error (JStr "No answers provided. Please answer all questions.")));;
  let invalid := invalidAnswers answersForAPI in
  when (0 <? length invalid)%nat
    (throw (Error (JStr ("Invalid answers detected: " +:+
       String.concat ", " ((λ kv, kv.1 +:+ ": " +:+ kv.2) <$> invalid))))).

(** [try { submitResponse = await api.submitAnswers(requestBody) }
    catch { submitResponse = await api.submitAnswers(hardcodedTestRequest) }];
    the innermost [catch] rethrows. *)
Definition submitWithFallback (st : State) : M B State JValue :=
  try_catch (await_submitAnswers (requestBody st))
    (λ _, await_submitAnswers hardcodedTestRequest).

(** From [const resultId = ...] to the success notification. *)
Definition resolveResult (submitResponse : JValue) : M B State unit :=
  resultId ← resultIdOf submitResponse;
  (if truthy resultId then
     try_catch
       (detailedResult ← await_getResultById resultId;
        data ← lift (get_prop detailedResult "data");
        modify (setTestResult
          (Some (if truthy data then detailedResult else submitResponse))))
       (λ _, modify (setTestResult (Some submitResponse)))
   else modify (setTestResult (Some submitResponse)));;
  modify (setIsSubmitted true);;
  percentage ← percentageOf submitResponse;
  toast {| title := "Test Submitted Successfully!";
           description := YourScore percentage;
           variant := DefaultVariant |}.

Definition handleSubmit : M B State unit :=
  st ← get;
  if negb (size (selectedAnswers st) =? questionCount)%nat then
    toast {| title := "Incomplete Test";
             description := Text "Please answer all questions before submitting.";
             variant := Destructive |}
  else
    modify (setIsSubmitting true);;
    modify (setTestResult None);;
    try_finally
      (try_catch
         (validate st;;
          try_catch (_ ← await_getMcqs (userId props); mret tt) (λ _, mret tt);;
          submitResponse ← submitWithFallback st;
          resolveResult submitResponse)
         (λ error,
            toast {| title := "Submission Failed";
                     description := error_description error;
                     variant := Destructive |}))
      (modify (setIsSubmitting false)).

(** What the user can do in the view. *)
Inductive Action : Type :=
| Select (questionIndex : nat) (optionScore : Z)
| Next
| Previous
| Submit.

Definition step (a : Action) (r : Run B State) : Run B State :=
  match a with
  | Select i s => (modify (handleAnswerSelect i s) r).2
  | Next => (modify handleNext r).2
  | Previous => (modify handlePrevious r).2
  | Submit => (handleSubmit r).2
  end.

Definition run (actions : list Action) (r : Run B State) : Run B State :=
  foldl (λ r a, step a r) r actions.

(** The option buttons call [handleAnswerSelect(currentQuestionIndex,
    option.score)]: through the view, only the current question is
    answered. *)
Definition from_view (st : State) (a : Action) : Prop :=
  match a with
  | Select i _ => i = currentQuestionIndex st
  | _ => True
  end.

End Component.

End TestDisplay.

(** ** components/adof/ADOFTestDisplay.tsx *)

Module ADOFTestDisplay.

(** [selectedJob], [cvData] and [onBack] are not used by the handlers;
    [onTestComplete] is the [TestComplete] event. *)
Record Props := { userId : string }.

Record State := {
  testData : option GenerateTestResponse;
  isLoadingTest : bool;
  selectedAnswers : gmap nat Z;
  currentQuestionIndex : nat;
  isSubmitting : bool }.

Definition initial : State := {|
  testData := None;
  isLoadingTest := false;
  selectedAnswers := ∅;
  currentQuestionIndex := 0;
  isSubmitting := false |}.

Definition setTestData (t : option GenerateTestResponse) (st : State) : State := {|
  testData := t;
  isLoadingTest := isLoadingTest st;
  selectedAnswers := selectedAnswers st;
  currentQuestionIndex := currentQuestionIndex st;
  isSubmitting := isSubmitting st |}.

Definition setIsLoadingTest (b : bool) (st : State) : State := {|
  testData := testData st;
  isLoadingTest := b;
  selectedAnswers := selectedAnswers st;
  currentQuestionIndex := currentQuestionIndex st;
  isSubmitting := isSubmitting st |}.

Definition setSelectedAnswers (f : gmap nat Z → gmap nat Z) (st : State) : State := {|
  testData := testData st;
  isLoadingTest := isLoadingTest st;
  selectedAnswers := f (selectedAnswers st);
  currentQuestionIndex := currentQuestionIndex st;
  isSubmitting := isSubmitting st |}.

Definition setCurrentQuestionIndex (f : nat → nat) (st : State) : State := {|
  testData := testData st;
  isLoadingTest := isLoadingTest st;
  selectedAnswers := selectedAnswers st;
  currentQuestionIndex := f (currentQuestionIndex st);
  isSubmitting := isSubmitting st |}.

Definition setIsSubmitting (b : bool) (st : State) : State := {|
  testData := testData st;
  isLoadingTest := isLoadingTest st;
  selectedAnswers := selectedAnswers st;
  currentQuestionIndex := currentQuestionIndex st;
  isSubmitting := b |}.

Section Component.

Context {B : Backend}.
Variable props : Props.

Definition generateTest : M B State unit :=
  if String.eqb (userId props) "" then
    toast {| title := "Error";
             description := Text "User ID is required to generate test.";
             variant := Destructive |}
  else
    modify (setIsLoadingTest true);;
    try_finally
      (try_catch
         (response ← await_generateTest (userId props);
          modify (setTestData (Some response));;
          toast {| title := "Test Generated";
                   description := Text "Your personalized assessment is ready.";
                   variant := DefaultVariant |})
         (λ error,
            toast {| title := "Test Generation Failed";
                     description := error_description error;
                     variant := Destructive |}))
      (modify (setIsLoadingTest false)).

Definition handleAnswerSelect (questionIndex : nat) (optionScore : Z) (st : State) : State :=
  setSelectedAnswers (λ prev, <[questionIndex := optionScore]> prev) st.

Definition handleNext (st : State) : State :=
  match testData st with
  | Some testData =>
      if (Z.of_nat (currentQuestionIndex st) <? Z.of_nat (length (questions testData)) - 1)%Z
      then setCurrentQuestionIndex (λ prev, prev + 1) st
      else st
  | None => st
  end.

Definition handlePrevious (st : State) : State :=
  if (0 <? currentQuestionIndex st)%nat
  then setCurrentQuestionIndex (λ prev, prev - 1) st
  else st.

Definition requestBody (testData : GenerateTestResponse) (st : State)
  : SubmitAnswersData := {|
  user_id := userId props;
  mcq_id := documentIdOf testData;
  answers := answersForAPI (selectedAnswers st) |}.

Definition handleSubmit : M B State unit :=
  st ← get;
  match testData st with
  | None => mret tt
  | Some testData =>
      if negb (size (selectedAnswers st) =? length (questions testData))%nat then
        toast {| title := "Incomplete Test";
                 description := Text "Please answer all questions before submitting.";
                 variant := Destructive |}
      else
        modify (setIsSubmitting true);;
        try_finally
          (try_catch
             (let documentId := documentIdOf testData in
              when (String.eqb documentId "")
                (throw (Error (JStr "Test document ID is missing. Please generate a new test.")));;
              let requestBody := requestBody testData st in
              submitResponse ← await_submitAnswers requestBody;
              data ← lift (get_prop submitResponse "data");
              result_id ← lift (get_prop data "result_id");
              resultResponse ← await_getResultById result_id;
              resultData ← lift (get_prop resultResponse "data");
              percentage ← lift (get_prop resultData "percentage");
              toast {| title := "Assessment Completed!";
                       description := YourScore percentage;
                       variant := DefaultVariant |};;
              emit (TestComplete resultResponse))
             (λ error,
                toast {| title := "Submission Failed";
                         description := error_description error;
                         variant := Destructive |}))
          (modify (setIsSubmitting false))
  end.

End Component.

End ADOFTestDisplay.

(** ** components/Dashboard.tsx *)

Module Dashboard.

(** Of the signed-in user the handler reads the [id] only. *)
Record User := { user_id_of : string }.

Record State := {
  isGenerating : bool;
  generatedTest : option GenerateTestResponse }.

Definition initial : State := {|
  isGenerating := false;
  generatedTest := None |}.

Definition setIsGenerating (b : bool) (st : State) : State := {|
  isGenerating := b;
  generatedTest := generatedTest st |}.

Definition setGeneratedTest (t : option GenerateTestResponse) (st : State) : State := {|
  isGenerating := isGenerating st;
  generatedTest := t |}.

(** [a || b] where both are optional string members. *)
Definition opt_or_opt (a b : option string) : option string :=
  match a with
  | Some s => if String.eqb s "" then b else a
  | None => b
  end.

(** [mcqsData.questions && mcqsData.questions.length > 0] *)
Definition hasQuestions (mcqsData : GetMcqsResponse) : bool :=
  match mcqs_questions mcqsData with
  | Some qs => (0 <? length qs)%nat
  | None => false
  end.

(** The object literal
<<
    { ...testData, ...mcqsData,
      mcqs_id: mcqsData.mcqs_id || mcqsData.document_id || testData.mcqs_id }
>>
    member by member: a member [mcqsData] has replaces the one of
    [testData]; [mcqs_id] is written last. *)
Definition merged (testData : GenerateTestResponse) (mcqsData : GetMcqsResponse)
  : GenerateTestResponse := {|
  mcqs_id :=
    opt_or_opt (mcqs_mcqs_id mcqsData)
      (opt_or_opt (mcqs_document_id mcqsData) (mcqs_id testData));
  document_id :=
    match mcqs_document_id mcqsData with
    | Some d => Some d
    | None => document_id testData
    end;
  documentId := documentId testData;
  id := id testData;
  _id := _id testData;
  message := default (message testData) (mcqs_message mcqsData);
  questions := default (questions testData) (mcqs_questions mcqsData);
  test_trait := test_trait testData |}.

Section Component.

Context {B : Backend}.
Variable user : option User.

Definition handleGenerateTest : M B State unit :=
  match user with
  | None => mret tt
  | Some user =>
      modify (setIsGenerating true);;
      try_finally
        (try_catch
           (testData ← await_generateTest (user_id_of user);
            try_catch
              (mcqsData ← await_getMcqs (user_id_of user);
               if hasQuestions mcqsData
               then modify (setGeneratedTest (Some (merged testData mcqsData)))
               else modify (setGeneratedTest (Some testData)))
              (λ _, modify (setGeneratedTest (Some testData)));;
            toast {| title := "Test Generated Successfully!";
                     description := Text "Your personalized test is ready.";
                     variant := DefaultVariant |})
           (λ error,
              toast {| title := "Error";
                       description := error_description error;
                       variant := Destructive |}))
        (modify (setIsGenerating false))
  end.

Definition handleNewTest (st : State) : State := setGeneratedTest None st.

End Component.

End Dashboard.

(** ** Strings and arrays of the remaining components *)

Module Text.

(** [s.includes(search)] *)
Fixpoint includes (s search : string) : bool :=
  String.prefix search s ||
  match s with
  | String _ rest => includes rest search
  | EmptyString => false
  end.

(** [array.includes(s)] on an array of strings *)
Definition elem (s : string) (array : list string) : bool := bool_decide (s ∈ array).

(** [array.join(separator)] *)
Definition join (separator : string) (array : list string) : string :=
  String.concat separator array.

(** [error.message]: the string an [Error] was built from; for every
    other error the text is the engine's. *)
Definition message_of (engine : Exn → string) (e : Exn) : string :=
  match e with
  | Error (JStr s) => s
  | _ => engine e
  end.

End Text.
Export Text.

(** ** components/adof/CVCollection.tsx *)

Module CVCollection.

(** Of [selectedJob] the handlers read [id] and [title]. *)
Record SelectedJob := { job_id : string; job_title : string }.

(** Of a [File] the handlers read [type] and [size] (in bytes); the view
    shows [name]. *)
Record File := { file_name : string; file_type : string; file_size : N }.

Record CVData := {
  name : string;
  email : string;
  phone : string;
  experience : string;
  skills : list string;
  education : string;
  file : option File }.

Record State := {
  formData : CVData;
  newSkill : string;
  uploadedFile : option File;
  isSubmitting : bool }.

Definition initial : State := {|
  formData := {| name := ""; email := ""; phone := ""; experience := "";
                 skills := []; education := ""; file := None |};
  newSkill := "";
  uploadedFile := None;
  isSubmitting := false |}.

Definition setFormData (f : CVData → CVData) (st : State) : State := {|
  formData := f (formData st);
  newSkill := newSkill st;
  uploadedFile := uploadedFile st;
  isSubmitting := isSubmitting st |}.

Definition setNewSkill (s : string) (st : State) : State := {|
  formData := formData st;
  newSkill := s;
  uploadedFile := uploadedFile st;
  isSubmitting := isSubmitting st |}.

Definition setUploadedFile (f : option File) (st : State) : State := {|
  formData := formData st;
  newSkill := newSkill st;
  uploadedFile := f;
  isSubmitting := isSubmitting st |}.

Definition setIsSubmitting (b : bool) (st : State) : State := {|
  formData := formData st;
  newSkill := newSkill st;
  uploadedFile := uploadedFile st;
  isSubmitting := b |}.

(** [{ ...prev, skills }] and [{ ...prev, file }] *)
Definition with_skills (l : list string) (prev : CVData) : CVData := {|
  name := name prev; email := email prev; phone := phone prev;
  experience := experience prev; skills := l; education := education prev;
  file := file prev |}.

Definition with_file (f : option File) (prev : CVData) : CVData := {|
  name := name prev; email := email prev; phone := phone prev;
  experience := experience prev; skills := skills prev; education := education prev;
  file := f |}.

(** The fields the inputs of the form write with [handleInputChange]. *)
Inductive Field : Type :=
| name_field | email_field | phone_field | experience_field | education_field.

(** [{ ...prev, [field]: value }] *)
Definition with_field (field : Field) (value : string) (prev : CVData) : CVData := {|
  name := match field with name_field => value | _ => name prev end;
  email := match field with email_field => value | _ => email prev end;
  phone := match field with phone_field => value | _ => phone prev end;
  experience := match field with experience_field => value | _ => experience prev end;
  skills := skills prev;
  education := match field with education_field => value | _ => education prev end;
  file := file prev |}.

Definition handleInputChange (field : Field) (value : string) (st : State) : State :=
  setFormData (with_field field value) st.

Definition handleAddSkill {rt : Runtime} (st : State) : State :=
  if negb (String.eqb (trim (newSkill st)) "")
     && negb (elem (trim (newSkill st)) (skills (formData st)))
  then setNewSkill ""
         (setFormData (λ prev, with_skills (skills prev ++ [trim (newSkill st)]) prev) st)
  else st.

Definition handleRemoveSkill (skillToRemove : string) (st : State) : State :=
  setFormData
    (λ prev, with_skills (filter (λ skill, skill ≠ skillToRemove) (skills prev)) prev) st.

Definition allowedTypes : list string :=
  ["application/pdf"; "application/msword";
   "application/vnd.openxmlformats-officedocument.wordprocessingml.document"].

Definition invalidFileType : Toast := {|
  title := "Invalid File Type";
  description := Text "Please upload a PDF or Word document.";
  variant := Destructive |}.

Definition fileTooLarge : Toast := {|
  title := "File Too Large";
  description := Text "Please upload a file smaller than 5MB.";
  variant := Destructive |}.

(** [handleFileUpload], given [event.target.files?.[0]]; it returns the
    notifications raised. *)
Definition handleFileUpload (selected : option File) (st : State) : State * list Toast :=
  match selected with
  | None => (st, [])
  | Some file =>
      if negb (elem (file_type file) allowedTypes) then (st, [invalidFileType])
      else if (5 * 1024 * 1024 <? file_size file)%N then (st, [fileTooLarge])
      else (setFormData (with_file (Some file)) (setUploadedFile (Some file) st), [])
  end.

(** The button next to the uploaded file. *)
Definition removeFile (st : State) : State :=
  setFormData (with_file None) (setUploadedFile None st).

Definition required (heading request : string) : Toast := {|
  title := heading;
  description := Text request;
  variant := Destructive |}.

(** The checks of [handleSubmit], in their order; the first that fails
    gives the notification. *)
Definition check {rt : Runtime} (d : CVData) : option Toast :=
  if String.eqb (trim (name d)) "" then
    Some (required "Name Required" "Please enter your full name.")
  else if String.eqb (trim (email d)) "" || negb (includes (email d) "@") then
    Some (required "Valid Email Required" "Please enter a valid email address.")
  else if String.eqb (trim (phone d)) "" then
    Some (required "Phone Required" "Please enter your phone number.")
  else if String.eqb (trim (experience d)) "" then
    Some (required "Experience Required" "Please describe your work experience.")
  else if (length (skills d) =? 0)%nat then
    Some (required "Skills Required" "Please add at least one skill.")
  else if String.eqb (trim (education d)) "" then
    Some (required "Education Required" "Please describe your educational background.")
  else None.

(** The entries of a [FormData], in the order they are appended. *)
Inductive FormValue : Type :=
| FormText (s : string)
| FormFile (f : File).

Definition formDataToSend (selectedJob : SelectedJob) (d : CVData)
  : list (string * FormValue) :=
  [("name", FormText (name d)); ("email", FormText (email d));
   ("phone", FormText (phone d)); ("experience", FormText (experience d));
   ("education", FormText (education d)); ("skills", FormText (join "," (skills d)));
   ("jobId", FormText (job_id selectedJob)); ("jobTitle", FormText (job_title selectedJob))]
  ++ match file d with
     | Some f => [("cvFile", FormFile f)]
     | None => []
     end.

(** The result of [api.submitUserData], as its signature declares it. *)
Record SubmitUserDataResult := { success : bool; result_message : string }.

Inductive Event : Type :=
| SubmitUserData (body : list (string * FormValue))
| Notify (t : Toast)
| CVSubmit (data : CVData).

Definition cvSubmitted (result : SubmitUserDataResult) : Toast := {|
  title := "CV Submitted Successfully!";
  description :=
    Text (str_or (result_message result)
            "Your information has been saved. Proceeding to assessment.");
  variant := DefaultVariant |}.

Definition cvSubmissionFailed (engine : Exn → string) (e : Exn) : Toast := {|
  title := "Submission Failed";
  description := Text (str_or (message_of engine e) "Please try again.");
  variant := Destructive |}.

Section Component.

Context {rt : Runtime}.
Variable selectedJob : SelectedJob.
(** The server, as [api.submitUserData] shows it, and the texts of the
    engine's own errors. *)
Variable api_submitUserData : list (string * FormValue) → Outcome SubmitUserDataResult.
Variable engine : Exn → string.

(** [handleSubmit] returns the state it leaves and its events, oldest
    first. *)
Definition handleSubmit (st : State) : State * list Event :=
  match check (formData st) with
  | Some t => (st, [Notify t])
  | None =>
      let submitting := setIsSubmitting true st in
      let body := formDataToSend selectedJob (formData st) in
      let attempt :=
        match api_submitUserData body with
        | Ok result => [SubmitUserData body; Notify (cvSubmitted result);
                        CVSubmit (formData st)]
        | Throw error => [SubmitUserData body; Notify (cvSubmissionFailed engine error)]
        end in
      (setIsSubmitting false submitting, attempt)
  end.

End Component.

End CVCollection.

(** ** components/AuthForm.tsx *)

Module AuthForm.

Inductive Mode : Type := signin_mode | signup_mode.

Record FormData := {
  name : string;
  email : string;
  password : string;
  role : string }.

Record State := {
  formData : FormData;
  isLoading : bool }.

Definition emptyForm : FormData := {| name := ""; email := ""; password := ""; role := "" |}.

Definition initial : State := {| formData := emptyForm; isLoading := false |}.

Definition setFormData (f : FormData → FormData) (st : State) : State := {|
  formData := f (formData st);
  isLoading := isLoading st |}.

Definition setIsLoading (b : bool) (st : State) : State := {|
  formData := formData st;
  isLoading := b |}.

(** The fields the inputs write. *)
Inductive Field : Type := name_field | email_field | password_field | role_field.

Definition with_field (field : Field) (value : string) (prev : FormData) : FormData := {|
  name := match field with name_field => value | _ => name prev end;
  email := match field with email_field => value | _ => email prev end;
  password := match field with password_field => value | _ => password prev end;
  role := match field with role_field => value | _ => role prev end |}.

Definition handleInputChange (field : Field) (value : string) (st : State) : State :=
  setFormData (with_field field value) st.

Record SigninData := { signin_email : string; signin_password : string }.

Inductive Event : Type :=
| Signup (data : FormData)
| Signin (data : SigninData)
| Notify (t : Toast)
| Login (userData : JValue)
| ToggleMode.

Definition accountCreated : Toast := {|
  title := "Account created successfully!";
  description := Text "Please sign in with your credentials.";
  variant := DefaultVariant |}.

Definition welcomeBack : Toast := {|
  title := "Welcome back!";
  description := Text "Successfully signed in.";
  variant := DefaultVariant |}.

Definition authError (e : Exn) : Toast := {|
  title := "Error";
  description := error_description e;
  variant := Destructive |}.

Definition fillInAllFields : Exn := Error (JStr "Please fill in all fields").

Section Component.

Variable mode : Mode.
(** The server, as [api.signup] and [api.signin] show it, and
    [Date.now().toString()]. *)
Variable api_signup : FormData → Outcome JValue.
Variable api_signin : SigninData → Outcome JValue.
Variable now : string.

(** [response.user || { id: response.id || Date.now().toString(), name:
    response.name || 'User', email: formData.email, role: response.role
    || 'TVET' }] for a response that is neither [null] nor
    [undefined]. *)
Definition userDataOf (response : JValue) (d : FormData) : JValue :=
  js_or (prop response "user")
    (JObj {[ "id" := js_or (prop response "id") (JStr now);
             "name" := js_or (prop response "name") (JStr "User");
             "email" := JStr (email d);
             "role" := js_or (prop response "role") (JStr "TVET") ]}).

(** The [try] block: the state it leaves, its events, and the error it
    throws, if any. *)
Definition attempt (st : State) : State * list Event * option Exn :=
  let d := formData st in
  match mode with
  | signup_mode =>
      if String.eqb (name d) "" || String.eqb (email d) ""
         || String.eqb (password d) "" || String.eqb (role d) ""
      then (st, [], Some fillInAllFields)
      else
        match api_signup d with
        | Ok _ => (setFormData (λ _, emptyForm) st,
                   [Signup d; Notify accountCreated; ToggleMode], None)
        | Throw e => (st, [Signup d], Some e)
        end
  | signin_mode =>
      if String.eqb (email d) "" || String.eqb (password d) ""
      then (st, [], Some fillInAllFields)
      else
        let signinData := {| signin_email := email d; signin_password := password d |} in
        match api_signin signinData with
        | Ok response =>
            if nullish response then (st, [Signin signinData], Some TypeError)
            else (st, [Signin signinData; Login (userDataOf response d); Notify welcomeBack],
                  None)
        | Throw e => (st, [Signin signinData], Some e)
        end
  end.

Definition handleSubmit (st : State) : State * list Event :=
  match attempt (setIsLoading true st) with
  | (st', evs, thrown) =>
      (setIsLoading false st',
       evs ++ match thrown with
              | Some error => [Notify (authError error)]
              | None => []
              end)
  end.

End Component.

End AuthForm.

(** ** components/adof/JobSelection.tsx *)

Module JobSelection.

(** Of a [Job] the filter reads [title], [company] and [skills], each
    guarded against its absence (and each skill against [null]). *)
Record Job := {
  job_id : string;
  job_title : option string;
  job_company : option string;
  job_skills : option (list (option string)) }.

(** The keys of the category buttons. *)
Inductive Category : Type := all | technology | marketing | business | design | sales.

Record State := {
  searchTerm : string;
  selectedCategory : Category;
  jobs : list Job;
  isLoading : bool;
  error : option string }.

Definition initial : State := {|
  searchTerm := "";
  selectedCategory := all;
  jobs := [];
  isLoading := true;
  error := None |}.

Definition setSearchTerm (s : string) (st : State) : State := {|
  searchTerm := s; selectedCategory := selectedCategory st; jobs := jobs st;
  isLoading := isLoading st; error := error st |}.

Definition setSelectedCategory (c : Category) (st : State) : State := {|
  searchTerm := searchTerm st; selectedCategory := c; jobs := jobs st;
  isLoading := isLoading st; error := error st |}.

Definition setJobs (l : list Job) (st : State) : State := {|
  searchTerm := searchTerm st; selectedCategory := selectedCategory st; jobs := l;
  isLoading := isLoading st; error := error st |}.

Definition setIsLoading (b : bool) (st : State) : State := {|
  searchTerm := searchTerm st; selectedCategory := selectedCategory st; jobs := jobs st;
  isLoading := b; error := error st |}.

Definition setError (e : option string) (st : State) : State := {|
  searchTerm := searchTerm st; selectedCategory := selectedCategory st; jobs := jobs st;
  isLoading := isLoading st; error := e |}.

(** [categoryMatch[selectedCategory] || []] *)
Definition keywords (c : Category) : list string :=
  match c with
  | all => []
  | technology => ["software"; "developer"; "data"; "analyst"; "engineer";
                   "programming"; "code"]
  | marketing => ["marketing"; "seo"; "social"; "content"; "digital"; "advertising"]
  | business => ["project"; "manager"; "business"; "management"; "strategy"; "operations"]
  | design => ["designer"; "ux"; "ui"; "user experience"; "graphic"; "creative"]
  | sales => ["sales"; "representative"; "account manager"; "business development";
              "bdr"; "sdr"]
  end.

Section Component.

(** [String.prototype.toLowerCase] is the runtime's. *)
Variable toLowerCase : string → string.
(** The server, as [api.getJobs] shows it, and the texts of the engine's
    own errors. *)
Variable api_getJobs : Outcome (list Job).
Variable engine : Exn → string.

(** [x?.toLowerCase() || ''] *)
Definition lowered (x : option string) : string :=
  match x with
  | Some s => str_or (toLowerCase s) ""
  | None => ""
  end.

(** [jobSkills.some(skill => skill?.toLowerCase().includes(search))] *)
Definition someSkill (jobSkills : list (option string)) (search : string) : bool :=
  existsb (λ skill, match skill with
                    | Some s => includes (toLowerCase s) search
                    | None => false
                    end) jobSkills.

Definition matchesSearch (st : State) (job : Job) : bool :=
  let jobSkills := default [] (job_skills job) in
  let search := toLowerCase (searchTerm st) in
  includes (lowered (job_title job)) search
  || includes (lowered (job_company job)) search
  || someSkill jobSkills search.

Definition matchesCategory (st : State) (job : Job) : bool :=
  let jobSkills := default [] (job_skills job) in
  existsb (λ keyword, includes (lowered (job_title job)) keyword || someSkill jobSkills keyword)
    (keywords (selectedCategory st)).

(** The callback of [jobs.filter]. *)
Definition shown (st : State) (job : Job) : bool :=
  match selectedCategory st with
  | all => matchesSearch st job
  | _ => matchesSearch st job && matchesCategory st job
  end.

Definition filteredJobs (st : State) : list Job := List.filter (shown st) (jobs st).

(** The [Clear filters] button. *)
Definition clearFilters (st : State) : State :=
  setSelectedCategory all (setSearchTerm "" st).

Definition loadError (message : string) : Toast := {|
  title := "Error";
  description := Text message;
  variant := Destructive |}.

(** [fetchJobs], run once when the component is mounted (and still
    mounted when the request settles); it returns the notifications
    raised. *)
Definition fetchJobs (st : State) : State * list Toast :=
  match api_getJobs with
  | Ok data => (setIsLoading false (setError None (setJobs data (setIsLoading true st))), [])
  | Throw err =>
      let errorMessage :=
        str_or (message_of engine err) "Failed to load jobs. Please try again later." in
      (setIsLoading false (setError (Some errorMessage) (setIsLoading true st)),
       [loadError errorMessage])
  end.

(** The handler of the [Retry] button. *)
Definition retry (st : State) : State :=
  let st := setError None (setIsLoading true st) in
  match api_getJobs with
  | Ok data => setIsLoading false (setJobs data st)
  | Throw _ => setIsLoading false (setError (Some "Failed to load jobs. Please try again.") st)
  end.

(** What the component renders below the filters. *)
Inductive View : Type :=
| Spinner
| Failure (message : string)
| NoJobs
| Listing (cards : list Job).

Definition view (st : State) : View :=
  if isLoading st then Spinner
  else match error st with
       | Some message =>
           if String.eqb message "" then
             match filteredJobs st with [] => NoJobs | cards => Listing cards end
           else Failure message
       | None =>
           match filteredJobs st with [] => NoJobs | cards => Listing cards end
       end.

End Component.

End JobSelection.

(** ** components/ADOFDashboard.tsx *)

Module ADOFDashboard.

Inductive ADOFStep : Type := jobs | cv | test | report.

Section Component.

(** The dashboard stores the selected job and the CV data and passes them
    on without reading them. *)
Context {SelectedJob CVData : Type}.

Record State := {
  currentStep : ADOFStep;
  selectedJob : option SelectedJob;
  cvData : option CVData;
  testResults : JValue }.

Definition initial : State := {|
  currentStep := jobs;
  selectedJob := None;
  cvData := None;
  testResults := JNull |}.

Definition setCurrentStep (s : ADOFStep) (st : State) : State := {|
  currentStep := s; selectedJob := selectedJob st; cvData := cvData st;
  testResults := testResults st |}.

Definition setSelectedJob (j : option SelectedJob) (st : State) : State := {|
  currentStep := currentStep st; selectedJob := j; cvData := cvData st;
  testResults := testResults st |}.

Definition setCvData (d : option CVData) (st : State) : State := {|
  currentStep := currentStep st; selectedJob := selectedJob st; cvData := d;
  testResults := testResults st |}.

Definition setTestResults (v : JValue) (st : State) : State := {|
  currentStep := currentStep st; selectedJob := selectedJob st; cvData := cvData st;
  testResults := v |}.

Definition handleJobSelect (job : SelectedJob) (st : State) : State :=
  setCurrentStep cv (setSelectedJob (Some job) st).

Definition handleCVSubmit (data : CVData) (st : State) : State :=
  setCurrentStep test (setCvData (Some data) st).

Definition handleTestComplete (results : JValue) (st : State) : State :=
  setCurrentStep report (setTestResults results st).

Definition handleBackToJobs (st : State) : State :=
  setTestResults JNull (setCvData None (setSelectedJob None (setCurrentStep jobs st))).

(** The callbacks the component rendered for the current step can fire:
    [renderCurrentStep] passes [onJobSelect] to [JobSelection],
    [onCVSubmit] and [onBack] to [CVCollection], [onTestComplete] and
    [onBack] to [ADOFTestDisplay], [onBackToJobs] to [ADOFReports]. *)
Inductive Callback : Type :=
| JobSelect (job : SelectedJob)
| CVSubmit (data : CVData)
| TestCompleted (results : JValue)
| Back
| BackToJobs.

Definition fire (c : Callback) (st : State) : State :=
  match currentStep st, c with
  | jobs, JobSelect job => handleJobSelect job st
  | cv, CVSubmit data => handleCVSubmit data st
  | cv, Back => setCurrentStep jobs st
  | test, TestCompleted results => handleTestComplete results st
  | test, Back => setCurrentStep cv st
  | report, BackToJobs => handleBackToJobs st
  | _, _ => st
  end.

(** What [renderCurrentStep] needs of the state: [selectedJob!] and
    [cvData!] are passed on as if they were never [null]. *)
Definition renders (st : State) : Prop :=
  match currentStep st with
  | jobs => True
  | cv => is_Some (selectedJob st)
  | test | report => is_Some (selectedJob st) ∧ is_Some (cvData st)
  end.

(** [isCompleted] of [renderStepIndicator], for the step [key]. *)
Definition isCompleted (st : State) (key : ADOFStep) : bool :=
  match key with
  | jobs => bool_decide (is_Some (selectedJob st))
  | cv => bool_decide (is_Some (cvData st))
  | test | report => truthy (testResults st)
  end.

End Component.

#[global] Arguments State : clear implicits.
#[global] Arguments Callback : clear implicits.

(** [userId={user?.id || ''}], the property handed to the test view. *)
Definition userIdOf (user : option string) : string := opt_or user "".

End ADOFDashboard.

(** ** pages/Index.tsx *)

Module Index.

Inductive Page : Type :=
| LoadingPage
| ADOFDashboardPage
| DashboardPage
| AuthFormPage (mode : AuthForm.Mode).

Definition toggleAuthMode (prev : AuthForm.Mode) : AuthForm.Mode :=
  match prev with
  | AuthForm.signin_mode => AuthForm.signup_mode
  | AuthForm.signup_mode => AuthForm.signin_mode
  end.

(** [v === s] for a string literal [s] *)
Definition is_string (v : JValue) (s : string) : bool :=
  match v with
  | JStr s' => String.eqb s' s
  | _ => false
  end.

(** What [Index] renders, given [useAuth()] and its own [authMode];
    [user] is [null] while nobody is signed in. *)
Definition render (isLoading : bool) (user : JValue) (authMode : AuthForm.Mode) : Page :=
  if isLoading then LoadingPage
  else if truthy user then
    if is_string (prop user "role") "ADOF" then ADOFDashboardPage else DashboardPage
  else AuthFormPage authMode.

End Index.

(** * Vocabulary of the properties *)

(** ** Runs and their events *)

Section Runs.

Context {B : Backend} {S : Type}.

(** A handler respects a relation between runs when the run after it is
    related to the run before it, whatever that is. *)
Definition respects (R : relation (Run B S)) {A} (m : M B S A) : Prop :=
  ∀ r, R r (m r).2.

(** The events a computation adds to the trace. *)
Definition events {A} (m : M B S A) (r : Run B S) : list Event :=
  drop (length (trace r)) (trace (m r).2).

(** Every event added satisfies [Q]. *)
Definition emits (Q : Event → Prop) : relation (Run B S) := λ r r',
  ∃ evs, trace r' = trace r ++ evs ∧ Forall Q evs.

(** The component state before and after is related by [P]. *)
Definition keeps (P : relation S) : relation (Run B S) := λ r r',
  P (comp r) (comp r').

End Runs.

Definition ended (B : Backend) {S : Type} (st : S) (w : World B) (evs : list Event)
  : Run B S :=
  {| comp := st; world := w; trace := evs |}.

Definition start (B : Backend) {S : Type} (st : S) (w : World B) : Run B S :=
  ended B st w [].

(** ** Notifications *)

Definition incompleteTest : Toast := {|
  title := "Incomplete Test";
  description := Text "Please answer all questions before submitting.";
  variant := Destructive |}.

Definition submissionFailed (d : Description) : Toast := {|
  title := "Submission Failed";
  description := d;
  variant := Destructive |}.

Definition userIdRequired : Description :=
  Text "User ID is required. Please log in again.".

Definition documentIdRequired : Description :=
  Text "Test document ID is required. Please generate a new test.".

Definition documentIdMissing : Description :=
  Text "Test document ID is missing. Please generate a new test.".

Definition submitted (p : JValue) : Toast := {|
  title := "Test Submitted Successfully!";
  description := YourScore p;
  variant := DefaultVariant |}.

Definition assessmentCompleted (p : JValue) : Toast := {|
  title := "Assessment Completed!";
  description := YourScore p;
  variant := DefaultVariant |}.

Definition generated : Toast := {|
  title := "Test Generated Successfully!";
  description := Text "Your personalized test is ready.";
  variant := DefaultVariant |}.

Definition generationError (d : Description) : Toast := {|
  title := "Error";
  description := d;
  variant := Destructive |}.

(** ** TestDisplay *)

Section TestDisplayVocabulary.

Import TestDisplay.
Context {B : Backend} {rt : Runtime}.
Variable props : Props.


(** The state in which the [try] block runs, and the state a failed
    submission leaves. *)
Definition started (st : State) : State :=
  setTestResult None (setIsSubmitting true st).

Definition afterFailure (st : State) : State :=
  setIsSubmitting false (setTestResult None (setIsSubmitting true st)).

(** [submitResponse.result_id || (submitResponse.data &&
    submitResponse.data.result_id)] as a value, for a response that is
    neither [null] nor [undefined]. *)
Definition resultIdValue (submitResponse : JValue) : JValue :=
  js_or (prop submitResponse "result_id")
    (js_and (prop submitResponse "data")
       (prop (prop submitResponse "data") "result_id")).

(** What is stored as the result once the detailed result was asked
    for. *)
Definition storedResult (submitResponse : JValue) (fetched : Outcome JValue) : JValue :=
  match fetched with
  | Ok detailedResult =>
      if nullish detailedResult then submitResponse
      else if truthy (prop detailedResult "data") then detailedResult
      else submitResponse
  | Throw _ => submitResponse
  end.

(** What no handler of the view changes: the selected answers and the
    question shown stay, and the submitted flag is never cleared. *)
Definition frame : relation State := λ st st',
  selectedAnswers st' = selectedAnswers st
  ∧ currentQuestionIndex st' = currentQuestionIndex st
  ∧ (isSubmitted st = true → isSubmitted st' = true).

(** The [try] / [catch] / [finally] of [handleSubmit] around a body. *)
Definition conclude (body : M B State unit) : M B State unit :=
  try_finally
    (try_catch body
       (λ error, toast (submissionFailed (error_description error))))
    (modify (setIsSubmitting false)).

(** What [handleSubmit] runs in its [try] block. *)
Definition submission (st : State) : M B State unit :=
  validate props st;;
  try_catch (_ ← await_getMcqs (userId props); mret tt) (λ _, mret tt);;
  submitResponse ← submitWithFallback props st;
  resolveResult submitResponse.

(** The runs the user can reach from [r0] with the controls of the
    view. *)
Inductive reachable (r0 : Run B State) : Run B State → Prop :=
| reachable_start : reachable r0 r0
| reachable_step r a :
    reachable r0 r → from_view (comp r) a → reachable r0 (step props a r).

(** The question shown and the questions answered are questions of the
    test (with no question at all, index 0 is shown). *)
Definition in_range (st : State) : Prop :=
  currentQuestionIndex st < max 1 (questionCount props)
  ∧ ∀ i, i ∈ dom (selectedAnswers st) → i < max 1 (questionCount props).

(** Moving between questions. *)
Inductive Move : Type := Forward | Backward.

Definition move (st : State) (m : Move) : State :=
  match m with
  | Forward => handleNext props st
  | Backward => handlePrevious st
  end.

End TestDisplayVocabulary.

(** ** ADOFTestDisplay *)

Section ADOFTestDisplayVocabulary.

Import ADOFTestDisplay.
Variable props : Props.


Definition adof_finished (st : State) : State :=
  setIsSubmitting false (setIsSubmitting true st).

End ADOFTestDisplayVocabulary.

(** ** Dashboard *)

(** The test shown after both calls. *)
Definition acquired (testData : GenerateTestResponse) (fetched : Outcome GetMcqsResponse)
  : GenerateTestResponse :=
  match fetched with
  | Ok mcqsData =>
      if Dashboard.hasQuestions mcqsData
      then Dashboard.merged testData mcqsData
      else testData
  | Throw _ => testData
  end.

(** ** The API client *)

(** The sentence of the specification on error responses, read
    literally: whatever the operation, the message of an error response is
    the one [spec_error_message] describes. *)
Definition every_error_message_extracted : Prop :=
  ∀ (JSON_parse : string → option JValue) (op : Operation) (response : Response)
    (message : JValue),
    ok response = false →
    spec_error_message JSON_parse (text response) = Some message →
    handle JSON_parse op response = Throw (Error message).

(** ** The runtime of the samples *)

(** The strings of the samples are UTF-8 text.  The white space and line
    terminators of ECMAScript are, by [a], [a b] or [a b c], the bytes of
    their encoding: TAB, LF, VT, FF, CR and SPACE; U+00A0; and U+1680,
    U+2000 to U+200A, U+2028, U+2029, U+202F, U+205F, U+3000 and
    U+FEFF. *)
Definition white_space1 (a : nat) : bool :=
  ((9 <=? a)%nat && (a <=? 13)%nat) || (a =? 32)%nat.

Definition white_space2 (a b : nat) : bool :=
  (a =? 194)%nat && (b =? 160)%nat.

Definition white_space3 (a b c : nat) : bool :=
  (a =? 225)%nat && (b =? 154)%nat && (c =? 128)%nat
  || (a =? 226)%nat && (b =? 128)%nat
     && (((128 <=? c)%nat && (c <=? 138)%nat)
         || (c =? 168)%nat || (c =? 169)%nat || (c =? 175)%nat)
  || (a =? 226)%nat && (b =? 129)%nat && (c =? 159)%nat
  || (a =? 227)%nat && (b =? 128)%nat && (c =? 128)%nat
  || (a =? 239)%nat && (b =? 187)%nat && (c =? 191)%nat.

(** Removing them from the front of a string; with [forward] unset the
    string is read from its end, so the bytes of a character arrive in
    reverse. *)
Fixpoint strip (forward : bool) (s : string) : string :=
  match s with
  | String x rest =>
      let a := nat_of_ascii x in
      if white_space1 a then strip forward rest
      else
        match rest with
        | String y rest2 =>
            let b := nat_of_ascii y in
            if (if forward then white_space2 a b else white_space2 b a)
            then strip forward rest2
            else
              match rest2 with
              | String z rest3 =>
                  let c := nat_of_ascii z in
                  if (if forward then white_space3 a b c else white_space3 c b a)
                  then strip forward rest3
                  else s
              | EmptyString => s
              end
        | EmptyString => s
        end
  | EmptyString => EmptyString
  end.

Definition trim_utf8 (s : string) : string :=
  String.rev (strip false (String.rev (strip true s))).

(** Every closed statement below (the samples, the witnesses of the
    theorems) is about this runtime; the theorems themselves hold for
    every runtime. *)
#[global] Instance utf8 : Runtime := {|
  trim := trim_utf8;
  trim_empty := eq_refl |}.

(** ** Sample data *)

Definition sampleQuestion : TestQuestion := {|
  question := "I enjoy working in a team.";
  question_no := 1;
  trait := "Teamwork";
  options := [ {| score := 1; option_text := "Strongly Disagree" |};
               {| score := 2; option_text := "Disagree" |};
               {| score := 3; option_text := "Neutral" |};
               {| score := 4; option_text := "Agree" |};
               {| score := 5; option_text := "Strongly Agree" |} ] |}.

(** A one-question test identified by [document_id] only. *)
Definition sampleTest : GenerateTestResponse := {|
  mcqs_id := None;
  document_id := Some "doc-1";
  documentId := None;
  id := None;
  _id := None;
  message := "Test generated";
  questions := [sampleQuestion];
  test_trait := None |}.

(** The same test without any identifier. *)
Definition anonymousTest : GenerateTestResponse := {|
  mcqs_id := None;
  document_id := None;
  documentId := None;
  id := None;
  _id := None;
  message := "Test generated";
  questions := [sampleQuestion];
  test_trait := None |}.

(** The copy of a generated test the server keeps under its own
    identifier. *)
Definition storedCopy : GetMcqsResponse := {|
  mcqs_mcqs_id := Some "mcq-7";
  mcqs_document_id := None;
  mcqs_questions := Some [sampleQuestion; sampleQuestion];
  mcqs_message := None |}.

(** The response of an accepted submission. *)
Definition acceptedResponse : JValue :=
  JObj {[ "data" := JObj {[ "result_id" := JStr "res-1"; "percentage" := JNum 80 ]};
          "message" := JStr "Answers submitted" ]}.

(** A server that cannot be reached: every [fetch] rejects. *)
Definition offline : Backend := {|
  World := unit;
  api_generateTest := λ _ w, (Throw TypeError, w);
  api_getMcqs := λ _ w, (Throw TypeError, w);
  api_submitAnswers := λ _ w, (Throw TypeError, w);
  api_getResultById := λ _ w, (Throw TypeError, w) |}.

(** A server that accepts the answers and then fails to deliver the
    result. *)
Definition forgetful : Backend := {|
  World := unit;
  api_generateTest := λ _ w, (Ok sampleTest, w);
  api_getMcqs := λ _ w, (Throw (Error (JStr "Failed to get MCQs")), w);
  api_submitAnswers := λ _ w, (Ok acceptedResponse, w);
  api_getResultById := λ _ w, (Throw (Error (JStr "Failed to fetch result")), w) |}.

(** A server that answers every call. *)
Definition archive : Backend := {|
  World := unit;
  api_generateTest := λ _ w, (Ok sampleTest, w);
  api_getMcqs := λ _ w, (Ok storedCopy, w);
  api_submitAnswers := λ _ w, (Ok acceptedResponse, w);
  api_getResultById := λ _ w, (Ok acceptedResponse, w) |}.

Definition sampleUser : Dashboard.User := {| Dashboard.user_id_of := "user-1" |}.

Definition sampleProps : TestDisplay.Props := {|
  TestDisplay.testData := sampleTest;
  TestDisplay.userId := "user-1" |}.

Definition anonymousProps : TestDisplay.Props := {|
  TestDisplay.testData := anonymousTest;
  TestDisplay.userId := "user-1" |}.

(** A user whose identifier is a single space. *)
Definition blankUserProps : TestDisplay.Props := {|
  TestDisplay.testData := anonymousTest;
  TestDisplay.userId := " " |}.

Definition twoQuestions : TestDisplay.Props := {|
  TestDisplay.testData := {|
    mcqs_id := Some "mcq-7";
    document_id := None;
    documentId := None;
    id := None;
    _id := None;
    message := "Test generated";
    questions := [sampleQuestion; sampleQuestion];
    test_trait := None |};
  TestDisplay.userId := "user-1" |}.

Definition adofProps : ADOFTestDisplay.Props := {| ADOFTestDisplay.userId := "user-1" |}.

(** The one question answered with "Agree". *)
Definition answered : TestDisplay.State :=
  TestDisplay.handleAnswerSelect 0 4 TestDisplay.initial.

Definition submittedState : TestDisplay.State :=
  TestDisplay.setIsSubmitted true answered.

Definition adofAnswered (t : GenerateTestResponse) : ADOFTestDisplay.State :=
  ADOFTestDisplay.handleAnswerSelect 0 4
    (ADOFTestDisplay.setTestData (Some t) ADOFTestDisplay.initial).

(** Error responses: a conflict reported by [/signup] and a rejection by
    [/submit_answers], both as a JSON object with an [error] member, and a
    failure of [/get_mcqs] without a body. *)
Definition quote : string := String (ascii_of_nat 34) EmptyString.

Definition errorBody (reason : string) : string :=
  "{" +:+ quote +:+ "error" +:+ quote +:+ ":" +:+ quote +:+ reason +:+ quote +:+ "}".

Definition conflictBody : string := errorBody "Email already registered".

Definition rejectedBody : string := errorBody "mcq_id not found".

Definition conflict : Response := {|
  status := 409; statusText := "Conflict"; text := conflictBody |}.

Definition rejected : Response := {|
  status := 404; statusText := "Not Found"; text := rejectedBody |}.

Definition unavailable : Response := {|
  status := 503; statusText := "Service Unavailable"; text := "" |}.

(** [JSON.parse] on the bodies of these responses. *)
Definition parse_sample (body : string) : option JValue :=
  if String.eqb body conflictBody
  then Some (JObj {[ "error" := JStr "Email already registered" ]})
  else if String.eqb body rejectedBody
  then Some (JObj {[ "error" := JStr "mcq_id not found" ]})
  else None.

(** ** Further vocabulary and sample data *)

(** A successful response of [/jobs] without any job, and [JSON.parse] on
    the bodies used below. *)
Definition emptyListing : Response := {|
  status := 200; statusText := "OK"; text := "[]" |}.

Definition emptyObject : Response := {|
  status := 200; statusText := "OK"; text := "{}" |}.

Definition truncated : Response := {|
  status := 200; statusText := "OK"; text := "{" |}.

Definition parse_literals (body : string) : option JValue :=
  if String.eqb body "[]" then Some (JArr [])
  else if String.eqb body "{}" then Some (JObj ∅)
  else None.

(** A test whose only identifier is a single space. *)
Definition blankIdProps : TestDisplay.Props := {|
  TestDisplay.testData := {|
    mcqs_id := Some " ";
    document_id := None;
    documentId := None;
    id := None;
    _id := None;
    message := "Test generated";
    questions := [sampleQuestion];
    test_trait := None |};
  TestDisplay.userId := "user-1" |}.

(** A stored result with its own [data], and a server that delivers it. *)
Definition detailedResponse : JValue :=
  JObj {[ "data" := JObj {[ "result_id" := JStr "res-1"; "percentage" := JNum 80;
                            "total_score" := JNum 4; "max_score" := JNum 5 ]};
          "message" := JStr "Result found" ]}.

Definition registry : Backend := {|
  World := unit;
  api_generateTest := λ _ w, (Ok sampleTest, w);
  api_getMcqs := λ _ w, (Ok storedCopy, w);
  api_submitAnswers := λ _ w, (Ok acceptedResponse, w);
  api_getResultById := λ _ w, (Ok detailedResponse, w) |}.

(** What neither [generateTest] nor [handleSubmit] of the ADOF test view
    changes: the answers selected and the question shown. *)
Definition adof_frame : relation ADOFTestDisplay.State := λ st st',
  ADOFTestDisplay.selectedAnswers st' = ADOFTestDisplay.selectedAnswers st
  ∧ ADOFTestDisplay.currentQuestionIndex st' = ADOFTestDisplay.currentQuestionIndex st.

(** [handleSubmit] moreover keeps the test. *)
Definition adof_submit_frame : relation ADOFTestDisplay.State := λ st st',
  adof_frame st st' ∧ ADOFTestDisplay.testData st' = ADOFTestDisplay.testData st.

Definition testGenerated : Toast := {|
  title := "Test Generated";
  description := Text "Your personalized assessment is ready.";
  variant := DefaultVariant |}.

Definition testGenerationFailed (d : Description) : Toast := {|
  title := "Test Generation Failed";
  description := d;
  variant := Destructive |}.

Definition userIdMissing : Toast := {|
  title := "Error";
  description := Text "User ID is required to generate test.";
  variant := Destructive |}.

(** What the user can do in the ADOF test view once a test is shown. *)
Inductive AdofAction : Type :=
| AdofSelect (questionIndex : nat) (optionScore : Z)
| AdofNext
| AdofPrevious
| AdofSubmit.

Definition adof_step {B : Backend} (props : ADOFTestDisplay.Props) (a : AdofAction)
    (r : Run B ADOFTestDisplay.State) : Run B ADOFTestDisplay.State :=
  match a with
  | AdofSelect i s => (modify (ADOFTestDisplay.handleAnswerSelect i s) r).2
  | AdofNext => (modify ADOFTestDisplay.handleNext r).2
  | AdofPrevious => (modify ADOFTestDisplay.handlePrevious r).2
  | AdofSubmit => (ADOFTestDisplay.handleSubmit props r).2
  end.

Definition adof_run {B : Backend} (props : ADOFTestDisplay.Props)
    (actions : list AdofAction) (r : Run B ADOFTestDisplay.State)
  : Run B ADOFTestDisplay.State :=
  foldl (λ r a, adof_step props a r) r actions.

Definition blankAdofProps : ADOFTestDisplay.Props := {| ADOFTestDisplay.userId := "" |}.

(** A stored copy whose [document_id] is the empty string. *)
Definition unnamedCopy : GetMcqsResponse := {|
  mcqs_mcqs_id := None;
  mcqs_document_id := Some "";
  mcqs_questions := Some [sampleQuestion];
  mcqs_message := None |}.

(** ** The CV form *)

(** What the user can do in the CV form: type into the skill input or
    into a field, add the typed skill, remove a skill, choose a file (or
    cancel the dialog), remove the file, submit. *)
Inductive CvAction : Type :=
| CvTypeSkill (s : string)
| CvInput (field : CVCollection.Field) (value : string)
| CvAddSkill
| CvRemoveSkill (skillToRemove : string)
| CvUpload (selected : option CVCollection.File)
| CvRemoveFile
| CvSubmit.

Section CvRuns.

Context {rt : Runtime}.
Variable selectedJob : CVCollection.SelectedJob.
Variable api_submitUserData :
  list (string * CVCollection.FormValue) → Outcome CVCollection.SubmitUserDataResult.
Variable engine : Exn → string.

Definition cv_step (a : CvAction) (st : CVCollection.State) : CVCollection.State :=
  match a with
  | CvTypeSkill s => CVCollection.setNewSkill s st
  | CvInput field value => CVCollection.handleInputChange field value st
  | CvAddSkill => CVCollection.handleAddSkill st
  | CvRemoveSkill s => CVCollection.handleRemoveSkill s st
  | CvUpload selected => (CVCollection.handleFileUpload selected st).1
  | CvRemoveFile => CVCollection.removeFile st
  | CvSubmit => (CVCollection.handleSubmit selectedJob api_submitUserData engine st).1
  end.

Definition cv_run (actions : list CvAction) (st : CVCollection.State) : CVCollection.State :=
  foldl (λ st a, cv_step a st) st actions.

End CvRuns.

(** The skills are distinct and none is empty. *)
Definition skills_distinct (st : CVCollection.State) : Prop :=
  NoDup (CVCollection.skills (CVCollection.formData st))
  ∧ "" ∉ CVCollection.skills (CVCollection.formData st).

(** The file shown is the file of the form, and it passed the checks. *)
Definition file_accepted (st : CVCollection.State) : Prop :=
  CVCollection.file (CVCollection.formData st) = CVCollection.uploadedFile st
  ∧ ∀ f, CVCollection.uploadedFile st = Some f →
         CVCollection.file_type f ∈ CVCollection.allowedTypes
         ∧ (CVCollection.file_size f ≤ 5242880)%N.

(** Sample data of the form. *)
Definition sampleJob : CVCollection.SelectedJob := {|
  CVCollection.job_id := "job-1";
  CVCollection.job_title := "Data Analyst" |}.

Definition sampleCV : CVCollection.CVData := {|
  CVCollection.name := "Ada";
  CVCollection.email := "ada@example.org";
  CVCollection.phone := "555-0100";
  CVCollection.experience := "Five years of reporting";
  CVCollection.skills := ["SQL"];
  CVCollection.education := "BSc";
  CVCollection.file := None |}.

Definition filledForm : CVCollection.State :=
  CVCollection.setNewSkill " Python "
    (CVCollection.setFormData (λ _, sampleCV) CVCollection.initial).

Definition fiveMegabytes : CVCollection.File := {|
  CVCollection.file_name := "cv.pdf";
  CVCollection.file_type := "application/pdf";
  CVCollection.file_size := 5242880 |}.

Definition oversized : CVCollection.File := {|
  CVCollection.file_name := "cv.pdf";
  CVCollection.file_type := "application/pdf";
  CVCollection.file_size := 5242881 |}.

Definition saved : CVCollection.SubmitUserDataResult := {|
  CVCollection.success := true;
  CVCollection.result_message := "" |}.

Definition accepting (body : list (string * CVCollection.FormValue))
  : Outcome CVCollection.SubmitUserDataResult := Ok saved.

Definition refusing (body : list (string * CVCollection.FormValue))
  : Outcome CVCollection.SubmitUserDataResult :=
  Throw (Error (JStr "Failed to submit data: 500 Internal Server Error")).

(** The engine's texts are of no interest in the samples. *)
Definition silent (e : Exn) : string := "".

(** ** Signing in and up *)

Definition credentials : AuthForm.State := {|
  AuthForm.formData := {| AuthForm.name := ""; AuthForm.email := "ada@example.org";
                          AuthForm.password := "secret"; AuthForm.role := "" |};
  AuthForm.isLoading := false |}.

Definition registration : AuthForm.State := {|
  AuthForm.formData := {| AuthForm.name := "Ada"; AuthForm.email := "ada@example.org";
                          AuthForm.password := "secret"; AuthForm.role := "ADOF" |};
  AuthForm.isLoading := false |}.

(** A server that knows nobody, and one that answers a sign-in with a
    message only. *)
Definition unknownUser (data : AuthForm.SigninData) : Outcome JValue :=
  Throw (Error (JStr "Invalid credentials")).

Definition greeting (data : AuthForm.SigninData) : Outcome JValue :=
  Ok (JObj {[ "message" := JStr "Login successful" ]}).

Definition registering (data : AuthForm.FormData) : Outcome JValue :=
  Ok (JObj {[ "message" := JStr "User created" ]}).

Definition taken (data : AuthForm.FormData) : Outcome JValue :=
  Throw (Error (JStr conflictBody)).

(** ** The job list *)

(** Lower case on the letters A to Z. *)
Definition lower_ascii (c : ascii) : ascii :=
  let n := nat_of_ascii c in
  if ((65 <=? n)%nat && (n <=? 90)%nat)%bool then ascii_of_nat (n + 32) else c.

Fixpoint lower (s : string) : string :=
  match s with
  | String c rest => String (lower_ascii c) (lower rest)
  | EmptyString => EmptyString
  end.

Definition analystJob : JobSelection.Job := {|
  JobSelection.job_id := "job-1";
  JobSelection.job_title := Some "Data Analyst";
  JobSelection.job_company := Some "Acme";
  JobSelection.job_skills := Some [Some "SQL"; None] |}.

(** A job of which the server sent the identifier only. *)
Definition bareJob : JobSelection.Job := {|
  JobSelection.job_id := "job-2";
  JobSelection.job_title := None;
  JobSelection.job_company := None;
  JobSelection.job_skills := None |}.

Definition searching : JobSelection.State := {|
  JobSelection.searchTerm := "acme";
  JobSelection.selectedCategory := JobSelection.design;
  JobSelection.jobs := [analystJob; bareJob];
  JobSelection.isLoading := false;
  JobSelection.error := None |}.

(** ** The ADOF wizard *)

Section Wizard.

Context {SelectedJob CVData : Type}.
Local Abbreviation State := (ADOFDashboard.State SelectedJob CVData).
Local Abbreviation Callback := (ADOFDashboard.Callback SelectedJob CVData).

Definition wizard_run (callbacks : list Callback) (st : State) : State :=
  foldl (λ st c, ADOFDashboard.fire c st) st callbacks.

(** What the wizard keeps: the current step can be rendered, CV data is
    only present together with a job, and a truthy test result only on the
    report step. *)
Definition wizard_invariant (st : State) : Prop :=
  ADOFDashboard.renders st
  ∧ (is_Some (ADOFDashboard.cvData st) → is_Some (ADOFDashboard.selectedJob st))
  ∧ (truthy (ADOFDashboard.testResults st) = true →
     ADOFDashboard.currentStep st = ADOFDashboard.report).

(** The events of the test view, as the dashboard receives them:
    [onTestComplete] is [handleTestComplete]. *)
Definition onTestEvents (evs : list Event) (st : State) : State :=
  foldl (λ st e, match e with
                 | TestComplete results =>
                     ADOFDashboard.fire (ADOFDashboard.TestCompleted results) st
                 | _ => st
                 end) st evs.

End Wizard.

(** The wizard with a job selected and the CV submitted. *)
Definition atTest : ADOFDashboard.State CVCollection.SelectedJob CVCollection.CVData :=
  wizard_run [ADOFDashboard.JobSelect sampleJob; ADOFDashboard.CVSubmit sampleCV]
    ADOFDashboard.initial.

(** ** Further responses *)

(** An accepted submission scored with zero per cent, without a result
    identifier. *)
Definition zeroResponse : JValue :=
  JObj {[ "data" := JObj {[ "percentage" := JNum 0 ]};
          "message" := JStr "Answers submitted" ]}.

Definition strict : Backend := {|
  World := unit;
  api_generateTest := λ _ w, (Ok sampleTest, w);
  api_getMcqs := λ _ w, (Ok storedCopy, w);
  api_submitAnswers := λ _ w, (Ok zeroResponse, w);
  api_getResultById := λ _ w, (Throw (Error (JStr "Failed to fetch result")), w) |}.

(** The ADOF test view once the test is loaded, before any answer. *)
Definition adofLoaded : ADOFTestDisplay.State :=
  ADOFTestDisplay.setTestData (Some sampleTest) ADOFTestDisplay.initial.

(** ** A server behind [fetch] *)

Section Wired.

(** The server as [fetch] shows it to [api.submitAnswers] and
    [api.getResultById]; the other two operations stay as in
    [Backend]. *)
Variable JSON_parse : string → option JValue.
Variable W : Type.
Variable generate : string → W → Outcome GenerateTestResponse * W.
Variable mcqs : string → W → Outcome GetMcqsResponse * W.
Variable fetch_submit : SubmitAnswersData → W → FetchOutcome * W.
Variable fetch_result : JValue → W → FetchOutcome * W.

Definition wired : Backend := {|
  World := W;
  api_generateTest := generate;
  api_getMcqs := mcqs;
  api_submitAnswers := λ body w,
    (on_fetch (submitAnswers JSON_parse) (fetch_submit body w).1, (fetch_submit body w).2);
  api_getResultById := λ resultId w,
    (on_fetch (getResultById JSON_parse) (fetch_result resultId w).1,
     (fetch_result resultId w).2) |}.

(** A request that fails: the network does, or the status is not in
    200-299. *)
Definition failed (f : FetchOutcome) : Prop :=
  match f with
  | NetworkFailure => True
  | Responded response => ok response = false
  end.

(** What [api.submitAnswers] throws for it. *)
Definition thrown (f : FetchOutcome) : Exn :=
  match f with
  | NetworkFailure => TypeError
  | Responded response =>
      Error (error_message JSON_parse "Answer submission failed" (text response))
  end.

End Wired.

(** A server on which every submission fails with the same response. *)
Definition failing (response : Response) : Backend :=
  wired parse_sample unit
    (λ _ w, (Ok sampleTest, w)) (λ _ w, (Ok storedCopy, w))
    (λ _ w, (Responded response, w)) (λ _ w, (NetworkFailure, w)).

(** * Properties *)

(** ** Running the monad *)

Section RunEquations.

Context {B : Backend} {S : Type}.
Implicit Types r : Run B S.

Lemma run_bind {A C} (m : M B S A) (k : A → M B S C) r :
  (m ≫= k) r =
  match m r with
  | (Ok a, r') => k a r'
  | (Throw e, r') => (Throw e, r')
  end.
Proof. reflexivity. Qed.

Lemma run_ret {A} (a : A) r : (mret a : M B S A) r = (Ok a, r).
Proof. reflexivity. Qed.

Lemma run_when_true (m : M B S unit) r : when true m r = m r.
Proof. reflexivity. Qed.

Lemma run_when_false (m : M B S unit) r : when false m r = (Ok tt, r).
Proof. reflexivity. Qed.

End RunEquations.

(** One step of symbolic execution after another, as far as the goal
    determines the control flow. *)
Ltac exec :=
  repeat first
    [ rewrite run_bind
    | rewrite run_ret
    | rewrite run_when_true
    | rewrite run_when_false
    | progress (unfold get, modify, toast, emit, throw, lift, try_catch, try_finally, call)
    | progress (cbv beta iota)
    | progress (cbn [comp world trace fst snd negb orb andb]) ].

(** A relation between the run before and the run after that every
    primitive step keeps, is kept by a whole handler. *)
Section Respects.

Context {B : Backend} {S : Type}.
Context (R : relation (Run B S)) `{!Reflexive R} `{!Transitive R}.
Local Abbreviation respects := (respects R).

Lemma respects_ret {A} (a : A) : respects (mret a).
Proof. intros r. simpl. reflexivity. Qed.

Lemma respects_throw {A} (e : Exn) : respects (throw e : M B S A).
Proof. intros r. simpl. reflexivity. Qed.

Lemma respects_lift {A} (o : Outcome A) : respects (lift o).
Proof. intros r. simpl. reflexivity. Qed.

Lemma respects_get : respects get.
Proof. intros r. simpl. reflexivity. Qed.

Lemma respects_bind {A C} (m : M B S A) (k : A → M B S C) :
  respects m → (∀ a, respects (k a)) → respects (m ≫= k).
Proof.
  intros Hm Hk r. rewrite run_bind.
  specialize (Hm r). destruct (m r) as [[a|e] r']; simpl in *; [|done].
  etrans; [exact Hm|apply Hk].
Qed.

Lemma respects_try_catch {A} (body : M B S A) (handler : Exn → M B S A) :
  respects body → (∀ e, respects (handler e)) → respects (try_catch body handler).
Proof.
  intros Hb Hh r. unfold try_catch.
  specialize (Hb r). destruct (body r) as [[a|e] r']; simpl in *; [done|].
  etrans; [exact Hb|apply Hh].
Qed.

Lemma respects_try_finally {A} (body : M B S A) (final : M B S unit) :
  respects body → respects final → respects (try_finally body final).
Proof.
  intros Hb Hf r. unfold try_finally.
  specialize (Hb r). destruct (body r) as [o r']; simpl in *.
  specialize (Hf r'). destruct (final r') as [[[]|e] r'']; simpl in *;
    (etrans; [exact Hb|exact Hf]).
Qed.

Lemma respects_when (b : bool) (m : M B S unit) :
  respects m → respects (when b m).
Proof. intros Hm. destruct b; [exact Hm|apply respects_ret]. Qed.

Lemma respects_if {A} (b : bool) (m1 m2 : M B S A) :
  respects m1 → respects m2 → respects (if b then m1 else m2).
Proof. by destruct b. Qed.

End Respects.

(** A handler never fails when its [catch] block cannot. *)
Lemma try_catch_finally_ok {B : Backend} {S : Type}
    (body : M B S unit) (handler : Exn → M B S unit) (final : M B S unit) r :
  (∀ e r', (handler e r').1 = Ok tt) →
  (∀ r', (final r').1 = Ok tt) →
  (try_finally (try_catch body handler) final r).1 = Ok tt.
Proof.
  intros Hh Hf. unfold try_finally, try_catch.
  destruct (body r) as [[[]|e] r'].
  - specialize (Hf r'). by destruct (final r') as [[[]|?] ?].
  - specialize (Hh e r'). destruct (handler e r') as [o r'']. simpl in Hh. subst o.
    specialize (Hf r''). by destruct (final r'') as [[[]|?] ?].
Qed.

(** ** Events of a run *)

Section Events.

Context {B : Backend} {S : Type}.
Local Abbreviation respects := (respects (B:=B) (S:=S)).
Local Abbreviation emits := (emits (B:=B) (S:=S)).

#[global] Instance emits_refl Q : Reflexive (emits Q).
Proof. intros r. exists []. by rewrite app_nil_r. Qed.

#[global] Instance emits_trans Q : Transitive (emits Q).
Proof.
  intros r1 r2 r3 (evs1 & H1 & HQ1) (evs2 & H2 & HQ2).
  exists (evs1 ++ evs2). rewrite H2, H1, (assoc_L (++)). split; [done|].
  by apply Forall_app.
Qed.

Lemma emits_modify Q (f : S → S) : respects (emits Q) (modify f).
Proof. intros r. exists []. simpl. by rewrite app_nil_r. Qed.

Lemma emits_emit (Q : Event → Prop) (e : Event) : Q e → respects (emits Q) (emit e).
Proof. intros He r. exists [e]. simpl. by repeat constructor. Qed.

Lemma emits_call {A} (Q : Event → Prop) (c : ApiCall) (f : World B → Outcome A * World B) :
  Q (Request c) → respects (emits Q) (call c f).
Proof.
  intros Hc r. exists [Request c]. unfold call.
  destruct (f (world r)) as [o w]. simpl. by repeat constructor.
Qed.


Lemma events_eq {A} (m : M B S A) (r : Run B S) (evs : list Event) :
  trace (m r).2 = trace r ++ evs → events m r = evs.
Proof. intros Heq. unfold events. by rewrite Heq, drop_app_length. Qed.

End Events.

(** ** Score translation *)

Lemma responseText_other (score : Z) :
  (score < 1 ∨ 5 < score)%Z → responseText score = "Neutral".
Proof.
  intros H. destruct score as [|p|p]; [done| |done].
  destruct p as [[[?|?|]|[?|?|]|]|[[?|?|]|[?|?|]|]|]; try done; lia.
Qed.

Lemma score_cases (score : Z) :
  (1 ≤ score ≤ 5)%Z →
  (score = 1 ∨ score = 2 ∨ score = 3 ∨ score = 4 ∨ score = 5)%Z.
Proof. lia. Qed.

Lemma responseText_vocabulary (score : Z) : responseText score ∈ vocabulary.
Proof.
  destruct (decide (1 ≤ score ≤ 5)%Z) as [H|H].
  - destruct (score_cases score H) as [E|[E|[E|[E|E]]]]; rewrite E;
      compute; repeat constructor.
  - rewrite responseText_other by lia. repeat constructor.
Qed.

(** C2.  The translation of a score to its Likert label is defined on every
    integer score: 1, 2, 3, 4 and 5 give Strongly Disagree, Disagree,
    Neutral, Agree and Strongly Agree, and every other score gives Neutral;
    so do 3 and 99 in particular. *)
Theorem score_translation_total :
  responseText 1 = "Strongly Disagree"
  ∧ responseText 2 = "Disagree"
  ∧ responseText 3 = "Neutral"
  ∧ responseText 4 = "Agree"
  ∧ responseText 5 = "Strongly Agree"
  ∧ responseText 99 = "Neutral"
  ∧ ∀ score : Z, score ∉ [1; 2; 3; 4; 5]%Z → responseText score = "Neutral".
Proof.
  repeat split.
  intros score H. apply responseText_other.
  destruct (decide (1 ≤ score ≤ 5)%Z) as [Hr|Hr]; [|lia].
  exfalso. apply H.
  destruct (score_cases score Hr) as [E|[E|[E|[E|E]]]]; rewrite E; repeat constructor.
Qed.

Lemma score_translation_total_witness :
  ((0 : Z) ∉ [1; 2; 3; 4; 5]%Z) ∧ responseText 0 = "Neutral".
Proof.
  assert ((0 : Z) ∉ [1; 2; 3; 4; 5]%Z) as H.
  { intros Hin. repeat (apply elem_of_cons in Hin as [Hin|Hin]; [discriminate Hin|]).
    by apply elem_of_nil in Hin. }
  split; [exact H|].
  exact (proj2 (proj2 (proj2 (proj2 (proj2 (proj2 score_translation_total))))) 0%Z H).
Defined.

(** ** Identifier resolution *)

Lemma opt_or_first_non_empty (c : option string) (cs : list (option string)) (rest : string) :
  rest = default "" (first_non_empty cs) →
  opt_or c rest = default "" (first_non_empty (c :: cs)).
Proof.
  intros ->. unfold first_non_empty, opt_or, str_or. destruct c as [s|]; simpl; [|done].
  destruct (String.eqb_spec s "") as [->|Hs].
  - by rewrite filter_cons_False by (intros H; by apply H).
  - by rewrite filter_cons_True.
Qed.

Lemma documentIdOf_first_non_empty (t : GenerateTestResponse) :
  documentIdOf t = default "" (first_non_empty (candidates t)).
Proof.
  unfold documentIdOf, candidates.
  repeat (apply opt_or_first_non_empty). done.
Qed.

Lemma documentIdOf_empty (t : GenerateTestResponse) :
  documentIdOf t = "" ↔ first_non_empty (candidates t) = None.
Proof.
  rewrite documentIdOf_first_non_empty. unfold first_non_empty.
  destruct (filter _ _) as [|s l] eqn:Heq; simpl; [done|].
  split; [|done]. intros ->.
  assert ("" ∈ filter (λ s : string, s ≠ "") (omap (λ c, c) (candidates t))) as Hin
    by (rewrite Heq; left).
  apply list_elem_of_filter in Hin as [Hne _]. done.
Qed.

(** ** The answers sent *)

#[global] Instance questionKey_inj : Inj (=) (=) questionKey.
Proof.
  intros i j H. unfold questionKey in H. apply (inj pretty) in H. lia.
Qed.

Lemma foldl_fill (entries : list (nat * Z)) (acc : gmap string string) :
  foldl fill acc entries =
  list_to_map (reverse (prod_map questionKey responseText <$> entries)) ∪ acc.
Proof.
  revert acc. induction entries as [|[i s] entries IH]; intros acc; simpl.
  - by rewrite (left_id_L ∅ (∪)).
  - rewrite IH, reverse_cons, list_to_map_app. unfold fill; simpl.
    by rewrite <- (assoc_L (∪)), <- insert_union_l, (left_id_L ∅ (∪)).
Qed.

(** Filling entry by entry renames every index to its key and every score
    to its label. *)
Lemma answersForAPI_kmap (selected : gmap nat Z) :
  answersForAPI selected = kmap questionKey (responseText <$> selected).
Proof.
  unfold answersForAPI, kmap. rewrite foldl_fill, (right_id_L ∅ (∪)).
  rewrite map_to_list_fmap, <- list_fmap_compose.
  change (prod_map questionKey Datatypes.id ∘ prod_map Datatypes.id responseText)
    with (prod_map questionKey responseText).
  symmetry. apply list_to_map_proper.
  - rewrite <- list_fmap_compose.
    change (fst ∘ prod_map questionKey responseText) with (questionKey ∘ @fst nat Z).
    rewrite list_fmap_compose. apply NoDup_fmap_2; [apply _|].
    apply NoDup_fst_map_to_list.
  - by rewrite reverse_Permutation.
Qed.

Lemma answersForAPI_lookup (selected : gmap nat Z) (i : nat) :
  answersForAPI selected !! questionKey i = responseText <$> selected !! i.
Proof.
  rewrite answersForAPI_kmap, (lookup_kmap questionKey). apply lookup_fmap.
Qed.

Lemma answersForAPI_Some (selected : gmap nat Z) (key label : string) :
  answersForAPI selected !! key = Some label ↔
  ∃ i score, key = questionKey i ∧ selected !! i = Some score
             ∧ label = responseText score.
Proof.
  rewrite answersForAPI_kmap, lookup_kmap_Some by apply _. split.
  - intros (i & -> & Hi). rewrite lookup_fmap in Hi.
    destruct (selected !! i) as [score|] eqn:E; simplify_eq/=. eauto.
  - intros (i & score & -> & Hi & ->). exists i. by rewrite lookup_fmap, Hi.
Qed.

Lemma answersForAPI_size (selected : gmap nat Z) :
  size (answersForAPI selected) = size selected.
Proof.
  rewrite answersForAPI_kmap.
  rewrite <- !length_map_to_list.
  by rewrite map_to_list_kmap, !length_fmap, map_to_list_fmap, length_fmap by apply _.
Qed.

Lemma answersForAPI_vocabulary (selected : gmap nat Z) (key label : string) :
  answersForAPI selected !! key = Some label → label ∈ vocabulary.
Proof.
  intros (i & score & _ & _ & ->)%answersForAPI_Some. apply responseText_vocabulary.
Qed.

Lemma vocabulary_non_empty (label : string) : label ∈ vocabulary → label ≠ "".
Proof.
  intros H ->. repeat (apply elem_of_cons in H as [H|H]; [discriminate H|]).
  by apply elem_of_nil in H.
Qed.

Lemma invalidAnswers_nil (selected : gmap nat Z) :
  TestDisplay.invalidAnswers (answersForAPI selected) = [].
Proof.
  unfold TestDisplay.invalidAnswers.
  destruct (filter _ _) as [|[key label] rest] eqn:E; [done|exfalso].
  assert ((key, label) ∈ filter (λ kv : string * string, kv.2 = "" ∨ kv.2 ∉ vocabulary)
            (map_to_list (answersForAPI selected))) as Hin by (rewrite E; left).
  apply list_elem_of_filter in Hin as [Hbad Hin]. simpl in Hbad.
  apply elem_of_map_to_list, answersForAPI_vocabulary in Hin.
  destruct Hbad as [->|Hbad]; [by eapply vocabulary_non_empty|done].
Qed.

(** ** What a handler leaves alone *)

Section Keeps.

Context {B : Backend} {S : Type}.
Local Abbreviation respects := (respects (B:=B) (S:=S)).
Local Abbreviation keeps := (keeps (B:=B) (S:=S)).

#[global] Instance keeps_refl P `{!Reflexive P} : Reflexive (keeps P).
Proof. intros r. unfold keeps. reflexivity. Qed.

#[global] Instance keeps_trans P `{!Transitive P} : Transitive (keeps P).
Proof. intros r1 r2 r3 H1 H2. unfold keeps in *. by etrans. Qed.

Lemma keeps_modify (P : relation S) (f : S → S) :
  (∀ st, P st (f st)) → respects (keeps P) (modify f).
Proof. intros Hf r. apply Hf. Qed.

Lemma keeps_emit (P : relation S) `{!Reflexive P} (e : Event) :
  respects (keeps P) (emit e).
Proof. intros r. unfold keeps. simpl. reflexivity. Qed.

Lemma keeps_call {A} (P : relation S) `{!Reflexive P} (c : ApiCall)
    (f : World B → Outcome A * World B) :
  respects (keeps P) (call c f).
Proof.
  intros r. unfold keeps, call. destruct (f (world r)) as [o w]. simpl. reflexivity.
Qed.

End Keeps.

(** Symbolic execution up to the next [try] block. *)
Ltac exec_seq :=
  repeat first
    [ rewrite run_bind
    | rewrite run_ret
    | progress (unfold get, modify, toast, emit)
    | progress (cbv beta iota)
    | progress (cbn [comp world trace fst snd negb orb andb]) ].

Ltac respects_step :=
  lazymatch goal with
  | |- Reflexive _ => apply _
  | |- Transitive _ => apply _
  | |- ∀ _, _ => intros ?
  | |- respects _ (mret _) => apply respects_ret
  | |- respects _ (throw _) => apply respects_throw
  | |- respects _ (lift _) => apply respects_lift
  | |- respects _ get => apply respects_get
  | |- respects _ (when _ _) => apply respects_when
  | |- respects _ (try_finally _ _) => apply respects_try_finally
  | |- respects _ (try_catch _ _) => apply respects_try_catch
  | |- respects _ (_ ≫= _) => apply respects_bind
  | |- respects _ (if _ then _ else _) => apply respects_if
  | |- respects _ (match ?x with _ => _ end) => destruct x eqn:?
  | |- respects (emits _) (modify _) => apply emits_modify
  | |- respects (emits _) (emit _) => apply emits_emit
  | |- respects (emits _) (call _ _) => apply emits_call
  | |- respects (keeps _) (modify _) => apply keeps_modify
  | |- respects (keeps _) (emit _) => apply keeps_emit
  | |- respects (keeps _) (call _ _) => apply keeps_call
  end.

Ltac respects_auto := repeat respects_step.

(** ** TestDisplay *)

Section TestDisplayFacts.

Import TestDisplay.
Context {B : Backend} {rt : Runtime}.
Variable props : Props.
Implicit Types (r : Run B State) (st : State).

Lemma handleSubmit_incomplete r :
  size (selectedAnswers (comp r)) ≠ questionCount props →
  handleSubmit props r =
    (Ok tt, {| comp := comp r; world := world r;
               trace := trace r ++ [Notify incompleteTest] |}).
Proof.
  intros H%Nat.eqb_neq. unfold handleSubmit. exec. by rewrite H.
Qed.

Lemma handleSubmit_ok r : (handleSubmit props r).1 = Ok tt.
Proof.
  unfold handleSubmit. exec_seq.
  destruct (negb _); [done|]. exec_seq.
  by apply try_catch_finally_ok.
Qed.


End TestDisplayFacts.

Lemma trim_not_blank {rt : Runtime} (s : string) : trim s ≠ "" → s ≠ "".
Proof. intros H ->. apply H, trim_empty. Qed.

Lemma blank_check_false {rt : Runtime} (s : string) :
  trim s ≠ "" → String.eqb s "" || String.eqb (trim s) "" = false.
Proof.
  intros H. apply orb_false_intro; apply String.eqb_neq; [by apply trim_not_blank|done].
Qed.

Section TestDisplayRuns.

Import TestDisplay.
Context {B : Backend} {rt : Runtime}.
Variable props : Props.
Implicit Types (r : Run B State) (st : State).

(** *** The checks *)

Lemma validate_pass st r :
  trim (userId props) ≠ "" → trim (documentId props) ≠ "" →
  0 < size (selectedAnswers st) →
  validate props st r = (Ok tt, r).
Proof.
  intros Hu Hd Hn. unfold validate.
  rewrite (blank_check_false _ Hu), (blank_check_false _ Hd).
  rewrite invalidAnswers_nil, answersForAPI_size.
  destruct (size (selectedAnswers st)) as [|n] eqn:E; [lia|]. reflexivity.
Qed.

Lemma validate_blank_user st r :
  trim (userId props) = "" →
  validate props st r =
    (Throw (Error (JStr "User ID is required. Please log in again.")), r).
Proof.
  intros Hu. unfold validate. rewrite Hu.
  rewrite run_bind. by rewrite orb_true_r.
Qed.

Lemma validate_missing_id st r :
  trim (userId props) ≠ "" → documentId props = "" →
  validate props st r =
    (Throw (Error (JStr "Test document ID is required. Please generate a new test.")), r).
Proof.
  intros Hu Hd. unfold validate. rewrite (blank_check_false _ Hu), Hd. reflexivity.
Qed.

(** *** A run that fails its checks *)

Lemma handleSubmit_validation_failed r (message : string) :
  size (selectedAnswers (comp r)) = questionCount props →
  (∀ r', validate props (comp r) r' = (Throw (Error (JStr message)), r')) →
  handleSubmit props r =
    (Ok tt, {| comp := afterFailure (comp r); world := world r;
               trace := trace r ++ [Notify (submissionFailed (Text message))] |}).
Proof.
  intros Hn%Nat.eqb_eq Hv. unfold handleSubmit. exec_seq. rewrite Hn. exec_seq.
  unfold try_finally, try_catch. rewrite run_bind, Hv. reflexivity.
Qed.

End TestDisplayRuns.

Lemma truthy_not_nullish (v : JValue) : truthy v = true → nullish v = false.
Proof. by destruct v. Qed.

Lemma opt_prop_defined (v : JValue) (name : string) :
  opt_prop v name ≠ JUndefined → nullish v = false.
Proof. unfold opt_prop. by destruct (nullish v). Qed.

Section TestDisplayResult.

Import TestDisplay.
Context {B : Backend} {rt : Runtime}.
Variable props : Props.
Implicit Types (r : Run B State) (st : State).

(** *** Resolving the result *)

Lemma resultIdOf_run submitResponse r :
  nullish submitResponse = false →
  resultIdOf submitResponse r = (Ok (resultIdValue submitResponse), r).
Proof.
  intros Hn. unfold resultIdOf, resultIdValue, get_prop, js_or, js_and.
  rewrite Hn. exec.
  destruct (truthy (prop submitResponse "result_id")); [done|]. exec.
  destruct (truthy (prop submitResponse "data")) eqn:Hd; [|done].
  by rewrite (truthy_not_nullish _ Hd).
Qed.

Lemma percentageOf_run submitResponse :
  nullish submitResponse = false →
  ∃ p, ∀ r, percentageOf (B:=B) submitResponse r = (Ok p, r).
Proof.
  intros Hn. unfold percentageOf, get_prop. rewrite Hn.
  set (data := prop submitResponse "data").
  destruct (truthy (opt_prop data "percentage")) eqn:Hp.
  { eexists. intros r. exec. by rewrite Hp. }
  destruct (opt_prop (opt_prop data "data") "percentage") eqn:Hi;
    try (eexists; intros r; exec; rewrite Hp, Hi; reflexivity).
  all: assert (nullish (opt_prop data "data") = false) as Hinner
      by (apply (opt_prop_defined _ "percentage"); by rewrite Hi).
  all: assert (nullish data = false) as Hdata
      by (apply (opt_prop_defined _ "data"); by destruct (opt_prop data "data")).
  all: unfold opt_prop in Hinner; rewrite Hdata in Hinner.
  all: eexists; intros r; exec; rewrite Hp, Hi; exec; rewrite Hdata; exec;
       rewrite Hinner; reflexivity.
Qed.

Lemma resolveResult_without_id submitResponse r :
  nullish submitResponse = false →
  truthy (resultIdValue submitResponse) = false →
  ∃ p, resolveResult submitResponse r =
    (Ok tt, {| comp := setIsSubmitted true (setTestResult (Some submitResponse) (comp r));
               world := world r;
               trace := trace r ++ [Notify (submitted p)] |}).
Proof.
  intros Hn Hid. destruct (percentageOf_run _ Hn) as [p Hp]. exists p.
  unfold resolveResult. rewrite run_bind, (resultIdOf_run _ _ Hn). cbv beta iota.
  rewrite Hid. exec_seq. rewrite Hp. reflexivity.
Qed.

Lemma resolveResult_with_id submitResponse r fetched w :
  nullish submitResponse = false →
  truthy (resultIdValue submitResponse) = true →
  api_getResultById B (resultIdValue submitResponse) (world r) = (fetched, w) →
  ∃ p, resolveResult submitResponse r =
    (Ok tt, {| comp := setIsSubmitted true
                         (setTestResult (Some (storedResult submitResponse fetched)) (comp r));
               world := w;
               trace := trace r ++ [Request (CallGetResultById (resultIdValue submitResponse));
                                    Notify (submitted p)] |}).
Proof.
  intros Hn Hid Hfetch. destruct (percentageOf_run _ Hn) as [p Hp]. exists p.
  unfold resolveResult. rewrite run_bind, (resultIdOf_run _ _ Hn). cbv beta iota.
  rewrite Hid. unfold await_getResultById. exec. rewrite Hfetch.
  destruct fetched as [detailedResult|e]; simpl.
  - unfold get_prop. destruct (nullish detailedResult); exec; rewrite Hp; exec;
      by rewrite <- (assoc_L (++)).
  - exec. rewrite Hp. exec. by rewrite <- (assoc_L (++)).
Qed.

Lemma resolveResult_grows submitResponse :
  respects (emits (λ e, is_submit_request e = false)) (resolveResult (B:=B) submitResponse).
Proof.
  unfold resolveResult, resultIdOf, percentageOf, await_getResultById, toast.
  respects_auto; done.
Qed.

(** *** What a run never touches *)

#[global] Instance frame_refl : Reflexive frame.
Proof. by intros st. Qed.

#[global] Instance frame_trans : Transitive frame.
Proof.
  intros st1 st2 st3 (Ha1 & Hc1 & Hs1) (Ha2 & Hc2 & Hs2).
  repeat split; [congruence|congruence|auto].
Qed.

Lemma handleSubmit_frame r : frame (comp r) (comp (handleSubmit props r).2).
Proof.
  assert (respects (keeps frame) (handleSubmit (B:=B) props)) as H; [|apply H].
  unfold handleSubmit, validate, submitWithFallback, resolveResult, resultIdOf,
    percentageOf, await_getMcqs, await_submitAnswers, await_getResultById, toast.
  respects_auto; done.
Qed.

End TestDisplayResult.

Section TestDisplaySubmission.

Import TestDisplay.
Context {B : Backend} {rt : Runtime}.
Variable props : Props.
Implicit Types (r : Run B State) (st : State).

(** *** The [try] / [catch] / [finally] around the submission *)

Lemma conclude_bind_ok {A} (m : M B State A) (k : A → M B State unit) r a r' :
  m r = (Ok a, r') → conclude (m ≫= k) r = conclude (k a) r'.
Proof. intros H. unfold conclude, try_finally, try_catch. by rewrite run_bind, H. Qed.

Lemma conclude_bind_throw {A} (m : M B State A) (k : A → M B State unit) r e r' :
  m r = (Throw e, r') →
  conclude (m ≫= k) r =
    (Ok tt, {| comp := setIsSubmitting false (comp r'); world := world r';
               trace := trace r' ++ [Notify (submissionFailed (error_description e))] |}).
Proof. intros H. unfold conclude, try_finally, try_catch. by rewrite run_bind, H. Qed.

Lemma conclude_grows (Q : Event → Prop) (body : M B State unit) :
  (∀ t, Q (Notify t)) → respects (emits Q) body → respects (emits Q) (conclude body).
Proof. intros HQ Hb. unfold conclude, toast. respects_auto; [done|apply HQ]. Qed.

Lemma handleSubmit_complete r :
  size (selectedAnswers (comp r)) = questionCount props →
  handleSubmit props r =
    conclude (submission props (comp r))
      {| comp := started (comp r); world := world r; trace := trace r |}.
Proof.
  intros Hn%Nat.eqb_eq. unfold handleSubmit. exec_seq. by rewrite Hn.
Qed.

Lemma getMcqs_ignored r o w :
  api_getMcqs B (userId props) (world r) = (o, w) →
  try_catch (_ ← await_getMcqs (userId props); mret tt) (λ _, mret tt) r =
    (Ok tt, {| comp := comp r; world := w;
               trace := trace r ++ [Request (CallGetMcqs (userId props))] |}).
Proof.
  intros H. unfold try_catch, await_getMcqs, call. rewrite run_bind, H.
  by destruct o.
Qed.

(** The requests of a complete, valid submission whose first request
    is accepted. *)
Lemma handleSubmit_accepted r o w1 submitResponse w2 :
  size (selectedAnswers (comp r)) = questionCount props →
  0 < questionCount props →
  trim (userId props) ≠ "" → trim (documentId props) ≠ "" →
  api_getMcqs B (userId props) (world r) = (o, w1) →
  api_submitAnswers B (requestBody props (comp r)) w1 = (Ok submitResponse, w2) →
  handleSubmit props r =
    conclude (resolveResult submitResponse)
      {| comp := started (comp r); world := w2;
         trace := trace r ++ [Request (CallGetMcqs (userId props));
                              Request (CallSubmitAnswers (requestBody props (comp r)))] |}.
Proof.
  intros Hn Hpos Hu Hd Hm Hs. rewrite (handleSubmit_complete _ Hn). unfold submission.
  erewrite conclude_bind_ok by (apply validate_pass; [done|done|lia]).
  erewrite conclude_bind_ok by (by eapply getMcqs_ignored).
  erewrite conclude_bind_ok.
  2:{ unfold submitWithFallback, try_catch, await_submitAnswers, call. simpl.
      rewrite Hs. reflexivity. }
  simpl. by rewrite <- (assoc_L (++)).
Qed.

(** The same when the first request is rejected: the fixed body is
    sent next. *)
Lemma handleSubmit_rejected r o w1 e w2 :
  size (selectedAnswers (comp r)) = questionCount props →
  0 < questionCount props →
  trim (userId props) ≠ "" → trim (documentId props) ≠ "" →
  api_getMcqs B (userId props) (world r) = (o, w1) →
  api_submitAnswers B (requestBody props (comp r)) w1 = (Throw e, w2) →
  let sent := [Request (CallGetMcqs (userId props));
               Request (CallSubmitAnswers (requestBody props (comp r)));
               Request (CallSubmitAnswers (hardcodedTestRequest props))] in
  handleSubmit props r =
    match api_submitAnswers B (hardcodedTestRequest props) w2 with
    | (Ok submitResponse, w3) =>
        conclude (resolveResult submitResponse)
          {| comp := started (comp r); world := w3; trace := trace r ++ sent |}
    | (Throw e', w3) =>
        (Ok tt, {| comp := afterFailure (comp r); world := w3;
                   trace := trace r ++ sent ++
                            [Notify (submissionFailed (error_description e'))] |})
    end.
Proof.
  intros Hn Hpos Hu Hd Hm Hs sent. rewrite (handleSubmit_complete _ Hn). unfold submission.
  erewrite conclude_bind_ok by (apply validate_pass; [done|done|lia]).
  erewrite conclude_bind_ok by (by eapply getMcqs_ignored).
  destruct (api_submitAnswers B (hardcodedTestRequest props) w2)
    as [[submitResponse|e'] w3] eqn:Hh.
  - erewrite conclude_bind_ok.
    2:{ unfold submitWithFallback, try_catch, await_submitAnswers, call. simpl.
        rewrite Hs. simpl. rewrite Hh. reflexivity. }
    simpl. by rewrite <- !(assoc_L (++)).
  - erewrite conclude_bind_throw.
    2:{ unfold submitWithFallback, try_catch, await_submitAnswers, call. simpl.
        rewrite Hs. simpl. rewrite Hh. reflexivity. }
    simpl. by rewrite <- !(assoc_L (++)).
Qed.

Lemma conclude_events (Q : Event → Prop) (body : M B State unit)
    (sent : list Event) (tr : list Event) st w :
  (∀ t, Q (Notify t)) → respects (emits Q) body →
  ∃ evs, trace (conclude body {| comp := st; world := w; trace := tr ++ sent |}).2
         = tr ++ sent ++ evs.
Proof.
  intros HQ Hb.
  destruct (conclude_grows Q body HQ Hb
              {| comp := st; world := w; trace := tr ++ sent |}) as (evs & Heq & _).
  exists evs. rewrite Heq. simpl. by rewrite <- (assoc_L (++)).
Qed.

End TestDisplaySubmission.

(** ** Through the view *)

Section TestDisplayView.

Import TestDisplay.
Context {B : Backend} {rt : Runtime}.
Variable props : Props.
Implicit Types (r : Run B State) (st : State).

Lemma in_range_initial : in_range props initial.
Proof. split; simpl; [lia|set_solver]. Qed.

Lemma in_range_step r a :
  from_view (comp r) a → in_range props (comp r) → in_range props (comp (step props a r)).
Proof.
  intros Hview [Hcur Hdom]. destruct a as [i score| | |]; simpl in *.
  - subst i. unfold handleAnswerSelect. destruct (isSubmitted (comp r)); [done|].
    split; simpl; [done|]. intros j. rewrite dom_insert_L, elem_of_union, elem_of_singleton.
    intros [->|Hj]; [done|by apply Hdom].
  - unfold handleNext. case_match; [|done]. split; simpl; [lia|done].
  - unfold handlePrevious. case_match; [|done]. split; simpl; [lia|done].
  - destruct (handleSubmit_frame props r) as (Hsel & Hidx & _).
    split; [by rewrite Hidx|by rewrite Hsel].
Qed.

Lemma in_range_reachable r0 r :
  in_range props (comp r0) → reachable props r0 r → in_range props (comp r).
Proof. intros H0. induction 1; [done|by apply in_range_step]. Qed.

(** Once as many answers are selected as there are questions, every
    question has one. *)
Lemma in_range_complete st :
  in_range props st → size (selectedAnswers st) = questionCount props →
  dom (selectedAnswers st) = set_seq 0 (questionCount props).
Proof.
  intros [_ Hdom] Hsize. destruct (questionCount props) as [|n] eqn:E.
  - apply map_size_empty_inv in Hsize. rewrite Hsize. set_solver.
  - apply set_subseteq_size_eq.
    + intros i Hi. apply elem_of_set_seq. specialize (Hdom i Hi). lia.
    + rewrite size_set_seq, size_dom. lia.
Qed.

End TestDisplayView.

(** With an answer for each of the [n] questions, the keys sent are the
    numerals of 1 to [n]. *)
Lemma answersForAPI_keys (selected : gmap nat Z) (n : nat) (key : string) :
  dom selected = set_seq 0 n →
  is_Some (answersForAPI selected !! key) ↔ ∃ k : nat, (1 ≤ k ≤ n)%nat ∧ key = pretty k.
Proof.
  intros Hdom. split.
  - intros [label (i & score & -> & Hi & _)%answersForAPI_Some].
    assert (i ∈ dom selected) as Hin by (apply elem_of_dom; eauto).
    rewrite Hdom, elem_of_set_seq in Hin. exists (i + 1). split; [lia|done].
  - intros (k & Hk & ->).
    assert (k - 1 ∈ dom selected) as [score Hs]%elem_of_dom
      by (rewrite Hdom, elem_of_set_seq; lia).
    exists (responseText score). apply answersForAPI_Some.
    exists (k - 1), score. repeat split; [|done].
    unfold questionKey. f_equal. lia.
Qed.

Lemma hardcodedAnswers_size : size TestDisplay.hardcodedAnswers = 20.
Proof. vm_compute. reflexivity. Qed.

(** ** ADOFTestDisplay *)

Section ADOFTestDisplayFacts.

Import ADOFTestDisplay.
Context {B : Backend}.
Variable props : Props.
Implicit Types (r : Run B State) (st : State).

Lemma adof_handleSubmit_no_test r :
  testData (comp r) = None → handleSubmit props r = (Ok tt, r).
Proof. intros H. unfold handleSubmit. exec_seq. by rewrite H. Qed.

Lemma adof_handleSubmit_incomplete r t :
  testData (comp r) = Some t →
  size (selectedAnswers (comp r)) ≠ length (questions t) →
  handleSubmit props r =
    (Ok tt, {| comp := comp r; world := world r;
               trace := trace r ++ [Notify incompleteTest] |}).
Proof.
  intros Ht H%Nat.eqb_neq. unfold handleSubmit. exec_seq. rewrite Ht, H. reflexivity.
Qed.

Lemma adof_handleSubmit_ok r : (handleSubmit props r).1 = Ok tt.
Proof.
  unfold handleSubmit. exec_seq.
  destruct (testData (comp r)); [|done].
  destruct (negb _); [done|]. exec_seq.
  by apply try_catch_finally_ok.
Qed.


Lemma adof_handleSubmit_missing_id r t :
  testData (comp r) = Some t →
  size (selectedAnswers (comp r)) = length (questions t) →
  documentIdOf t = "" →
  handleSubmit props r =
    (Ok tt, {| comp := adof_finished (comp r); world := world r;
               trace := trace r ++ [Notify (submissionFailed documentIdMissing)] |}).
Proof.
  intros Ht Hn%Nat.eqb_eq Hd. unfold handleSubmit. exec_seq. rewrite Ht, Hn. exec_seq.
  unfold try_finally, try_catch. rewrite run_bind, Hd. reflexivity.
Qed.

(** A submission that was accepted, followed by a result request that
    is rejected. *)
Lemma adof_handleSubmit_fetch_failed r t submitResponse data result_id w1 e w2 :
  testData (comp r) = Some t →
  size (selectedAnswers (comp r)) = length (questions t) →
  documentIdOf t ≠ "" →
  api_submitAnswers B (requestBody props t (comp r)) (world r) = (Ok submitResponse, w1) →
  get_prop submitResponse "data" = Ok data →
  get_prop data "result_id" = Ok result_id →
  api_getResultById B result_id w1 = (Throw e, w2) →
  handleSubmit props r =
    (Ok tt, {| comp := adof_finished (comp r); world := w2;
               trace := trace r ++
                 [Request (CallSubmitAnswers (requestBody props t (comp r)));
                  Request (CallGetResultById result_id);
                  Notify (submissionFailed (error_description e))] |}).
Proof.
  intros Ht Hn%Nat.eqb_eq Hd%String.eqb_neq Hs Hdata Hid Hr.
  unfold handleSubmit. exec_seq. rewrite Ht, Hn. exec_seq.
  unfold try_finally, try_catch, await_submitAnswers, await_getResultById, call.
  rewrite Hd. exec. rewrite Hs. exec. rewrite Hdata. exec. rewrite Hid. exec.
  rewrite Hr. exec. by rewrite <- !(assoc_L (++)).
Qed.

(** A submission that was accepted, with a response that has no
    [data]. *)
Lemma adof_handleSubmit_no_data r t submitResponse w1 :
  testData (comp r) = Some t →
  size (selectedAnswers (comp r)) = length (questions t) →
  documentIdOf t ≠ "" →
  api_submitAnswers B (requestBody props t (comp r)) (world r) = (Ok submitResponse, w1) →
  nullish submitResponse = false →
  nullish (prop submitResponse "data") = true →
  handleSubmit props r =
    (Ok tt, {| comp := adof_finished (comp r); world := w1;
               trace := trace r ++
                 [Request (CallSubmitAnswers (requestBody props t (comp r)));
                  Notify (submissionFailed (MessageOf TypeError))] |}).
Proof.
  intros Ht Hn%Nat.eqb_eq Hd%String.eqb_neq Hs Hresp Hdata.
  unfold handleSubmit. exec_seq. rewrite Ht, Hn. exec_seq.
  unfold try_finally, try_catch, await_submitAnswers, await_getResultById, call, get_prop.
  rewrite Hd. exec. rewrite Hs. exec. rewrite Hresp. exec. rewrite Hdata. exec.
  by rewrite <- !(assoc_L (++)).
Qed.

End ADOFTestDisplayFacts.

(** ** Dashboard *)

Section DashboardFacts.

Import Dashboard.
Context {B : Backend}.
Implicit Types (r : Run B State) (st : State).

Lemma handleGenerateTest_signed_out r : handleGenerateTest None r = (Ok tt, r).
Proof. reflexivity. Qed.

Lemma handleGenerateTest_failed u r e w :
  api_generateTest B (user_id_of u) (world r) = (Throw e, w) →
  handleGenerateTest (Some u) r =
    (Ok tt, {| comp := setIsGenerating false (setIsGenerating true (comp r));
               world := w;
               trace := trace r ++ [Request (CallGenerateTest (user_id_of u));
                                    Notify (generationError (error_description e))] |}).
Proof.
  intros Hg. unfold handleGenerateTest, await_generateTest. exec. rewrite Hg. exec.
  by rewrite <- !(assoc_L (++)).
Qed.

Lemma handleGenerateTest_generated u r testData w1 fetched w2 :
  api_generateTest B (user_id_of u) (world r) = (Ok testData, w1) →
  api_getMcqs B (user_id_of u) w1 = (fetched, w2) →
  handleGenerateTest (Some u) r =
    (Ok tt, {| comp := setIsGenerating false
                         (setGeneratedTest (Some (acquired testData fetched))
                            (setIsGenerating true (comp r)));
               world := w2;
               trace := trace r ++ [Request (CallGenerateTest (user_id_of u));
                                    Request (CallGetMcqs (user_id_of u));
                                    Notify generated] |}).
Proof.
  intros Hg Hm. unfold handleGenerateTest, await_generateTest, await_getMcqs.
  exec. rewrite Hg. exec. rewrite Hm. unfold acquired.
  destruct fetched as [mcqsData|e]; exec; [destruct (hasQuestions mcqsData)|];
    exec; by rewrite <- !(assoc_L (++)).
Qed.

End DashboardFacts.

(** ** The API client *)

Section ClientFacts.

Variable JSON_parse : string → option JValue.

Lemma str_or_non_empty (s fallback : string) : s ≠ "" → str_or s fallback = s.
Proof. intros H%String.eqb_neq. unfold str_or. by rewrite H. Qed.

Lemma error_message_unparsed (fallback responseText : string) :
  JSON_parse responseText = None →
  error_message JSON_parse fallback responseText = JStr (str_or responseText fallback).
Proof. intros H. unfold error_message. by rewrite H. Qed.

Lemma error_message_parsed (fallback responseText : string) (errorData : JValue) :
  JSON_parse responseText = Some errorData → nullish errorData = false →
  error_message JSON_parse fallback responseText =
    js_or (prop errorData "error") (js_or (prop errorData "message") (JStr fallback)).
Proof. intros H Hn. unfold error_message. by rewrite H, Hn. Qed.

(** What the three parsing operations throw on an error response. *)
Lemma handle_error (op : Operation) (fallback : string) (response : Response) :
  fallback_message op = Some fallback → ok response = false →
  handle JSON_parse op response =
    Throw (Error (error_message JSON_parse fallback (text response))).
Proof.
  intros Hop Hok. destruct op; simplify_eq/=;
    unfold getMcqs, submitAnswers, getResultById; by rewrite Hok.
Qed.

(** What the three operations that only read the text throw. *)
Lemma handle_error_text (response : Response) :
  ok response = false →
  handle JSON_parse OpSignup response
    = Throw (Error (JStr (str_or (text response) "Signup failed")))
  ∧ handle JSON_parse OpSignin response
    = Throw (Error (JStr (str_or (text response) "Signin failed")))
  ∧ handle JSON_parse OpGenerateTest response
    = Throw (Error (JStr (str_or (text response) "Test generation failed"))).
Proof.
  intros Hok. simpl. unfold signup, signin, Api.generateTest. by rewrite Hok.
Qed.

(** What the two operations that report the status line throw. *)
Lemma handle_error_status (response : Response) :
  ok response = false →
  handle JSON_parse OpGetJobs response
    = Throw (Error (JStr ("Failed to fetch jobs: " +:+ status_line response)))
  ∧ handle JSON_parse OpSubmitUserData response
    = Throw (Error (JStr ("Failed to submit data: " +:+ status_line response))).
Proof.
  intros Hok. simpl. unfold getJobs, submitUserData. by rewrite Hok.
Qed.

End ClientFacts.

(** * The claims of the specification *)

(** ** C1 *)




(** ** C2 is [score_translation_total] above *)

(** ** C3 *)

Lemma merged_identifier (testData : GenerateTestResponse) (mcqsData : GetMcqsResponse) :
  mcqs_id (Dashboard.merged testData mcqsData) =
    match first_non_empty [mcqs_mcqs_id mcqsData; mcqs_document_id mcqsData] with
    | Some fetchedId => Some fetchedId
    | None => mcqs_id testData
    end.
Proof.
  unfold first_non_empty. simpl.
  destruct (mcqs_mcqs_id mcqsData) as [a|], (mcqs_document_id mcqsData) as [b|]; simpl;
    repeat match goal with
           | |- context [String.eqb ?s ""] => destruct (String.eqb_spec s "") as [->|?]
           end;
    rewrite ?filter_cons_True, ?filter_cons_False, ?filter_nil by (try done; by intros ?);
    try done.
  all: rewrite ?filter_cons_True, ?filter_cons_False, ?filter_nil by (try done; by intros ?);
    done.
Qed.

(** C3.  When generation succeeds, the handler has called generate first
    and fetch-MCQs second.  If the fetched response has a non-empty
    question list, the test shown is the generated response with the
    members of the fetched response written over it (its questions, its
    [document_id] and [message] when it has them), and with [mcqs_id] taken
    from the fetched [mcqs_id], else the fetched [document_id], else the
    generated [mcqs_id]; the members the fetched response does not have
    stay as generated.  If the fetched response has no question, or the
    fetch fails, the test shown is the generated response, unmodified. *)
Theorem test_acquisition_merge (B : Backend) (u : Dashboard.User)
    (r : Run B Dashboard.State) (testData : GenerateTestResponse) (w1 : World B)
    (fetched : Outcome GetMcqsResponse) (w2 : World B) :
  api_generateTest B (Dashboard.user_id_of u) (world r) = (Ok testData, w1) →
  api_getMcqs B (Dashboard.user_id_of u) w1 = (fetched, w2) →
  let shown :=
    Dashboard.generatedTest (comp (Dashboard.handleGenerateTest (Some u) r).2) in
  events (Dashboard.handleGenerateTest (Some u)) r =
    [Request (CallGenerateTest (Dashboard.user_id_of u));
     Request (CallGetMcqs (Dashboard.user_id_of u));
     Notify generated]
  ∧ (∀ mcqsData qs,
       fetched = Ok mcqsData → mcqs_questions mcqsData = Some qs → qs ≠ [] →
       ∃ result,
         shown = Some result
         ∧ questions result = qs
         ∧ (∀ d, mcqs_document_id mcqsData = Some d → document_id result = Some d)
         ∧ (mcqs_document_id mcqsData = None → document_id result = document_id testData)
         ∧ (∀ m, mcqs_message mcqsData = Some m → message result = m)
         ∧ (mcqs_message mcqsData = None → message result = message testData)
         ∧ mcqs_id result =
             match first_non_empty [mcqs_mcqs_id mcqsData; mcqs_document_id mcqsData] with
             | Some fetchedId => Some fetchedId
             | None => mcqs_id testData
             end
         ∧ documentId result = documentId testData
         ∧ id result = id testData
         ∧ _id result = _id testData
         ∧ test_trait result = test_trait testData)
  ∧ (∀ mcqsData,
       fetched = Ok mcqsData →
       mcqs_questions mcqsData = None ∨ mcqs_questions mcqsData = Some [] →
       shown = Some testData)
  ∧ (∀ e, fetched = Throw e → shown = Some testData).
Proof.
  intros Hg Hm shown. subst shown.
  rewrite (events_eq _ _ _ (f_equal (λ x, trace x.2)
             (handleGenerateTest_generated u r testData w1 fetched w2 Hg Hm))).
  rewrite (handleGenerateTest_generated u r testData w1 fetched w2 Hg Hm). simpl.
  split; [done|]. split; [|split].
  - intros mcqsData qs -> Hq Hne. exists (Dashboard.merged testData mcqsData).
    unfold acquired, Dashboard.hasQuestions. rewrite Hq.
    destruct qs as [|q qs]; [done|]. simpl.
    split; [done|]. split; [by rewrite Hq|].
    split; [by intros d ->|]. split; [by intros ->|].
    split; [by intros m ->|]. split; [by intros ->|].
    split; [apply merged_identifier|done].
  - intros mcqsData -> [Hq|Hq]; unfold acquired, Dashboard.hasQuestions; by rewrite Hq.
  - by intros e ->.
Qed.

Lemma test_acquisition_merge_witness :
  events (Dashboard.handleGenerateTest (B:=archive) (Some sampleUser))
    (start archive Dashboard.initial tt) =
    [Request (CallGenerateTest "user-1"); Request (CallGetMcqs "user-1"); Notify generated]
  ∧ ∃ result,
      Dashboard.generatedTest
        (comp (Dashboard.handleGenerateTest (B:=archive) (Some sampleUser)
                 (start archive Dashboard.initial tt)).2) = Some result
      ∧ questions result = [sampleQuestion; sampleQuestion]
      ∧ mcqs_id result = Some "mcq-7"
      ∧ document_id result = Some "doc-1".
Proof.
  destruct (test_acquisition_merge archive sampleUser (start archive Dashboard.initial tt)
              sampleTest tt (Ok storedCopy) tt eq_refl eq_refl)
    as (Hev & Hmerge & _ & _).
  split; [exact Hev|].
  destruct (Hmerge storedCopy [sampleQuestion; sampleQuestion] eq_refl eq_refl
              ltac:(discriminate))
    as (result & Hshown & Hq & _ & Hdoc & _ & _ & Hid & _).
  exists result. split; [exact Hshown|]. split; [exact Hq|].
  split; [exact Hid|exact (Hdoc eq_refl)].
Defined.

(** ** C5 *)

Lemma only_notification_no_request {B : Backend} {S A : Type} (m : M B S A)
    (r : Run B S) (o : Outcome A) (st : S) (w : World B) (t : Toast) (e : Event) :
  m r = (o, {| comp := st; world := w; trace := trace r ++ [Notify t] |}) →
  e ∈ events m r → is_request e = false.
Proof.
  intros Hrun Hin. rewrite (events_eq m r [Notify t]) in Hin by (by rewrite Hrun).
  apply list_elem_of_singleton in Hin. by subst e.
Qed.

(** C5.  In both test views, submitting while fewer answers are selected
    than the test has questions changes nothing and sends nothing: the
    only effect is the destructive "Incomplete Test" notification.  And
    whenever a submission does send a request, the number of selected
    answers equals the number of questions. *)
Theorem incomplete_submission_rejected :
  (∀ (B : Backend) (rt : Runtime) (props : TestDisplay.Props) (r : Run B TestDisplay.State),
     size (TestDisplay.selectedAnswers (comp r)) < TestDisplay.questionCount props →
     TestDisplay.handleSubmit props r =
       (Ok tt, {| comp := comp r; world := world r;
                  trace := trace r ++ [Notify incompleteTest] |}))
  ∧ (∀ (B : Backend) (rt : Runtime) (props : TestDisplay.Props) (r : Run B TestDisplay.State) e,
       e ∈ events (TestDisplay.handleSubmit props) r → is_request e = true →
       size (TestDisplay.selectedAnswers (comp r)) = TestDisplay.questionCount props)
  ∧ (∀ (B : Backend) (props : ADOFTestDisplay.Props) (r : Run B ADOFTestDisplay.State) t,
       ADOFTestDisplay.testData (comp r) = Some t →
       size (ADOFTestDisplay.selectedAnswers (comp r)) < length (questions t) →
       ADOFTestDisplay.handleSubmit props r =
         (Ok tt, {| comp := comp r; world := world r;
                    trace := trace r ++ [Notify incompleteTest] |}))
  ∧ (∀ (B : Backend) (props : ADOFTestDisplay.Props) (r : Run B ADOFTestDisplay.State) t e,
       ADOFTestDisplay.testData (comp r) = Some t →
       e ∈ events (ADOFTestDisplay.handleSubmit props) r → is_request e = true →
       size (ADOFTestDisplay.selectedAnswers (comp r)) = length (questions t))
  ∧ variant incompleteTest = Destructive.
Proof.
  split; [|split; [|split; [|split]]].
  - intros B rt props r Hlt. apply handleSubmit_incomplete. lia.
  - intros B rt props r e Hin Hreq.
    destruct (decide (size (TestDisplay.selectedAnswers (comp r))
                      = TestDisplay.questionCount props)) as [|Hne]; [done|].
    apply (only_notification_no_request _ _ _ _ _ _ _
             (handleSubmit_incomplete props r Hne)) in Hin. congruence.
  - intros B props r t Ht Hlt. apply (adof_handleSubmit_incomplete props r t Ht). lia.
  - intros B props r t e Ht Hin Hreq.
    destruct (decide (size (ADOFTestDisplay.selectedAnswers (comp r))
                      = length (questions t))) as [|Hne]; [done|].
    apply (only_notification_no_request _ _ _ _ _ _ _
             (adof_handleSubmit_incomplete props r t Ht Hne)) in Hin. congruence.
  - reflexivity.
Qed.

Lemma incomplete_submission_rejected_witness :
  size (TestDisplay.selectedAnswers (comp (start offline TestDisplay.initial tt)))
    < TestDisplay.questionCount sampleProps
  ∧ TestDisplay.handleSubmit sampleProps (start offline TestDisplay.initial tt) =
      (Ok tt, ended offline TestDisplay.initial tt [Notify incompleteTest]).
Proof.
  assert (size (TestDisplay.selectedAnswers (comp (start offline TestDisplay.initial tt)))
          < TestDisplay.questionCount sampleProps) as Hlt by (vm_compute; lia).
  split; [exact Hlt|].
  exact (proj1 incomplete_submission_rejected offline utf8 sampleProps
           (start offline TestDisplay.initial tt) Hlt).
Defined.

(** ** C7 *)

(** C7 as stated fails when the user identifier is blank: every question
    is answered, no identifier is present, and the feedback asks to log in
    again instead of asking for a new test. *)
Lemma missing_identifier_blank_user :
  first_non_empty (candidates (TestDisplay.testData blankUserProps)) = None
  ∧ size (TestDisplay.selectedAnswers answered) = TestDisplay.questionCount blankUserProps
  ∧ events (TestDisplay.handleSubmit blankUserProps) (start offline answered tt) =
      [Notify (submissionFailed userIdRequired)]
  ∧ submissionFailed userIdRequired ≠ submissionFailed documentIdRequired.
Proof.
  split; [reflexivity|]. split; [reflexivity|]. split; [|discriminate].
  apply events_eq.
  rewrite (handleSubmit_validation_failed blankUserProps (start offline answered tt)
             "User ID is required. Please log in again."); [reflexivity|reflexivity|].
  intros r'. by apply validate_blank_user.
Qed.

(** C7, amended.  When none of the candidate identifier members is
    non-empty, [handleSubmit] of the test view ends normally, sends no
    request (the server is left as it was), leaves the selected answers,
    the question shown and the submitted flag as they were with nothing
    being submitted any more, and its only event is one destructive
    notification, so the user can retry.  When moreover every question is
    answered and the user identifier is not blank, that notification is
    "Submission Failed" and asks to generate a new test.  (Missing answers
    and a blank user identifier are reported first.) *)
Theorem missing_identifier_feedback (B : Backend) (rt : Runtime) (props : TestDisplay.Props)
    (r : Run B TestDisplay.State) :
  first_non_empty (candidates (TestDisplay.testData props)) = None →
  let after := (TestDisplay.handleSubmit props r).2 in
  (TestDisplay.handleSubmit props r).1 = Ok tt
  ∧ (∃ t, events (TestDisplay.handleSubmit props) r = [Notify t]
          ∧ variant t = Destructive)
  ∧ world after = world r
  ∧ TestDisplay.selectedAnswers (comp after) = TestDisplay.selectedAnswers (comp r)
  ∧ TestDisplay.currentQuestionIndex (comp after) = TestDisplay.currentQuestionIndex (comp r)
  ∧ TestDisplay.isSubmitted (comp after) = TestDisplay.isSubmitted (comp r)
  ∧ (comp after = comp r ∨ TestDisplay.isSubmitting (comp after) = false)
  ∧ (size (TestDisplay.selectedAnswers (comp r)) = TestDisplay.questionCount props →
     trim (TestDisplay.userId props) ≠ "" →
     events (TestDisplay.handleSubmit props) r =
       [Notify {| title := "Submission Failed";
                  description :=
                    Text "Test document ID is required. Please generate a new test.";
                  variant := Destructive |}]
     ∧ TestDisplay.isSubmitting (comp after) = false
     ∧ TestDisplay.testResult (comp after) = None).
Proof.
  intros Hnone%documentIdOf_empty after. subst after.
  destruct (decide (size (TestDisplay.selectedAnswers (comp r))
                    = TestDisplay.questionCount props)) as [Hn|Hn].
  - assert (∃ message, TestDisplay.handleSubmit props r =
              (Ok tt, {| comp := afterFailure (comp r); world := world r;
                         trace := trace r ++ [Notify (submissionFailed (Text message))] |})
              ∧ (trim (TestDisplay.userId props) ≠ "" →
                 message = "Test document ID is required. Please generate a new test."))
      as (message & Hrun & Hmessage).
    { destruct (decide (trim (TestDisplay.userId props) = "")) as [Hu|Hu].
      - exists "User ID is required. Please log in again.".
        split; [|done]. apply handleSubmit_validation_failed; [done|].
        intros r'. by apply validate_blank_user.
      - exists "Test document ID is required. Please generate a new test.".
        split; [|done]. apply handleSubmit_validation_failed; [done|].
        intros r'. by apply validate_missing_id. }
    rewrite (events_eq _ _ _ (f_equal (λ x, trace x.2) Hrun)). rewrite Hrun. simpl.
    repeat split; eauto.
    match goal with Hu : trim _ ≠ "" |- _ => by rewrite (Hmessage Hu) end.
  - pose proof (handleSubmit_incomplete props r Hn) as Hrun.
    rewrite (events_eq _ _ _ (f_equal (λ x, trace x.2) Hrun)). rewrite Hrun. simpl.
    repeat split; eauto; done.
Qed.

Lemma missing_identifier_feedback_witness :
  first_non_empty (candidates (TestDisplay.testData anonymousProps)) = None
  ∧ size (TestDisplay.selectedAnswers (comp (start offline answered tt)))
      = TestDisplay.questionCount anonymousProps
  ∧ trim (TestDisplay.userId anonymousProps) ≠ ""
  ∧ events (TestDisplay.handleSubmit anonymousProps) (start offline answered tt) =
      [Notify {| title := "Submission Failed";
                 description :=
                   Text "Test document ID is required. Please generate a new test.";
                 variant := Destructive |}].
Proof.
  assert (trim (TestDisplay.userId anonymousProps) ≠ "") as Hu by (vm_compute; discriminate).
  split; [reflexivity|]. split; [reflexivity|]. split; [exact Hu|].
  exact (proj1 (proj2 (proj2 (proj2 (proj2 (proj2 (proj2 (proj2
           (missing_identifier_feedback offline utf8 anonymousProps
              (start offline answered tt) eq_refl)))))))
           eq_refl Hu)).
Defined.

(** ** C9 *)

Lemma move_answers (props : TestDisplay.Props) (moves : list Move) (st : TestDisplay.State) :
  TestDisplay.selectedAnswers (foldl (move props) st moves) = TestDisplay.selectedAnswers st.
Proof.
  revert st. induction moves as [|m moves IH]; intros st; simpl; [done|].
  rewrite IH. destruct m; simpl.
  - unfold TestDisplay.handleNext. by case_match.
  - unfold TestDisplay.handlePrevious. by case_match.
Qed.

(** C9.  Selecting a score for question [i] leaves the entry of every other
    question as it was, and sets the entry of [i] unless the test was
    already submitted; moving to the next or to the previous question
    changes no entry; so after any moves that lead back to a question, the
    view marks the score selected there before. *)
Theorem answer_capture_frame (props : TestDisplay.Props) (st : TestDisplay.State)
    (i : nat) (optionScore : Z) :
  (∀ j, j ≠ i →
     TestDisplay.selectedAnswers (TestDisplay.handleAnswerSelect i optionScore st) !! j
     = TestDisplay.selectedAnswers st !! j)
  ∧ (TestDisplay.isSubmitted st = false →
     TestDisplay.selectedAnswers (TestDisplay.handleAnswerSelect i optionScore st) !! i
     = Some optionScore)
  ∧ TestDisplay.selectedAnswers (TestDisplay.handleNext props st)
    = TestDisplay.selectedAnswers st
  ∧ TestDisplay.selectedAnswers (TestDisplay.handlePrevious st)
    = TestDisplay.selectedAnswers st
  ∧ (∀ moves : list Move,
       TestDisplay.isSubmitted st = false →
       let back := foldl (move props) (TestDisplay.handleAnswerSelect i optionScore st) moves in
       TestDisplay.currentQuestionIndex back = i →
       TestDisplay.isSelected back optionScore = true).
Proof.
  split; [|split; [|split; [|split]]].
  - intros j Hj. unfold TestDisplay.handleAnswerSelect.
    destruct (TestDisplay.isSubmitted st); [done|]. simpl. by rewrite lookup_insert_ne.
  - intros Hs. unfold TestDisplay.handleAnswerSelect. rewrite Hs. simpl.
    by rewrite lookup_insert_eq.
  - exact (move_answers props [Forward] st).
  - exact (move_answers props [Backward] st).
  - intros moves Hs back Hback. subst back. unfold TestDisplay.isSelected.
    rewrite Hback, move_answers. unfold TestDisplay.handleAnswerSelect. rewrite Hs. simpl.
    rewrite lookup_insert_eq. by apply bool_decide_eq_true.
Qed.

Lemma answer_capture_frame_witness :
  1 ≠ 0
  ∧ TestDisplay.selectedAnswers (TestDisplay.handleAnswerSelect 0 4 answered) !! 1
    = TestDisplay.selectedAnswers answered !! 1
  ∧ TestDisplay.isSelected
      (foldl (move twoQuestions)
         (TestDisplay.handleAnswerSelect 0 2 TestDisplay.initial) [Forward; Backward]) 2
    = true.
Proof.
  assert (1 ≠ 0) as Hne by lia.
  split; [exact Hne|]. split.
  - exact (proj1 (answer_capture_frame twoQuestions answered 0 4) 1 Hne).
  - exact (proj2 (proj2 (proj2 (proj2
             (answer_capture_frame twoQuestions TestDisplay.initial 0 2))))
             [Forward; Backward] eq_refl eq_refl).
Defined.

(** ** C10 *)

Lemma step_submitted {B : Backend} {rt : Runtime} (props : TestDisplay.Props) (a : TestDisplay.Action)
    (r : Run B TestDisplay.State) :
  TestDisplay.isSubmitted (comp r) = true →
  TestDisplay.selectedAnswers (comp (TestDisplay.step props a r))
    = TestDisplay.selectedAnswers (comp r)
  ∧ TestDisplay.isSubmitted (comp (TestDisplay.step props a r)) = true.
Proof.
  intros Hs. destruct a as [i score| | |]; simpl.
  - unfold TestDisplay.handleAnswerSelect. by rewrite Hs.
  - unfold TestDisplay.handleNext. by case_match.
  - unfold TestDisplay.handlePrevious. by case_match.
  - destruct (handleSubmit_frame props r) as (Hsel & _ & Hsub). auto.
Qed.

(** C10.  Once the submitted flag is set, [handleAnswerSelect] returns the
    state unchanged for every question index and every score, and no
    sequence of actions on the view (selecting, moving, submitting again)
    changes the selected answers or clears the flag. *)
Theorem submitted_answers_frozen (B : Backend) (rt : Runtime) (props : TestDisplay.Props)
    (r : Run B TestDisplay.State) :
  TestDisplay.isSubmitted (comp r) = true →
  (∀ i optionScore, TestDisplay.handleAnswerSelect i optionScore (comp r) = comp r)
  ∧ (∀ actions : list TestDisplay.Action,
       TestDisplay.selectedAnswers (comp (TestDisplay.run props actions r))
         = TestDisplay.selectedAnswers (comp r)
       ∧ TestDisplay.isSubmitted (comp (TestDisplay.run props actions r)) = true).
Proof.
  intros Hs. split.
  - intros i optionScore. unfold TestDisplay.handleAnswerSelect. by rewrite Hs.
  - intros actions. revert r Hs. unfold TestDisplay.run.
    induction actions as [|a actions IH]; intros r Hs; simpl; [done|].
    destruct (step_submitted props a r Hs) as [Hsel Hsub].
    destruct (IH _ Hsub) as [Hsel' Hsub']. split; [congruence|done].
Qed.

Lemma submitted_answers_frozen_witness :
  TestDisplay.isSubmitted (comp (start offline submittedState tt)) = true
  ∧ TestDisplay.handleAnswerSelect 0 1 submittedState = submittedState
  ∧ TestDisplay.selectedAnswers
      (comp (TestDisplay.run sampleProps
               [TestDisplay.Select 0 1; TestDisplay.Next; TestDisplay.Submit]
               (start offline submittedState tt)))
    = TestDisplay.selectedAnswers submittedState.
Proof.
  split; [reflexivity|].
  destruct (submitted_answers_frozen offline utf8 sampleProps (start offline submittedState tt)
              eq_refl) as [Hselect Hrun].
  split; [exact (Hselect 0 1%Z)|].
  exact (proj1 (Hrun [TestDisplay.Select 0 1; TestDisplay.Next; TestDisplay.Submit])).
Defined.

(** ** C6 *)

(** The body built from the selected answers is as the specification
    requires: with an answer for each of the [n] questions it has [n]
    entries, its keys are the numerals of 1 to [n], and its values are
    Likert labels. *)
Lemma primary_request_answers (selected : gmap nat Z) (n : nat) :
  dom selected = set_seq 0 n →
  size (answersForAPI selected) = n
  ∧ (∀ key, is_Some (answersForAPI selected !! key)
            ↔ ∃ k : nat, (1 ≤ k ≤ n)%nat ∧ key = pretty k)
  ∧ (∀ key label, answersForAPI selected !! key = Some label → label ∈ vocabulary).
Proof.
  intros Hdom. split; [|split].
  - by rewrite answersForAPI_size, <- size_dom, Hdom, size_set_seq.
  - intros key. by apply answersForAPI_keys.
  - apply answersForAPI_vocabulary.
Qed.

(** Through the view, a complete set of answers has one answer for each
    question. *)
Lemma complete_through_view {B : Backend} {rt : Runtime} (props : TestDisplay.Props)
    (w : World B) (r : Run B TestDisplay.State) :
  reachable props (start B TestDisplay.initial w) r →
  size (TestDisplay.selectedAnswers (comp r)) = TestDisplay.questionCount props →
  dom (TestDisplay.selectedAnswers (comp r)) = set_seq 0 (TestDisplay.questionCount props).
Proof.
  intros Hreach Hsize. apply in_range_complete; [|done].
  eapply in_range_reachable; [|exact Hreach]. apply in_range_initial.
Qed.

(** C6 fails in [TestDisplay]: when the request with the user's answers is
    rejected, a second request is sent to the same endpoint whose answers
    are a fixed map of twenty entries, whatever the number of questions. *)
Theorem fallback_request_answers (B : Backend) (rt : Runtime) (props : TestDisplay.Props)
    (r : Run B TestDisplay.State) (o : Outcome GetMcqsResponse) (w1 : World B)
    (e : Exn) (w2 : World B) :
  size (TestDisplay.selectedAnswers (comp r)) = TestDisplay.questionCount props →
  0 < TestDisplay.questionCount props →
  trim (TestDisplay.userId props) ≠ "" →
  trim (TestDisplay.documentId props) ≠ "" →
  api_getMcqs B (TestDisplay.userId props) (world r) = (o, w1) →
  api_submitAnswers B (TestDisplay.requestBody props (comp r)) w1 = (Throw e, w2) →
  Request (CallSubmitAnswers (TestDisplay.hardcodedTestRequest props))
    ∈ events (TestDisplay.handleSubmit props) r
  ∧ size (answers (TestDisplay.hardcodedTestRequest props)) = 20
  ∧ (TestDisplay.questionCount props ≠ 20 →
     size (answers (TestDisplay.hardcodedTestRequest props))
     ≠ TestDisplay.questionCount props).
Proof.
  intros Hn Hpos Hu Hd Hm Hs.
  split; [|split; [exact hardcodedAnswers_size|]];
    [|intros Hq; simpl; by rewrite hardcodedAnswers_size].
  assert (∃ evs, trace (TestDisplay.handleSubmit props r).2 =
            trace r ++ [Request (CallGetMcqs (TestDisplay.userId props));
                        Request (CallSubmitAnswers (TestDisplay.requestBody props (comp r)));
                        Request (CallSubmitAnswers (TestDisplay.hardcodedTestRequest props))]
                    ++ evs) as [evs Hevs].
  { rewrite (handleSubmit_rejected props r o w1 e w2 Hn Hpos Hu Hd Hm Hs).
    destruct (api_submitAnswers B (TestDisplay.hardcodedTestRequest props) w2)
      as [[submitResponse|e'] w3].
    - apply (conclude_events (λ e, is_submit_request e = false)); [done|].
      apply resolveResult_grows.
    - eexists. reflexivity. }
  rewrite (events_eq _ _ _ Hevs). set_solver.
Qed.

Lemma fallback_request_answers_witness :
  TestDisplay.questionCount sampleProps = 1
  ∧ size (TestDisplay.selectedAnswers (comp (start offline answered tt))) = 1
  ∧ Request (CallSubmitAnswers (TestDisplay.hardcodedTestRequest sampleProps))
      ∈ events (TestDisplay.handleSubmit sampleProps) (start offline answered tt)
  ∧ size (answers (TestDisplay.hardcodedTestRequest sampleProps)) = 20
  ∧ (TestDisplay.questionCount sampleProps ≠ 20 →
     size (answers (TestDisplay.hardcodedTestRequest sampleProps))
     ≠ TestDisplay.questionCount sampleProps).
Proof.
  assert (trim (TestDisplay.userId sampleProps) ≠ "") as Hu by (vm_compute; discriminate).
  assert (trim (TestDisplay.documentId sampleProps) ≠ "") as Hd by (vm_compute; discriminate).
  split; [reflexivity|]. split; [reflexivity|].
  exact (fallback_request_answers offline utf8 sampleProps (start offline answered tt)
           (Throw TypeError) tt TypeError tt eq_refl (le_n 1) Hu Hd eq_refl eq_refl).
Defined.

(** ** C4 *)

(** In [TestDisplay] the claim holds: after an accepted submission whose
    response is an object, the result identifier is read at the top level
    and under [data]; without one no further request is sent, with one the
    result is requested by it; and when there is none or that request is
    rejected, the submit response is stored as the result, the test is
    marked submitted and the success notification is shown. *)
Lemma submit_response_shown {B : Backend} {rt : Runtime} (props : TestDisplay.Props)
    (r : Run B TestDisplay.State) (o : Outcome GetMcqsResponse) (w1 : World B)
    (submitResponse : JValue) (w2 : World B) :
  size (TestDisplay.selectedAnswers (comp r)) = TestDisplay.questionCount props →
  0 < TestDisplay.questionCount props →
  trim (TestDisplay.userId props) ≠ "" →
  trim (TestDisplay.documentId props) ≠ "" →
  api_getMcqs B (TestDisplay.userId props) (world r) = (o, w1) →
  api_submitAnswers B (TestDisplay.requestBody props (comp r)) w1 = (Ok submitResponse, w2) →
  nullish submitResponse = false →
  let sent := [Request (CallGetMcqs (TestDisplay.userId props));
               Request (CallSubmitAnswers (TestDisplay.requestBody props (comp r)))] in
  let after := (TestDisplay.handleSubmit props r).2 in
  (truthy (resultIdValue submitResponse) = false →
     ∃ p, events (TestDisplay.handleSubmit props) r = sent ++ [Notify (submitted p)]
          ∧ TestDisplay.testResult (comp after) = Some submitResponse
          ∧ TestDisplay.isSubmitted (comp after) = true
          ∧ (truthy submitResponse = true →
             TestDisplay.showsResults (comp after) = Some submitResponse))
  ∧ (∀ fetched w3,
       truthy (resultIdValue submitResponse) = true →
       api_getResultById B (resultIdValue submitResponse) w2 = (fetched, w3) →
       ∃ p, events (TestDisplay.handleSubmit props) r =
              sent ++ [Request (CallGetResultById (resultIdValue submitResponse));
                       Notify (submitted p)]
            ∧ TestDisplay.testResult (comp after)
              = Some (storedResult submitResponse fetched)
            ∧ TestDisplay.isSubmitted (comp after) = true
            ∧ (truthy (storedResult submitResponse fetched) = true →
               TestDisplay.showsResults (comp after)
               = Some (storedResult submitResponse fetched))).
Proof.
  intros Hn Hpos Hu Hd Hm Hs Hobj sent after. subst sent after. unfold events.
  rewrite (handleSubmit_accepted props r o w1 submitResponse w2 Hn Hpos Hu Hd Hm Hs).
  split.
  - intros Hid.
    match goal with
    | |- context [conclude _ ?r0] =>
        destruct (resolveResult_without_id submitResponse r0 Hobj Hid) as [p Hp]
    end.
    exists p. unfold conclude, try_finally, try_catch. rewrite Hp. simpl.
    rewrite <- !(assoc_L (++)), drop_app_length.
    repeat split. unfold TestDisplay.showsResults. simpl. by intros ->.
  - intros fetched w3 Hid Hf.
    match goal with
    | |- context [conclude _ ?r0] =>
        destruct (resolveResult_with_id submitResponse r0 fetched w3 Hobj Hid Hf) as [p Hp]
    end.
    exists p. unfold conclude, try_finally, try_catch. rewrite Hp. simpl.
    rewrite <- !(assoc_L (++)), drop_app_length.
    repeat split. unfold TestDisplay.showsResults. simpl. by intros ->.
Qed.

(** C4 fails in [ADOFTestDisplay]: the result identifier is read under
    [data] only, and when the request for the result is rejected after an
    accepted submission, the handler reports "Submission Failed" and never
    hands a result to [onTestComplete]. *)
Theorem adof_result_fetch_failure (B : Backend) (props : ADOFTestDisplay.Props)
    (r : Run B ADOFTestDisplay.State) (t : GenerateTestResponse)
    (submitResponse data result_id : JValue) (w1 : World B) (e : Exn) (w2 : World B) :
  ADOFTestDisplay.testData (comp r) = Some t →
  size (ADOFTestDisplay.selectedAnswers (comp r)) = length (questions t) →
  documentIdOf t ≠ "" →
  api_submitAnswers B (ADOFTestDisplay.requestBody props t (comp r)) (world r)
    = (Ok submitResponse, w1) →
  get_prop submitResponse "data" = Ok data →
  get_prop data "result_id" = Ok result_id →
  api_getResultById B result_id w1 = (Throw e, w2) →
  events (ADOFTestDisplay.handleSubmit props) r =
    [Request (CallSubmitAnswers (ADOFTestDisplay.requestBody props t (comp r)));
     Request (CallGetResultById result_id);
     Notify (submissionFailed (error_description e))]
  ∧ ∀ results, TestComplete results ∉ events (ADOFTestDisplay.handleSubmit props) r.
Proof.
  intros Ht Hn Hd Hs Hdata Hid Hr.
  rewrite (events_eq _ _ _ (f_equal (λ x, trace x.2)
    (adof_handleSubmit_fetch_failed props r t submitResponse data result_id w1 e w2
       Ht Hn Hd Hs Hdata Hid Hr))).
  split; [done|]. intros results Hin.
  repeat (apply elem_of_cons in Hin as [Hin|Hin]; [discriminate Hin|]).
  by apply elem_of_nil in Hin.
Qed.

Lemma adof_result_fetch_failure_witness :
  api_submitAnswers forgetful
    (ADOFTestDisplay.requestBody adofProps sampleTest (adofAnswered sampleTest)) tt
    = (Ok acceptedResponse, tt)
  ∧ api_getResultById forgetful (JStr "res-1") tt
    = (Throw (Error (JStr "Failed to fetch result")), tt)
  ∧ events (ADOFTestDisplay.handleSubmit adofProps)
      (start forgetful (adofAnswered sampleTest) tt) =
    [Request (CallSubmitAnswers
                (ADOFTestDisplay.requestBody adofProps sampleTest (adofAnswered sampleTest)));
     Request (CallGetResultById (JStr "res-1"));
     Notify (submissionFailed (Text "Failed to fetch result"))].
Proof.
  assert (documentIdOf sampleTest ≠ "") as Hd by (vm_compute; discriminate).
  split; [reflexivity|]. split; [reflexivity|].
  exact (proj1 (adof_result_fetch_failure forgetful adofProps
                  (start forgetful (adofAnswered sampleTest) tt) sampleTest
                  acceptedResponse
                  (JObj {[ "result_id" := JStr "res-1"; "percentage" := JNum 80 ]})
                  (JStr "res-1") tt (Error (JStr "Failed to fetch result")) tt
                  eq_refl eq_refl Hd eq_refl eq_refl eq_refl eq_refl)).
Defined.

(** ** C8 *)

(** C8 as stated fails: [signup] reports the raw text of a JSON error
    body instead of its [error] member, and [getMcqs] reports its fixed
    message instead of the raw text when the body is empty. *)
Lemma error_message_not_always_extracted :
  (ok conflict = false
   ∧ spec_error_message parse_sample (text conflict)
     = Some (JStr "Email already registered")
   ∧ handle parse_sample OpSignup conflict = Throw (Error (JStr conflictBody)))
  ∧ (ok unavailable = false
     ∧ spec_error_message parse_sample (text unavailable) = Some (JStr "")
     ∧ handle parse_sample OpGetMcqs unavailable
       = Throw (Error (JStr "Failed to get MCQs")))
  ∧ ¬ every_error_message_extracted.
Proof.
  split; [by vm_compute|]. split; [by vm_compute|].
  intros Hclaim.
  specialize (Hclaim parse_sample OpGetMcqs unavailable (JStr "") eq_refl eq_refl).
  vm_compute in Hclaim. discriminate Hclaim.
Qed.

(** C8, amended.  For [getMcqs], [submitAnswers] and [getResultById], the
    message of an error response is computed from the text of its body:
    when the text parses to a value other than [null], the message is the
    [error] member if truthy, else the [message] member if truthy, else the
    fixed message of the operation; when the text does not parse, the
    message is the text itself, or the fixed message of the operation if
    the text is empty. *)
Theorem error_message_extraction (JSON_parse : string → option JValue)
    (op : Operation) (fallback : string) (response : Response) :
  fallback_message op = Some fallback →
  ok response = false →
  ∃ message,
    handle JSON_parse op response = Throw (Error message)
    ∧ (∀ errorData,
         JSON_parse (text response) = Some errorData → nullish errorData = false →
         (truthy (prop errorData "error") = true → message = prop errorData "error")
         ∧ (truthy (prop errorData "error") = false →
            truthy (prop errorData "message") = true →
            message = prop errorData "message")
         ∧ (truthy (prop errorData "error") = false →
            truthy (prop errorData "message") = false →
            message = JStr fallback))
    ∧ (JSON_parse (text response) = None → text response ≠ "" →
       message = JStr (text response))
    ∧ (JSON_parse (text response) = None → text response = "" →
       message = JStr fallback).
Proof.
  intros Hop Hok. exists (error_message JSON_parse fallback (text response)).
  split; [by apply handle_error|]. split; [|split].
  - intros errorData Hparse Hnull.
    rewrite (error_message_parsed _ _ _ _ Hparse Hnull). unfold js_or.
    repeat split.
    + by intros ->.
    + by intros -> ->.
    + by intros -> ->.
  - intros Hparse Htext. rewrite (error_message_unparsed _ _ _ Hparse).
    by rewrite str_or_non_empty.
  - intros Hparse Htext. rewrite (error_message_unparsed _ _ _ Hparse).
    by rewrite Htext.
Qed.

Lemma error_message_extraction_witness :
  fallback_message OpSubmitAnswers = Some "Answer submission failed"
  ∧ ok rejected = false
  ∧ handle parse_sample OpSubmitAnswers rejected
    = Throw (Error (JStr "mcq_id not found")).
Proof.
  split; [reflexivity|]. split; [reflexivity|].
  destruct (error_message_extraction parse_sample OpSubmitAnswers
              "Answer submission failed" rejected eq_refl eq_refl)
    as (message & Hthrow & Hparsed & _).
  destruct (Hparsed (JObj {[ "error" := JStr "mcq_id not found" ]}) eq_refl eq_refl)
    as (Herror & _).
  rewrite Hthrow. f_equal. f_equal. exact (Herror eq_refl).
Defined.

(** * Further properties of the code *)

(** ** The API client *)

Ltac client_cases op response :=
  destruct op; simpl;
  unfold signup, signin, Api.generateTest, getMcqs, submitAnswers, getJobs,
    submitUserData, getResultById, json, parse_body;
  destruct (ok response); simpl.

(** X1.  An operation of the client resolves exactly when the response has a
    status in 200-299 and a body that parses (to an array, for [getJobs]),
    and then it resolves to the parsed body. *)
Theorem client_resolves_parsed_body (JSON_parse : string → option JValue)
    (op : Operation) (response : Response) (v : JValue) :
  handle JSON_parse op response = Ok v ↔
  ok response = true ∧ JSON_parse (text response) = Some v
  ∧ (op = OpGetJobs → is_array v = true).
Proof.
  client_cases op response;
    destruct (JSON_parse (text response)) as [data|]; simpl;
    try destruct (is_array data) eqn:?; simpl;
    (split; [intros ?; simplify_eq; by repeat split
           |intros (? & ? & Ha); simplify_eq; try done;
            specialize (Ha eq_refl); congruence]).
Qed.

Lemma client_resolves_parsed_body_witness :
  handle parse_literals OpGetJobs emptyListing = Ok (JArr [])
  ∧ handle parse_literals OpGetJobs emptyObject ≠ Ok (JObj ∅).
Proof.
  split.
  - apply (proj2 (client_resolves_parsed_body parse_literals OpGetJobs emptyListing (JArr []))).
    split; [reflexivity|]. split; [reflexivity|]. intros _. reflexivity.
  - intros H.
    apply (proj1 (client_resolves_parsed_body parse_literals OpGetJobs emptyObject (JObj ∅)))
      in H.
    destruct H as (_ & _ & H). discriminate (H eq_refl).
Defined.

(** X2.  A response with a status in 200-299 whose body is unusable is
    rejected: when the body does not parse, [getMcqs], [submitAnswers] and
    [getResultById] throw "Invalid response format from server" and the
    operations that call [response.json()] pass on its [SyntaxError]; when
    the body of [/jobs] parses to anything but an array, [getJobs] throws
    "Invalid response format: Expected an array of jobs". *)
Theorem client_rejects_unusable_body (JSON_parse : string → option JValue)
    (response : Response) :
  ok response = true →
  (JSON_parse (text response) = None →
     ∀ op, handle JSON_parse op response =
       Throw (match fallback_message op with
              | Some _ => Error (JStr "Invalid response format from server")
              | None => SyntaxError
              end))
  ∧ (∀ data, JSON_parse (text response) = Some data → is_array data = false →
       handle JSON_parse OpGetJobs response =
         Throw (Error (JStr "Invalid response format: Expected an array of jobs"))).
Proof.
  intros Hok. split.
  - intros Hparse op. destruct op; simpl;
      unfold signup, signin, Api.generateTest, getMcqs, submitAnswers, getJobs,
        submitUserData, getResultById, json, parse_body;
      by rewrite Hok, Hparse.
  - intros data Hparse Harr. simpl. unfold getJobs, json.
    by rewrite Hok, Hparse, Harr.
Qed.

Lemma client_rejects_unusable_body_witness :
  handle parse_literals OpSubmitAnswers truncated
    = Throw (Error (JStr "Invalid response format from server"))
  ∧ handle parse_literals OpSignin truncated = Throw SyntaxError
  ∧ handle parse_literals OpGetJobs emptyObject
    = Throw (Error (JStr "Invalid response format: Expected an array of jobs")).
Proof.
  destruct (client_rejects_unusable_body parse_literals truncated eq_refl) as [Hnone _].
  destruct (client_rejects_unusable_body parse_literals emptyObject eq_refl) as [_ Hobj].
  split; [exact (Hnone eq_refl OpSubmitAnswers)|].
  split; [exact (Hnone eq_refl OpSignin)|].
  exact (Hobj (JObj ∅) eq_refl eq_refl).
Defined.

Lemma truthy_js_or (a b : JValue) : truthy b = true → truthy (js_or a b) = true.
Proof. intros Hb. unfold js_or. by destruct (truthy a) eqn:Ha. Qed.

Lemma truthy_str_or (s fallback : string) :
  fallback ≠ "" → truthy (JStr (str_or s fallback)) = true.
Proof.
  intros Hf. unfold str_or. simpl.
  destruct (String.eqb_spec s "") as [->|Hs]; apply negb_true_iff, String.eqb_neq; done.
Qed.

Lemma truthy_error_message (JSON_parse : string → option JValue)
    (fallback responseText : string) :
  fallback ≠ "" → truthy (error_message JSON_parse fallback responseText) = true.
Proof.
  intros Hf. unfold error_message.
  destruct (JSON_parse responseText) as [errorData|]; [|by apply truthy_str_or].
  destruct (nullish errorData); [by apply truthy_str_or|].
  do 2 apply truthy_js_or. simpl. by apply negb_true_iff, String.eqb_neq.
Qed.

Lemma truthy_string (s : string) : truthy (JStr s) = true → s ≠ "".
Proof. simpl. by intros H%negb_true_iff%String.eqb_neq. Qed.

(** X3.  Whatever an error response holds, the operation throws an [Error]
    built from a truthy value: never from an empty string, [null], [0] or
    [false] found in the body.  For the operations that do not parse the
    body it is a string, so the failure message shown is not empty. *)
Theorem client_error_message_truthy (JSON_parse : string → option JValue)
    (op : Operation) (response : Response) :
  ok response = false →
  ∃ message, handle JSON_parse op response = Throw (Error message)
             ∧ truthy message = true
             ∧ (fallback_message op = None → ∃ s, message = JStr s ∧ s ≠ "").
Proof.
  intros Hok. destruct op; simpl;
    unfold signup, signin, Api.generateTest, getMcqs, submitAnswers, getJobs,
      submitUserData, getResultById;
    rewrite Hok; simpl; eexists; (split; [reflexivity|]);
    (split; [first [ by apply truthy_str_or | by apply truthy_error_message | done ]|]);
    try done; intros _; eexists; (split; [reflexivity|]);
    apply truthy_string; first [ by apply truthy_str_or | done ].
Qed.

Lemma client_error_message_truthy_witness :
  ∃ message, handle parse_sample OpGetResultById unavailable = Throw (Error message)
             ∧ truthy message = true
             ∧ (fallback_message OpGetResultById = None → ∃ s, message = JStr s ∧ s ≠ "").
Proof. exact (client_error_message_truthy parse_sample OpGetResultById unavailable eq_refl). Defined.

(** ** The checks of [TestDisplay.handleSubmit] *)

Lemma blank_check {rt : Runtime} (s : string) :
  String.eqb s "" || String.eqb (trim s) "" = String.eqb (trim s) "".
Proof. destruct (String.eqb_spec s "") as [->|]; [by rewrite trim_empty|done]. Qed.

Section TestDisplayChecks.

Import TestDisplay.
Context {B : Backend} {rt : Runtime}.
Variable props : Props.
Implicit Types (r : Run B State) (st : State).

Lemma validate_blank_id st r :
  trim (userId props) ≠ "" → trim (documentId props) = "" →
  validate props st r =
    (Throw (Error (JStr "Test document ID is required. Please generate a new test.")), r).
Proof.
  intros Hu Hd. unfold validate.
  rewrite (blank_check_false _ Hu), blank_check, Hd. reflexivity.
Qed.

Lemma validate_no_answers st r :
  trim (userId props) ≠ "" → trim (documentId props) ≠ "" →
  selectedAnswers st = ∅ →
  validate props st r =
    (Throw (Error (JStr "No answers provided. Please answer all questions.")), r).
Proof.
  intros Hu Hd Hs. unfold validate.
  rewrite (blank_check_false _ Hu), (blank_check_false _ Hd), Hs. reflexivity.
Qed.

(** A run that is not ready to be sent ends with one notification. *)
Lemma handleSubmit_not_ready r :
  ¬ (size (selectedAnswers (comp r)) = questionCount props
     ∧ 0 < questionCount props
     ∧ trim (userId props) ≠ "" ∧ trim (documentId props) ≠ "") →
  ∃ st t, handleSubmit props r =
            (Ok tt, {| comp := st; world := world r; trace := trace r ++ [Notify t] |})
          ∧ isSubmitted st = isSubmitted (comp r)
          ∧ variant t = Destructive.
Proof.
  intros Hnot.
  destruct (decide (size (selectedAnswers (comp r)) = questionCount props)) as [Hn|Hn];
    [|by eexists _, _; split; [by apply handleSubmit_incomplete|]].
  assert (∃ message, ∀ r', validate props (comp r) r' = (Throw (Error (JStr message)), r'))
    as [message Hv].
  { destruct (decide (trim (userId props) = "")) as [Hu|Hu];
      [eexists; intros r'; by apply validate_blank_user|].
    destruct (decide (trim (documentId props) = "")) as [Hd|Hd];
      [eexists; intros r'; by apply validate_blank_id|].
    eexists; intros r'. apply validate_no_answers; [done|done|].
    apply map_size_empty_inv. destruct (questionCount props); [done|].
    exfalso. apply Hnot. repeat split; [done|lia|done|done]. }
  eexists _, _. split; [by apply handleSubmit_validation_failed|done].
Qed.

(** A run that is ready sends the prefetch and then the answers. *)
Lemma handleSubmit_ready r :
  size (selectedAnswers (comp r)) = questionCount props →
  0 < questionCount props →
  trim (userId props) ≠ "" → trim (documentId props) ≠ "" →
  ∃ evs, trace (handleSubmit props r).2 =
           trace r ++ [Request (CallGetMcqs (userId props));
                       Request (CallSubmitAnswers (requestBody props (comp r)))] ++ evs.
Proof.
  intros Hn Hpos Hu Hd.
  destruct (api_getMcqs B (userId props) (world r)) as [o w1] eqn:Hm.
  destruct (api_submitAnswers B (requestBody props (comp r)) w1)
    as [[submitResponse|e] w2] eqn:Hs.
  - rewrite (handleSubmit_accepted props r o w1 submitResponse w2 Hn Hpos Hu Hd Hm Hs).
    apply (conclude_events (λ e, is_submit_request e = false)); [done|].
    apply resolveResult_grows.
  - rewrite (handleSubmit_rejected props r o w1 e w2 Hn Hpos Hu Hd Hm Hs).
    destruct (api_submitAnswers B (hardcodedTestRequest props) w2)
      as [[submitResponse|e'] w3].
    + destruct (conclude_events (λ e, is_submit_request e = false)
                  (resolveResult submitResponse)
                  [Request (CallGetMcqs (userId props));
                   Request (CallSubmitAnswers (requestBody props (comp r)));
                   Request (CallSubmitAnswers (hardcodedTestRequest props))]
                  (trace r) (started (comp r)) w3) as [evs Hevs];
        [done|apply resolveResult_grows|].
      eexists. rewrite Hevs. simpl. reflexivity.
    + eexists. simpl. reflexivity.
Qed.

End TestDisplayChecks.

(** X4.  The checks [TestDisplay.handleSubmit] makes before sending anything
    leave the run as it is and report, in this order, a blank user
    identifier, a blank test identifier (blank: empty once trimmed, as an
    identifier of white space only is) and an empty selection; when none of the three applies
    they pass: the check for invalid answer labels can never fail. *)
Theorem validate_outcome (B : Backend) (rt : Runtime) (props : TestDisplay.Props)
    (st : TestDisplay.State) (r : Run B TestDisplay.State) :
  (trim (TestDisplay.userId props) = "" →
     TestDisplay.validate props st r =
       (Throw (Error (JStr "User ID is required. Please log in again.")), r))
  ∧ (trim (TestDisplay.userId props) ≠ "" → trim (TestDisplay.documentId props) = "" →
     TestDisplay.validate props st r =
       (Throw (Error (JStr "Test document ID is required. Please generate a new test.")), r))
  ∧ (trim (TestDisplay.userId props) ≠ "" → trim (TestDisplay.documentId props) ≠ "" →
     TestDisplay.selectedAnswers st = ∅ →
     TestDisplay.validate props st r =
       (Throw (Error (JStr "No answers provided. Please answer all questions.")), r))
  ∧ (trim (TestDisplay.userId props) ≠ "" → trim (TestDisplay.documentId props) ≠ "" →
     TestDisplay.selectedAnswers st ≠ ∅ →
     TestDisplay.validate props st r = (Ok tt, r)).
Proof.
  split; [apply validate_blank_user|]. split; [apply validate_blank_id|].
  split; [apply validate_no_answers|].
  intros Hu Hd Hs. apply validate_pass; [done|done|].
  destruct (size (TestDisplay.selectedAnswers st)) eqn:E; [|lia].
  by apply map_size_empty_inv in E.
Qed.

Lemma validate_outcome_witness :
  trim (TestDisplay.userId blankIdProps) ≠ ""
  ∧ trim (TestDisplay.documentId blankIdProps) = ""
  ∧ TestDisplay.validate blankIdProps answered (start offline answered tt) =
      (Throw (Error (JStr "Test document ID is required. Please generate a new test.")),
       start offline answered tt).
Proof.
  assert (trim (TestDisplay.userId blankIdProps) ≠ "") as Hu by (vm_compute; discriminate).
  split; [exact Hu|]. split; [reflexivity|].
  exact (proj1 (proj2 (validate_outcome offline utf8 blankIdProps answered
                         (start offline answered tt))) Hu eq_refl).
Defined.

(** X5.  [TestDisplay.handleSubmit] contacts the server exactly when every
    question of a non-empty test is answered and neither the user
    identifier nor the test identifier is blank.  Then the stored questions
    are requested first and the answers built from the selection are sent
    second, whatever the first request returns; otherwise no request is
    made, the server is left as it was and the only event is one
    destructive notification. *)
Theorem submission_requests (B : Backend) (rt : Runtime) (props : TestDisplay.Props)
    (r : Run B TestDisplay.State) :
  let ready :=
    size (TestDisplay.selectedAnswers (comp r)) = TestDisplay.questionCount props
    ∧ 0 < TestDisplay.questionCount props
    ∧ trim (TestDisplay.userId props) ≠ ""
    ∧ trim (TestDisplay.documentId props) ≠ "" in
  (ready →
     ∃ evs, events (TestDisplay.handleSubmit props) r =
       Request (CallGetMcqs (TestDisplay.userId props))
       :: Request (CallSubmitAnswers (TestDisplay.requestBody props (comp r))) :: evs)
  ∧ (¬ ready →
     world (TestDisplay.handleSubmit props r).2 = world r
     ∧ ∃ t, events (TestDisplay.handleSubmit props) r = [Notify t]
            ∧ variant t = Destructive).
Proof.
  intros ready. subst ready. split.
  - intros (Hn & Hpos & Hu & Hd).
    destruct (handleSubmit_ready props r Hn Hpos Hu Hd) as [evs Hevs].
    exists evs. by rewrite (events_eq _ _ _ Hevs).
  - intros Hnot. destruct (handleSubmit_not_ready props r Hnot) as (st & t & Hrun & _ & Hv).
    rewrite (events_eq _ _ _ (f_equal (λ x, trace x.2) Hrun)), Hrun. eauto.
Qed.

Lemma submission_requests_witness :
  (∃ evs, events (TestDisplay.handleSubmit sampleProps) (start offline answered tt) =
     Request (CallGetMcqs "user-1")
     :: Request (CallSubmitAnswers (TestDisplay.requestBody sampleProps answered)) :: evs)
  ∧ ∃ t, events (TestDisplay.handleSubmit sampleProps)
           (start offline TestDisplay.initial tt) = [Notify t]
         ∧ variant t = Destructive.
Proof.
  assert (trim (TestDisplay.userId sampleProps) ≠ "") as Hu by (vm_compute; discriminate).
  assert (trim (TestDisplay.documentId sampleProps) ≠ "") as Hd by (vm_compute; discriminate).
  split.
  - exact (proj1 (submission_requests offline utf8 sampleProps (start offline answered tt))
             (conj eq_refl (conj (le_n 1) (conj Hu Hd)))).
  - refine (proj2 (proj2 (submission_requests offline utf8 sampleProps
                            (start offline TestDisplay.initial tt)) _)).
    intros (Hn & _). vm_compute in Hn. discriminate Hn.
Defined.

(** ** The flags of the handlers *)

(** The state a [finally] block leaves is the one its last assignment
    wrote. *)
Ltac finally_flag :=
  unfold try_finally;
  match goal with
  | |- context [try_catch ?body ?handler ?r] => by destruct (try_catch body handler r)
  end.

Section Flags.

Context {B : Backend} {rt : Runtime}.

Lemma handleSubmit_releases (props : TestDisplay.Props) (r : Run B TestDisplay.State) :
  size (TestDisplay.selectedAnswers (comp r)) = TestDisplay.questionCount props →
  TestDisplay.isSubmitting (comp (TestDisplay.handleSubmit props r).2) = false.
Proof.
  intros Hn. rewrite (handleSubmit_complete props r Hn). unfold conclude, modify.
  finally_flag.
Qed.

Lemma adof_handleSubmit_releases (props : ADOFTestDisplay.Props)
    (r : Run B ADOFTestDisplay.State) (t : GenerateTestResponse) :
  ADOFTestDisplay.testData (comp r) = Some t →
  size (ADOFTestDisplay.selectedAnswers (comp r)) = length (questions t) →
  ADOFTestDisplay.isSubmitting (comp (ADOFTestDisplay.handleSubmit props r).2) = false.
Proof.
  intros Ht Hn%Nat.eqb_eq. unfold ADOFTestDisplay.handleSubmit. exec_seq.
  rewrite Ht, Hn. exec_seq. finally_flag.
Qed.

Lemma generateTest_ok (props : ADOFTestDisplay.Props) (r : Run B ADOFTestDisplay.State) :
  (ADOFTestDisplay.generateTest props r).1 = Ok tt.
Proof.
  unfold ADOFTestDisplay.generateTest. destruct (String.eqb _ _); [done|]. exec_seq.
  by apply try_catch_finally_ok.
Qed.

Lemma generateTest_releases (props : ADOFTestDisplay.Props)
    (r : Run B ADOFTestDisplay.State) :
  ADOFTestDisplay.userId props ≠ "" →
  ADOFTestDisplay.isLoadingTest (comp (ADOFTestDisplay.generateTest props r).2) = false.
Proof.
  intros Hu%String.eqb_neq. unfold ADOFTestDisplay.generateTest. rewrite Hu. exec_seq.
  finally_flag.
Qed.

Lemma handleGenerateTest_ok (user : option Dashboard.User) (r : Run B Dashboard.State) :
  (Dashboard.handleGenerateTest user r).1 = Ok tt.
Proof.
  unfold Dashboard.handleGenerateTest. destruct user as [u|]; [|done]. exec_seq.
  by apply try_catch_finally_ok.
Qed.

Lemma handleGenerateTest_releases (u : Dashboard.User) (r : Run B Dashboard.State) :
  Dashboard.isGenerating (comp (Dashboard.handleGenerateTest (Some u) r).2) = false.
Proof.
  unfold Dashboard.handleGenerateTest. exec_seq. finally_flag.
Qed.

End Flags.

(** X6.  No handler that talks to the server lets an exception escape, and
    each one that raised its busy flag ([isSubmitting], [isLoadingTest],
    [isGenerating]) has lowered it when it ends, whatever the server
    answered: the view is never left disabled. *)
Theorem busy_flag_released (B : Backend) (rt : Runtime) :
  (∀ (props : TestDisplay.Props) (r : Run B TestDisplay.State),
     (TestDisplay.handleSubmit props r).1 = Ok tt
     ∧ (size (TestDisplay.selectedAnswers (comp r)) = TestDisplay.questionCount props →
        TestDisplay.isSubmitting (comp (TestDisplay.handleSubmit props r).2) = false))
  ∧ (∀ (props : ADOFTestDisplay.Props) (r : Run B ADOFTestDisplay.State),
       (ADOFTestDisplay.handleSubmit props r).1 = Ok tt
       ∧ (∀ t, ADOFTestDisplay.testData (comp r) = Some t →
               size (ADOFTestDisplay.selectedAnswers (comp r)) = length (questions t) →
               ADOFTestDisplay.isSubmitting
                 (comp (ADOFTestDisplay.handleSubmit props r).2) = false))
  ∧ (∀ (props : ADOFTestDisplay.Props) (r : Run B ADOFTestDisplay.State),
       (ADOFTestDisplay.generateTest props r).1 = Ok tt
       ∧ (ADOFTestDisplay.userId props ≠ "" →
          ADOFTestDisplay.isLoadingTest
            (comp (ADOFTestDisplay.generateTest props r).2) = false))
  ∧ (∀ (user : option Dashboard.User) (r : Run B Dashboard.State),
       (Dashboard.handleGenerateTest user r).1 = Ok tt
       ∧ (∀ u, user = Some u →
               Dashboard.isGenerating
                 (comp (Dashboard.handleGenerateTest user r).2) = false)).
Proof.
  split; [|split; [|split]].
  - intros props r. split; [apply handleSubmit_ok|apply handleSubmit_releases].
  - intros props r. split; [apply adof_handleSubmit_ok|apply adof_handleSubmit_releases].
  - intros props r. split; [apply generateTest_ok|apply generateTest_releases].
  - intros user r. split; [apply handleGenerateTest_ok|].
    intros u ->. apply handleGenerateTest_releases.
Qed.

Lemma busy_flag_released_witness :
  TestDisplay.isSubmitting
    (comp (TestDisplay.handleSubmit sampleProps
             (start offline (TestDisplay.setIsSubmitting true answered) tt)).2) = false
  ∧ Dashboard.isGenerating
      (comp (Dashboard.handleGenerateTest (Some sampleUser)
               (start offline Dashboard.initial tt)).2) = false.
Proof.
  split.
  - exact (proj2 (proj1 (busy_flag_released offline utf8) sampleProps
                    (start offline (TestDisplay.setIsSubmitting true answered) tt)) eq_refl).
  - exact (proj2 (proj2 (proj2 (proj2 (busy_flag_released offline utf8))) (Some sampleUser)
                    (start offline Dashboard.initial tt)) sampleUser eq_refl).
Defined.

(** ** A rejected submission *)

(** X7.  When the server rejects every submission, [TestDisplay.handleSubmit]
    never marks the test as submitted and stores no result: a test that was
    not submitted before is not shown as submitted afterwards, and the
    results view stays closed. *)
Theorem rejected_never_submitted (B : Backend) (rt : Runtime) (props : TestDisplay.Props)
    (r : Run B TestDisplay.State) :
  (∀ body w, ∃ e w', api_submitAnswers B body w = (Throw e, w')) →
  let after := comp (TestDisplay.handleSubmit props r).2 in
  TestDisplay.isSubmitted after = TestDisplay.isSubmitted (comp r)
  ∧ (TestDisplay.isSubmitted (comp r) = false → TestDisplay.showsResults after = None)
  ∧ (∀ t, Notify t ∈ events (TestDisplay.handleSubmit props) r → variant t = Destructive).
Proof.
  intros Hrej after. subst after.
  assert (∃ st t evs, TestDisplay.handleSubmit props r =
            (Ok tt, {| comp := st; world := world (TestDisplay.handleSubmit props r).2;
                       trace := trace r ++ evs ++ [Notify t] |})
            ∧ TestDisplay.isSubmitted st = TestDisplay.isSubmitted (comp r)
            ∧ variant t = Destructive
            ∧ Forall (λ e, is_request e = true) evs) as (st & t & evs & Hrun & Hs & Hv & Hreq).
  { destruct (decide (size (TestDisplay.selectedAnswers (comp r))
                        = TestDisplay.questionCount props
                      ∧ 0 < TestDisplay.questionCount props
                      ∧ trim (TestDisplay.userId props) ≠ ""
                      ∧ trim (TestDisplay.documentId props) ≠ ""))
      as [(Hn & Hpos & Hu & Hd)|Hnot].
    - destruct (api_getMcqs B (TestDisplay.userId props) (world r)) as [o w1] eqn:Hm.
      destruct (Hrej (TestDisplay.requestBody props (comp r)) w1) as (e & w2 & H1).
      destruct (Hrej (TestDisplay.hardcodedTestRequest props) w2) as (e' & w3 & H2).
      pose proof (handleSubmit_rejected props r o w1 e w2 Hn Hpos Hu Hd Hm H1) as Hrun.
      simpl in Hrun. rewrite H2 in Hrun. rewrite Hrun. simpl.
      eexists _, _, [_; _; _]. split; [reflexivity|]. split; [done|]. split; [done|].
      by repeat constructor.
    - destruct (handleSubmit_not_ready props r Hnot) as (st & t & Hrun & Hs & Hv).
      rewrite Hrun. simpl. by exists st, t, []. }
  rewrite (events_eq _ _ _ (f_equal (λ x, trace x.2) Hrun)). rewrite Hrun. simpl.
  split; [done|]. split.
  - intros Hb. unfold TestDisplay.showsResults. by rewrite Hs, Hb.
  - intros t' [Hin|Hin%list_elem_of_singleton]%elem_of_app; [|by simplify_eq].
    rewrite Forall_forall in Hreq. by apply Hreq in Hin.
Qed.

Lemma rejected_never_submitted_witness :
  TestDisplay.isSubmitted
    (comp (TestDisplay.handleSubmit sampleProps (start offline answered tt)).2) = false
  ∧ TestDisplay.showsResults
      (comp (TestDisplay.handleSubmit sampleProps (start offline answered tt)).2) = None.
Proof.
  assert (∀ body w, ∃ e w', api_submitAnswers offline body w = (Throw e, w')) as Hrej
    by (intros body w; exists TypeError, w; reflexivity).
  destruct (rejected_never_submitted offline utf8 sampleProps (start offline answered tt) Hrej)
    as (Hs & Hshow & _).
  split; [exact Hs|exact (Hshow eq_refl)].
Defined.

(** ** The result shown *)

(** X8.  After an accepted submission whose response names a result, the
    result stored (and shown, the test being marked submitted) is the
    detailed result exactly when the request for it resolves to a value
    that has a truthy [data] member; when that request is rejected, or
    resolves to [null] or to a value without [data], the response of the
    submission is stored instead and the submission still counts as
    successful. *)
Theorem detailed_result_preferred (B : Backend) (rt : Runtime) (props : TestDisplay.Props)
    (r : Run B TestDisplay.State) (o : Outcome GetMcqsResponse) (w1 : World B)
    (submitResponse : JValue) (w2 : World B) (fetched : Outcome JValue) (w3 : World B) :
  size (TestDisplay.selectedAnswers (comp r)) = TestDisplay.questionCount props →
  0 < TestDisplay.questionCount props →
  trim (TestDisplay.userId props) ≠ "" →
  trim (TestDisplay.documentId props) ≠ "" →
  api_getMcqs B (TestDisplay.userId props) (world r) = (o, w1) →
  api_submitAnswers B (TestDisplay.requestBody props (comp r)) w1 = (Ok submitResponse, w2) →
  nullish submitResponse = false →
  truthy (resultIdValue submitResponse) = true →
  api_getResultById B (resultIdValue submitResponse) w2 = (fetched, w3) →
  let after := comp (TestDisplay.handleSubmit props r).2 in
  TestDisplay.isSubmitted after = true
  ∧ (∀ detailedResult,
       fetched = Ok detailedResult → nullish detailedResult = false →
       truthy (prop detailedResult "data") = true →
       TestDisplay.testResult after = Some detailedResult
       ∧ TestDisplay.showsResults after = Some detailedResult)
  ∧ (∀ detailedResult,
       fetched = Ok detailedResult →
       nullish detailedResult = true ∨ truthy (prop detailedResult "data") = false →
       TestDisplay.testResult after = Some submitResponse)
  ∧ (∀ e, fetched = Throw e → TestDisplay.testResult after = Some submitResponse)
  ∧ ∃ p, last (events (TestDisplay.handleSubmit props) r) = Some (Notify (submitted p)).
Proof.
  intros Hn Hpos Hu Hd Hm Hs Hobj Hid Hf after. subst after.
  destruct (proj2 (submit_response_shown props r o w1 submitResponse w2
                     Hn Hpos Hu Hd Hm Hs Hobj) fetched w3 Hid Hf)
    as (p & Hev & Hres & Hsub & Hshow).
  split; [exact Hsub|]. rewrite Hres. split; [|split; [|split]].
  - intros detailedResult -> Hnn Hdata. simpl in *. rewrite Hnn, Hdata in *.
    split; [done|]. apply Hshow. by destruct detailedResult.
  - intros detailedResult -> [Hnull|Hdata]; simpl; [by rewrite Hnull|].
    rewrite Hdata. by destruct (nullish detailedResult).
  - by intros e ->.
  - exists p. rewrite Hev. simpl. reflexivity.
Qed.

Lemma detailed_result_preferred_witness :
  TestDisplay.showsResults
    (comp (TestDisplay.handleSubmit sampleProps (start registry answered tt)).2)
    = Some detailedResponse
  ∧ TestDisplay.testResult
      (comp (TestDisplay.handleSubmit sampleProps (start forgetful answered tt)).2)
    = Some acceptedResponse.
Proof.
  assert (trim (TestDisplay.userId sampleProps) ≠ "") as Hu by (vm_compute; discriminate).
  assert (trim (TestDisplay.documentId sampleProps) ≠ "") as Hd by (vm_compute; discriminate).
  split.
  - destruct (detailed_result_preferred registry utf8 sampleProps (start registry answered tt)
                (Ok storedCopy) tt acceptedResponse tt (Ok detailedResponse) tt
                eq_refl (le_n 1) Hu Hd eq_refl eq_refl eq_refl eq_refl eq_refl)
      as (_ & Hdetailed & _).
    exact (proj2 (Hdetailed detailedResponse eq_refl eq_refl eq_refl)).
  - destruct (detailed_result_preferred forgetful utf8 sampleProps (start forgetful answered tt)
                (Throw (Error (JStr "Failed to get MCQs"))) tt acceptedResponse tt
                (Throw (Error (JStr "Failed to fetch result"))) tt
                eq_refl (le_n 1) Hu Hd eq_refl eq_refl eq_refl eq_refl eq_refl)
      as (_ & _ & _ & Hthrow & _).
    exact (Hthrow _ eq_refl).
Defined.

(** ** The body of the request *)

Lemma answersForAPI_insert (selected : gmap nat Z) (i : nat) (score : Z) :
  answersForAPI (<[i := score]> selected)
  = <[questionKey i := responseText score]> (answersForAPI selected).
Proof.
  rewrite !answersForAPI_kmap, fmap_insert. apply (kmap_insert questionKey).
Qed.

(** X9.  The answers sent follow the selection entry by entry, whether or not
    it is complete: selecting a score for a question writes the label of
    that score under the number of the question (its index plus one) and
    leaves every other entry of the body alone; the body has as many
    entries as questions are answered, and the entry for question [i] is
    the label of the score selected there, if any. *)
Theorem request_follows_selection (props : TestDisplay.Props) (st : TestDisplay.State)
    (i : nat) (optionScore : Z) :
  (TestDisplay.isSubmitted st = false →
     answers (TestDisplay.requestBody props (TestDisplay.handleAnswerSelect i optionScore st))
     = <[pretty (i + 1) := responseText optionScore]>
         (answers (TestDisplay.requestBody props st)))
  ∧ size (answers (TestDisplay.requestBody props st)) = size (TestDisplay.selectedAnswers st)
  ∧ answers (TestDisplay.requestBody props st) !! pretty (i + 1)
    = responseText <$> TestDisplay.selectedAnswers st !! i
  ∧ answers (TestDisplay.requestBody props st) !! "0" = None.
Proof.
  split; [|split; [|split]]; simpl.
  - intros Hs. unfold TestDisplay.handleAnswerSelect. rewrite Hs. simpl.
    apply answersForAPI_insert.
  - apply answersForAPI_size.
  - apply (answersForAPI_lookup _ i).
  - destruct (answersForAPI _ !! "0") as [label|] eqn:E; [exfalso|done].
    apply answersForAPI_Some in E as (j & _ & Hkey & _).
    unfold questionKey in Hkey. change "0" with (pretty 0) in Hkey.
    apply (inj pretty) in Hkey. lia.
Qed.

Lemma request_follows_selection_witness :
  answers (TestDisplay.requestBody twoQuestions
             (TestDisplay.handleAnswerSelect 1 5 answered))
  = <[ "2" := "Strongly Agree" ]> (answers (TestDisplay.requestBody twoQuestions answered)).
Proof.
  exact (proj1 (request_follows_selection twoQuestions answered 1 5) eq_refl).
Defined.

(** ** Moving between the questions *)

Lemma handleNext_index (props : TestDisplay.Props) (st : TestDisplay.State) :
  TestDisplay.currentQuestionIndex (TestDisplay.handleNext props st) =
    if decide (TestDisplay.currentQuestionIndex st + 1 < TestDisplay.questionCount props)
    then TestDisplay.currentQuestionIndex st + 1
    else TestDisplay.currentQuestionIndex st.
Proof.
  unfold TestDisplay.handleNext.
  destruct (Z.ltb_spec (Z.of_nat (TestDisplay.currentQuestionIndex st))
              (Z.of_nat (TestDisplay.questionCount props) - 1));
    destruct (decide _); simpl; try done; lia.
Qed.

Lemma handlePrevious_index (st : TestDisplay.State) :
  TestDisplay.currentQuestionIndex (TestDisplay.handlePrevious st) =
    TestDisplay.currentQuestionIndex st - 1.
Proof.
  unfold TestDisplay.handlePrevious.
  destruct (Nat.ltb_spec 0 (TestDisplay.currentQuestionIndex st)); simpl; lia.
Qed.

Lemma step_index {B : Backend} {rt : Runtime} (props : TestDisplay.Props) (a : TestDisplay.Action)
    (r : Run B TestDisplay.State) :
  TestDisplay.currentQuestionIndex (comp r) < TestDisplay.questionCount props →
  TestDisplay.currentQuestionIndex (comp (TestDisplay.step props a r))
    < TestDisplay.questionCount props.
Proof.
  intros Hlt. destruct a as [i score| | |]; simpl.
  - unfold TestDisplay.handleAnswerSelect. by destruct (TestDisplay.isSubmitted _).
  - rewrite handleNext_index. by destruct (decide _).
  - rewrite handlePrevious_index. lia.
  - destruct (handleSubmit_frame props r) as (_ & Hidx & _). by rewrite Hidx.
Qed.

(** Whatever is done in the view, an index of the test stays one. *)
Lemma run_index {B : Backend} {rt : Runtime} (props : TestDisplay.Props)
    (actions : list TestDisplay.Action) (r : Run B TestDisplay.State) :
  TestDisplay.currentQuestionIndex (comp r) < TestDisplay.questionCount props →
  TestDisplay.currentQuestionIndex (comp (TestDisplay.run props actions r))
    < TestDisplay.questionCount props.
Proof.
  revert r. unfold TestDisplay.run.
  induction actions as [|a actions IH]; intros r Hlt; simpl; [done|].
  apply IH. by apply step_index.
Qed.

Lemma setCurrentQuestionIndex_back (st : TestDisplay.State) :
  TestDisplay.setCurrentQuestionIndex (λ prev, prev - 1)
    (TestDisplay.setCurrentQuestionIndex (λ prev, prev + 1) st) = st.
Proof. destruct st. unfold TestDisplay.setCurrentQuestionIndex. simpl. f_equal. lia. Qed.

Lemma setCurrentQuestionIndex_forth (st : TestDisplay.State) :
  0 < TestDisplay.currentQuestionIndex st →
  TestDisplay.setCurrentQuestionIndex (λ prev, prev + 1)
    (TestDisplay.setCurrentQuestionIndex (λ prev, prev - 1) st) = st.
Proof.
  intros H. destruct st. unfold TestDisplay.setCurrentQuestionIndex. simpl in *. f_equal. lia.
Qed.

(** Next and Previous undo each other wherever both move, and stop at
    the ends. *)
Lemma next_previous_undo (props : TestDisplay.Props) (st : TestDisplay.State) :
  (TestDisplay.currentQuestionIndex st + 1 < TestDisplay.questionCount props →
     TestDisplay.handlePrevious (TestDisplay.handleNext props st) = st)
  ∧ ((0 < TestDisplay.currentQuestionIndex st < TestDisplay.questionCount props)%nat →
     TestDisplay.handleNext props (TestDisplay.handlePrevious st) = st)
  ∧ ((TestDisplay.questionCount props ≤ TestDisplay.currentQuestionIndex st + 1)%nat →
     TestDisplay.handleNext props st = st)
  ∧ (TestDisplay.currentQuestionIndex st = 0 → TestDisplay.handlePrevious st = st).
Proof.
  split; [|split; [|split]].
  - intros H. unfold TestDisplay.handleNext.
    destruct (Z.ltb_spec (Z.of_nat (TestDisplay.currentQuestionIndex st))
                (Z.of_nat (TestDisplay.questionCount props) - 1)) as [_|]; [|lia].
    unfold TestDisplay.handlePrevious. simpl.
    destruct (Nat.ltb_spec 0 (TestDisplay.currentQuestionIndex st + 1)) as [_|]; [|lia].
    apply setCurrentQuestionIndex_back.
  - intros [H0 HN]. unfold TestDisplay.handlePrevious.
    destruct (Nat.ltb_spec 0 (TestDisplay.currentQuestionIndex st)) as [_|]; [|lia].
    unfold TestDisplay.handleNext. simpl.
    destruct (Z.ltb_spec (Z.of_nat (TestDisplay.currentQuestionIndex st - 1))
                (Z.of_nat (TestDisplay.questionCount props) - 1)) as [_|]; [|lia].
    by apply setCurrentQuestionIndex_forth.
  - intros H. unfold TestDisplay.handleNext.
    destruct (Z.ltb_spec (Z.of_nat (TestDisplay.currentQuestionIndex st))
                (Z.of_nat (TestDisplay.questionCount props) - 1)); [lia|done].
  - intros H. unfold TestDisplay.handlePrevious. by rewrite H.
Qed.

(** X10.  Moving between the questions of the test view.  Whatever the user
    does there (selecting answers, for any question, moving forward or
    backward, submitting, with any answers of the server), the index of the
    question shown stays an index of the test once it is one: the view
    never reads a question that does not exist.  Next and Previous undo
    each other wherever both move: forward from a question that is not the
    last and back again, or back from a question that is not the first and
    forward again, gives the state one started from; Next on the last
    question and Previous on the first change nothing. *)
Theorem test_navigation (B : Backend) (rt : Runtime) (props : TestDisplay.Props) :
  (∀ (actions : list TestDisplay.Action) (r : Run B TestDisplay.State),
     TestDisplay.currentQuestionIndex (comp r) < TestDisplay.questionCount props →
     is_Some (questions (TestDisplay.testData props)
                !! TestDisplay.currentQuestionIndex
                     (comp (TestDisplay.run props actions r))))
  ∧ ∀ st : TestDisplay.State,
      (TestDisplay.currentQuestionIndex st + 1 < TestDisplay.questionCount props →
         TestDisplay.handlePrevious (TestDisplay.handleNext props st) = st)
      ∧ ((0 < TestDisplay.currentQuestionIndex st < TestDisplay.questionCount props)%nat →
         TestDisplay.handleNext props (TestDisplay.handlePrevious st) = st)
      ∧ ((TestDisplay.questionCount props ≤ TestDisplay.currentQuestionIndex st + 1)%nat →
         TestDisplay.handleNext props st = st)
      ∧ (TestDisplay.currentQuestionIndex st = 0 → TestDisplay.handlePrevious st = st).
Proof.
  split.
  - intros actions r Hlt. apply lookup_lt_is_Some. by apply run_index.
  - intros st. apply next_previous_undo.
Qed.

Lemma test_navigation_witness :
  is_Some (questions (TestDisplay.testData twoQuestions)
             !! TestDisplay.currentQuestionIndex
                  (comp (TestDisplay.run twoQuestions
                           [TestDisplay.Next; TestDisplay.Next; TestDisplay.Select 7 2;
                            TestDisplay.Submit; TestDisplay.Next]
                           (start offline TestDisplay.initial tt))))
  ∧ TestDisplay.handlePrevious (TestDisplay.handleNext twoQuestions answered) = answered
  ∧ TestDisplay.handleNext twoQuestions (TestDisplay.handleNext twoQuestions answered)
    = TestDisplay.handleNext twoQuestions answered.
Proof.
  destruct (test_navigation offline utf8 twoQuestions) as [Hrun Hmoves].
  split; [|split].
  - apply (Hrun [TestDisplay.Next; TestDisplay.Next; TestDisplay.Select 7 2;
                 TestDisplay.Submit; TestDisplay.Next]
             (start offline TestDisplay.initial tt)).
    vm_compute. lia.
  - apply (proj1 (Hmoves answered)). vm_compute. lia.
  - apply (proj1 (proj2 (proj2 (Hmoves (TestDisplay.handleNext twoQuestions answered))))).
    vm_compute. lia.
Defined.

(** ** The ADOF test view *)

(** No event of an explicit list is the hand-over of a result. *)
Ltac no_hand_over :=
  let Hin := fresh "Hin" in
  intros Hin;
  repeat (apply elem_of_cons in Hin as [Hin|Hin]; [discriminate Hin|]);
  by apply elem_of_nil in Hin.

#[global] Instance adof_frame_refl : Reflexive adof_frame.
Proof. by intros st. Qed.

#[global] Instance adof_frame_trans : Transitive adof_frame.
Proof. intros st1 st2 st3 [Ha1 Hc1] [Ha2 Hc2]. split; congruence. Qed.

#[global] Instance adof_submit_frame_refl : Reflexive adof_submit_frame.
Proof. by intros st. Qed.

#[global] Instance adof_submit_frame_trans : Transitive adof_submit_frame.
Proof.
  intros st1 st2 st3 [H1 Ht1] [H2 Ht2]. split; [by etrans|congruence].
Qed.

Section ADOFTestDisplayRuns.

Import ADOFTestDisplay.
Context {B : Backend}.
Variable props : Props.
Implicit Types (r : Run B State) (st : State).

Lemma generateTest_frame r : adof_frame (comp r) (comp (generateTest props r).2).
Proof.
  assert (respects (keeps adof_frame) (generateTest (B:=B) props)) as H; [|apply H].
  unfold generateTest, await_generateTest, toast. respects_auto; done.
Qed.

Lemma adof_handleSubmit_frame r :
  adof_submit_frame (comp r) (comp (handleSubmit props r).2).
Proof.
  assert (respects (keeps adof_submit_frame) (handleSubmit (B:=B) props)) as H; [|apply H].
  unfold handleSubmit, await_submitAnswers, await_getResultById, toast.
  respects_auto; done.
Qed.

Lemma generateTest_blank r :
  userId props = "" →
  generateTest props r =
    (Ok tt, {| comp := comp r; world := world r; trace := trace r ++ [Notify userIdMissing] |}).
Proof. intros Hu. unfold generateTest. by rewrite Hu. Qed.

Lemma generateTest_generated r t w :
  userId props ≠ "" →
  api_generateTest B (userId props) (world r) = (Ok t, w) →
  generateTest props r =
    (Ok tt, {| comp := setIsLoadingTest false
                         (setTestData (Some t) (setIsLoadingTest true (comp r)));
               world := w;
               trace := trace r ++ [Request (CallGenerateTest (userId props));
                                    Notify testGenerated] |}).
Proof.
  intros Hu%String.eqb_neq Hg. unfold generateTest, await_generateTest. rewrite Hu.
  exec. rewrite Hg. exec. by rewrite <- !(assoc_L (++)).
Qed.

Lemma generateTest_failed r e w :
  userId props ≠ "" →
  api_generateTest B (userId props) (world r) = (Throw e, w) →
  generateTest props r =
    (Ok tt, {| comp := setIsLoadingTest false (setIsLoadingTest true (comp r));
               world := w;
               trace := trace r ++ [Request (CallGenerateTest (userId props));
                                    Notify (testGenerationFailed (error_description e))] |}).
Proof.
  intros Hu%String.eqb_neq Hg. unfold generateTest, await_generateTest. rewrite Hu.
  exec. rewrite Hg. exec. by rewrite <- !(assoc_L (++)).
Qed.

(** A submission that was accepted, followed by a result request that
    delivers a result with a percentage. *)
Lemma adof_handleSubmit_completed r t submitResponse w1 resultResponse w2 :
  testData (comp r) = Some t →
  size (selectedAnswers (comp r)) = length (questions t) →
  documentIdOf t ≠ "" →
  api_submitAnswers B (requestBody props t (comp r)) (world r) = (Ok submitResponse, w1) →
  nullish submitResponse = false →
  nullish (prop submitResponse "data") = false →
  api_getResultById B (prop (prop submitResponse "data") "result_id") w1
    = (Ok resultResponse, w2) →
  nullish resultResponse = false →
  nullish (prop resultResponse "data") = false →
  handleSubmit props r =
    (Ok tt, {| comp := adof_finished (comp r); world := w2;
               trace := trace r ++
                 [Request (CallSubmitAnswers (requestBody props t (comp r)));
                  Request (CallGetResultById (prop (prop submitResponse "data") "result_id"));
                  Notify (assessmentCompleted
                            (prop (prop resultResponse "data") "percentage"));
                  TestComplete resultResponse] |}).
Proof.
  intros Ht Hn%Nat.eqb_eq Hd%String.eqb_neq Hs Hresp Hdata Hr Hres Hrdata.
  unfold handleSubmit. exec_seq. rewrite Ht, Hn. exec_seq.
  unfold try_finally, try_catch, await_submitAnswers, await_getResultById, call, get_prop.
  rewrite Hd. exec. rewrite Hs. exec. rewrite Hresp. exec. rewrite Hdata. exec.
  rewrite Hr. exec. rewrite Hres. exec. rewrite Hrdata. exec.
  by rewrite <- !(assoc_L (++)).
Qed.

(** Every other run hands nothing over. *)
Lemma adof_handleSubmit_cases r :
  (∃ t submitResponse w1 resultResponse w2,
     testData (comp r) = Some t
     ∧ size (selectedAnswers (comp r)) = length (questions t)
     ∧ documentIdOf t ≠ ""
     ∧ api_submitAnswers B (requestBody props t (comp r)) (world r)
       = (Ok submitResponse, w1)
     ∧ nullish submitResponse = false
     ∧ nullish (prop submitResponse "data") = false
     ∧ api_getResultById B (prop (prop submitResponse "data") "result_id") w1
       = (Ok resultResponse, w2)
     ∧ nullish resultResponse = false
     ∧ nullish (prop resultResponse "data") = false)
  ∨ ∀ v, TestComplete v ∉ events (handleSubmit props) r.
Proof.
  unfold events.
  destruct (testData (comp r)) as [t|] eqn:Ht;
    [|right; intros v; rewrite adof_handleSubmit_no_test by done;
      rewrite drop_all; apply not_elem_of_nil].
  destruct (decide (size (selectedAnswers (comp r)) = length (questions t))) as [Hn|Hn];
    [|right; intros v; rewrite (adof_handleSubmit_incomplete props r t Ht Hn); simpl;
      rewrite drop_app_length; no_hand_over].
  destruct (decide (documentIdOf t = "")) as [Hd|Hd];
    [right; intros v; rewrite (adof_handleSubmit_missing_id props r t Ht Hn Hd); simpl;
     rewrite drop_app_length; no_hand_over|].
  apply Nat.eqb_eq in Hn as Hn'. apply String.eqb_neq in Hd as Hd'.
  unfold handleSubmit. exec_seq. rewrite Ht, Hn'. exec_seq.
  unfold try_finally, try_catch, await_submitAnswers, await_getResultById, call, get_prop.
  rewrite Hd'. exec.
  destruct (api_submitAnswers B (requestBody props t (comp r)) (world r))
    as [[submitResponse|e] w1] eqn:Hs; exec;
    [|right; intros v; rewrite <- !(assoc_L (++)), drop_app_length; no_hand_over].
  destruct (nullish submitResponse) eqn:Hresp; exec;
    [right; intros v; rewrite <- !(assoc_L (++)), drop_app_length; no_hand_over|].
  destruct (nullish (prop submitResponse "data")) eqn:Hdata; exec;
    [right; intros v; rewrite <- !(assoc_L (++)), drop_app_length; no_hand_over|].
  destruct (api_getResultById B (prop (prop submitResponse "data") "result_id") w1)
    as [[resultResponse|e] w2] eqn:Hr; exec;
    [|right; intros v; rewrite <- !(assoc_L (++)), drop_app_length; no_hand_over].
  destruct (nullish resultResponse) eqn:Hres; exec;
    [right; intros v; rewrite <- !(assoc_L (++)), drop_app_length; no_hand_over|].
  destruct (nullish (prop resultResponse "data")) eqn:Hrdata; exec;
    [right; intros v; rewrite <- !(assoc_L (++)), drop_app_length; no_hand_over|].
  left. by exists t, submitResponse, w1, resultResponse, w2.
Qed.

End ADOFTestDisplayRuns.

(** X11.  [generateTest] of the ADOF test view: without a user identifier it
    only notifies and asks the server nothing; with one it sends one
    request and stores the test on success, or keeps the test it had and
    reports the failure.  In every case the answers selected so far and the
    question shown are left as they were. *)
Theorem generate_test_outcomes (B : Backend) (props : ADOFTestDisplay.Props)
    (r : Run B ADOFTestDisplay.State) :
  let after := (ADOFTestDisplay.generateTest props r).2 in
  ADOFTestDisplay.selectedAnswers (comp after) = ADOFTestDisplay.selectedAnswers (comp r)
  ∧ ADOFTestDisplay.currentQuestionIndex (comp after)
    = ADOFTestDisplay.currentQuestionIndex (comp r)
  ∧ (ADOFTestDisplay.userId props = "" →
     comp after = comp r ∧ world after = world r
     ∧ events (ADOFTestDisplay.generateTest props) r = [Notify userIdMissing])
  ∧ (ADOFTestDisplay.userId props ≠ "" →
     ∀ t w, api_generateTest B (ADOFTestDisplay.userId props) (world r) = (Ok t, w) →
       ADOFTestDisplay.testData (comp after) = Some t
       ∧ events (ADOFTestDisplay.generateTest props) r =
           [Request (CallGenerateTest (ADOFTestDisplay.userId props)); Notify testGenerated])
  ∧ (ADOFTestDisplay.userId props ≠ "" →
     ∀ e w, api_generateTest B (ADOFTestDisplay.userId props) (world r) = (Throw e, w) →
       ADOFTestDisplay.testData (comp after) = ADOFTestDisplay.testData (comp r)
       ∧ events (ADOFTestDisplay.generateTest props) r =
           [Request (CallGenerateTest (ADOFTestDisplay.userId props));
            Notify (testGenerationFailed (error_description e))]).
Proof.
  intros after. subst after.
  destruct (generateTest_frame props r) as [Hsel Hidx].
  split; [exact Hsel|]. split; [exact Hidx|]. split; [|split].
  - intros Hu. pose proof (generateTest_blank props r Hu) as Hrun.
    rewrite (events_eq _ _ _ (f_equal (λ x, trace x.2) Hrun)). by rewrite Hrun.
  - intros Hu t w Hg. pose proof (generateTest_generated props r t w Hu Hg) as Hrun.
    rewrite (events_eq _ _ _ (f_equal (λ x, trace x.2) Hrun)). by rewrite Hrun.
  - intros Hu e w Hg. pose proof (generateTest_failed props r e w Hu Hg) as Hrun.
    rewrite (events_eq _ _ _ (f_equal (λ x, trace x.2) Hrun)). by rewrite Hrun.
Qed.

Lemma generate_test_outcomes_witness :
  events (ADOFTestDisplay.generateTest blankAdofProps)
    (start archive ADOFTestDisplay.initial tt) = [Notify userIdMissing]
  ∧ ADOFTestDisplay.testData
      (comp (ADOFTestDisplay.generateTest adofProps
               (start offline (adofAnswered sampleTest) tt)).2) = Some sampleTest
  ∧ ADOFTestDisplay.testData
      (comp (ADOFTestDisplay.generateTest adofProps
               (start archive ADOFTestDisplay.initial tt)).2) = Some sampleTest.
Proof.
  assert (ADOFTestDisplay.userId adofProps ≠ "") as Hu by discriminate.
  split; [|split].
  - exact (proj2 (proj2 (proj1 (proj2 (proj2
             (generate_test_outcomes archive blankAdofProps
                (start archive ADOFTestDisplay.initial tt)))) eq_refl))).
  - exact (proj1 (proj2 (proj2 (proj2 (proj2
             (generate_test_outcomes offline adofProps
                (start offline (adofAnswered sampleTest) tt))))) Hu TypeError tt eq_refl)).
  - exact (proj1 (proj1 (proj2 (proj2 (proj2
             (generate_test_outcomes archive adofProps
                (start archive ADOFTestDisplay.initial tt))))) Hu sampleTest tt eq_refl)).
Defined.

(** X12.  In the ADOF test view, when every question is answered, the test has
    an identifier, the submission is accepted with a [data] member and the
    result requested under [data.result_id] is delivered with a [data]
    member of its own, the handler sends these two requests, announces the
    percentage of the delivered result and hands that result to
    [onTestComplete], in this order and nothing else. *)
Theorem assessment_completed (B : Backend) (props : ADOFTestDisplay.Props)
    (r : Run B ADOFTestDisplay.State) (t : GenerateTestResponse)
    (submitResponse data result_id : JValue) (w1 : World B)
    (resultResponse resultData percentage : JValue) (w2 : World B) :
  ADOFTestDisplay.testData (comp r) = Some t →
  size (ADOFTestDisplay.selectedAnswers (comp r)) = length (questions t) →
  documentIdOf t ≠ "" →
  api_submitAnswers B (ADOFTestDisplay.requestBody props t (comp r)) (world r)
    = (Ok submitResponse, w1) →
  get_prop submitResponse "data" = Ok data →
  get_prop data "result_id" = Ok result_id →
  api_getResultById B result_id w1 = (Ok resultResponse, w2) →
  get_prop resultResponse "data" = Ok resultData →
  get_prop resultData "percentage" = Ok percentage →
  events (ADOFTestDisplay.handleSubmit props) r =
    [Request (CallSubmitAnswers (ADOFTestDisplay.requestBody props t (comp r)));
     Request (CallGetResultById result_id);
     Notify (assessmentCompleted percentage);
     TestComplete resultResponse]
  ∧ world (ADOFTestDisplay.handleSubmit props r).2 = w2.
Proof.
  unfold get_prop. intros Ht Hn Hd Hs Hdata Hid Hr Hrdata Hp.
  destruct (nullish submitResponse) eqn:E1; [done|].
  destruct (nullish data) eqn:E2; [done|].
  destruct (nullish resultResponse) eqn:E3; [done|].
  destruct (nullish resultData) eqn:E4; [done|]. simplify_eq.
  pose proof (adof_handleSubmit_completed props r t submitResponse w1 resultResponse w2
                Ht Hn Hd Hs E1 E2 Hr E3 E4) as Hrun.
  rewrite (events_eq _ _ _ (f_equal (λ x, trace x.2) Hrun)). by rewrite Hrun.
Qed.

Lemma assessment_completed_witness :
  events (ADOFTestDisplay.handleSubmit adofProps)
    (start registry (adofAnswered sampleTest) tt) =
    [Request (CallSubmitAnswers
                (ADOFTestDisplay.requestBody adofProps sampleTest (adofAnswered sampleTest)));
     Request (CallGetResultById (JStr "res-1"));
     Notify (assessmentCompleted (JNum 80));
     TestComplete detailedResponse].
Proof.
  assert (documentIdOf sampleTest ≠ "") as Hd by (vm_compute; discriminate).
  exact (proj1 (assessment_completed registry adofProps
                  (start registry (adofAnswered sampleTest) tt) sampleTest
                  acceptedResponse
                  (JObj {[ "result_id" := JStr "res-1"; "percentage" := JNum 80 ]})
                  (JStr "res-1") tt detailedResponse
                  (JObj {[ "result_id" := JStr "res-1"; "percentage" := JNum 80;
                           "total_score" := JNum 4; "max_score" := JNum 5 ]})
                  (JNum 80) tt
                  eq_refl eq_refl Hd eq_refl eq_refl eq_refl eq_refl eq_refl eq_refl)).
Defined.

(** X13.  The ADOF test view hands a result to [onTestComplete] only when it
    was delivered by the result request that followed an accepted
    submission of a complete test, and then exactly once, as the last
    event; the result handed over is neither [null] nor [undefined] and
    neither is its [data] member, so its percentage can be read. *)
Theorem result_handed_over_after_fetch (B : Backend) (props : ADOFTestDisplay.Props)
    (r : Run B ADOFTestDisplay.State) (v : JValue) :
  TestComplete v ∈ events (ADOFTestDisplay.handleSubmit props) r →
  ∃ t submitResponse w1 w2,
    ADOFTestDisplay.testData (comp r) = Some t
    ∧ size (ADOFTestDisplay.selectedAnswers (comp r)) = length (questions t)
    ∧ api_submitAnswers B (ADOFTestDisplay.requestBody props t (comp r)) (world r)
      = (Ok submitResponse, w1)
    ∧ api_getResultById B (prop (prop submitResponse "data") "result_id") w1 = (Ok v, w2)
    ∧ nullish v = false
    ∧ nullish (prop v "data") = false
    ∧ events (ADOFTestDisplay.handleSubmit props) r =
        [Request (CallSubmitAnswers (ADOFTestDisplay.requestBody props t (comp r)));
         Request (CallGetResultById (prop (prop submitResponse "data") "result_id"));
         Notify (assessmentCompleted (prop (prop v "data") "percentage"));
         TestComplete v].
Proof.
  intros Hin.
  destruct (adof_handleSubmit_cases props r)
    as [(t & submitResponse & w1 & resultResponse & w2 & Ht & Hn & Hd & Hs & E1 & E2
         & Hr & E3 & E4)|Hnone]; [|by apply Hnone in Hin].
  pose proof (adof_handleSubmit_completed props r t submitResponse w1 resultResponse w2
                Ht Hn Hd Hs E1 E2 Hr E3 E4) as Hrun.
  rewrite (events_eq _ _ _ (f_equal (λ x, trace x.2) Hrun)) in Hin |- *.
  assert (v = resultResponse) as ->.
  { repeat (apply elem_of_cons in Hin as [Hin|Hin]; [by simplify_eq|]).
    by apply elem_of_nil in Hin. }
  by exists t, submitResponse, w1, w2.
Qed.

Lemma result_handed_over_after_fetch_witness :
  ∃ t submitResponse w1 w2,
    ADOFTestDisplay.testData (adofAnswered sampleTest) = Some t
    ∧ api_submitAnswers archive
        (ADOFTestDisplay.requestBody adofProps t (adofAnswered sampleTest)) tt
      = (Ok submitResponse, w1)
    ∧ api_getResultById archive (prop (prop submitResponse "data") "result_id") w1
      = (Ok acceptedResponse, w2).
Proof.
  assert (TestComplete acceptedResponse
          ∈ events (ADOFTestDisplay.handleSubmit adofProps)
              (start archive (adofAnswered sampleTest) tt)) as Hin
    by (vm_compute; repeat constructor).
  destruct (result_handed_over_after_fetch archive adofProps
              (start archive (adofAnswered sampleTest) tt) acceptedResponse Hin)
    as (t & submitResponse & w1 & w2 & Ht & _ & Hs & Hr & _).
  exact (ex_intro _ t (ex_intro _ submitResponse (ex_intro _ w1 (ex_intro _ w2
           (conj Ht (conj Hs Hr)))))).
Defined.

Lemma adof_step_kept {B : Backend} (props : ADOFTestDisplay.Props) (a : AdofAction)
    (r : Run B ADOFTestDisplay.State) (t : GenerateTestResponse) :
  ADOFTestDisplay.testData (comp r) = Some t →
  ADOFTestDisplay.currentQuestionIndex (comp r) < length (questions t) →
  ADOFTestDisplay.testData (comp (adof_step props a r)) = Some t
  ∧ ADOFTestDisplay.currentQuestionIndex (comp (adof_step props a r))
    < length (questions t).
Proof.
  intros Ht Hlt. destruct a as [i score| | |]; simpl.
  - done.
  - unfold ADOFTestDisplay.handleNext. rewrite Ht.
    destruct (Z.ltb_spec (Z.of_nat (ADOFTestDisplay.currentQuestionIndex (comp r)))
                (Z.of_nat (length (questions t)) - 1)); simpl; split; try done; lia.
  - unfold ADOFTestDisplay.handlePrevious.
    destruct (Nat.ltb_spec 0 (ADOFTestDisplay.currentQuestionIndex (comp r)));
      simpl; split; try done; lia.
  - destruct (adof_handleSubmit_frame props r) as [[_ Hidx] Htest].
    rewrite Htest, Hidx. done.
Qed.

(** X14.  Once the ADOF test view shows a test, nothing the user does there
    (selecting answers, moving forward or backward, submitting, with any
    outcome) replaces the test or moves the question shown outside of it;
    and a submission, whether it succeeds or fails, leaves the selected
    answers as they were, so a failed one can be repeated. *)
Theorem adof_question_shown_exists (B : Backend) (props : ADOFTestDisplay.Props)
    (actions : list AdofAction) (r : Run B ADOFTestDisplay.State)
    (t : GenerateTestResponse) :
  ADOFTestDisplay.testData (comp r) = Some t →
  ADOFTestDisplay.currentQuestionIndex (comp r) < length (questions t) →
  ADOFTestDisplay.testData (comp (adof_run props actions r)) = Some t
  ∧ is_Some (questions t
               !! ADOFTestDisplay.currentQuestionIndex (comp (adof_run props actions r)))
  ∧ ADOFTestDisplay.selectedAnswers (comp (adof_step props AdofSubmit r))
    = ADOFTestDisplay.selectedAnswers (comp r).
Proof.
  intros Ht Hlt. split; [|split].
  - revert r Ht Hlt. unfold adof_run.
    induction actions as [|a actions IH]; intros r Ht Hlt; simpl; [done|].
    destruct (adof_step_kept props a r t Ht Hlt). by apply IH.
  - apply lookup_lt_is_Some. revert r Ht Hlt. unfold adof_run.
    induction actions as [|a actions IH]; intros r Ht Hlt; simpl; [done|].
    destruct (adof_step_kept props a r t Ht Hlt). by apply IH.
  - simpl. by destruct (adof_handleSubmit_frame props r) as [[Hsel _] _].
Qed.

Lemma adof_question_shown_exists_witness :
  ADOFTestDisplay.testData
    (comp (adof_run adofProps [AdofNext; AdofSubmit; AdofPrevious; AdofSelect 3 1]
             (start forgetful (adofAnswered sampleTest) tt))) = Some sampleTest
  ∧ ADOFTestDisplay.selectedAnswers
      (comp (adof_step adofProps AdofSubmit (start forgetful (adofAnswered sampleTest) tt)))
    = ADOFTestDisplay.selectedAnswers (adofAnswered sampleTest).
Proof.
  destruct (adof_question_shown_exists forgetful adofProps
              [AdofNext; AdofSubmit; AdofPrevious; AdofSelect 3 1]
              (start forgetful (adofAnswered sampleTest) tt) sampleTest eq_refl (le_n 1))
    as (Htest & _ & Hsel).
  split; [exact Htest|exact Hsel].
Defined.

(** ** The dashboard *)

(** X15.  When generating fails in the dashboard, the stored questions are not
    requested, the failure is reported once and the test generated earlier,
    if there is one, stays; without a signed-in user the handler does
    nothing at all. *)
Theorem generation_failure_keeps_test (B : Backend) (r : Run B Dashboard.State) :
  Dashboard.handleGenerateTest None r = (Ok tt, r)
  ∧ ∀ (u : Dashboard.User) e w,
      api_generateTest B (Dashboard.user_id_of u) (world r) = (Throw e, w) →
      let after := (Dashboard.handleGenerateTest (Some u) r).2 in
      Dashboard.generatedTest (comp after) = Dashboard.generatedTest (comp r)
      ∧ Dashboard.isGenerating (comp after) = false
      ∧ world after = w
      ∧ events (Dashboard.handleGenerateTest (Some u)) r =
          [Request (CallGenerateTest (Dashboard.user_id_of u));
           Notify (generationError (error_description e))].
Proof.
  split; [reflexivity|]. intros u e w Hg after. subst after.
  pose proof (handleGenerateTest_failed u r e w Hg) as Hrun.
  rewrite (events_eq _ _ _ (f_equal (λ x, trace x.2) Hrun)). by rewrite Hrun.
Qed.

Lemma generation_failure_keeps_test_witness :
  Dashboard.generatedTest
    (comp (Dashboard.handleGenerateTest (Some sampleUser)
             (start offline (Dashboard.setGeneratedTest (Some sampleTest) Dashboard.initial)
                tt)).2) = Some sampleTest.
Proof.
  exact (proj1 (proj2 (generation_failure_keeps_test offline
                         (start offline
                            (Dashboard.setGeneratedTest (Some sampleTest) Dashboard.initial) tt))
                  sampleUser TypeError tt eq_refl)).
Defined.

Lemma documentIdOf_mcqs_id (t : GenerateTestResponse) (i : string) :
  mcqs_id t = Some i → i ≠ "" → documentIdOf t = i.
Proof. intros Hi Hne. unfold documentIdOf. rewrite Hi. simpl. by apply str_or_non_empty. Qed.

Lemma first_non_empty_Some (cs : list (option string)) (i : string) :
  first_non_empty cs = Some i → i ≠ "".
Proof.
  unfold first_non_empty. destruct (filter _ _) as [|s l] eqn:E; [done|].
  simpl. intros [= ->].
  assert (i ∈ filter (λ s : string, s ≠ "") (omap (λ c, c) cs)) as Hin
    by (rewrite E; left).
  by apply list_elem_of_filter in Hin as [Hne _].
Qed.

(** X16.  The identifier under which the answers to a merged test are
    submitted: the first non-empty one of the fetched [mcqs_id] and
    [document_id] when there is one; otherwise, when the fetched response
    has no [document_id] member, the identifier of the generated test.  A
    fetched [document_id] that is the empty string, however, replaces the
    generated [document_id]: a generated test identified by its
    [document_id] alone is then left without an identifier. *)
Theorem merged_test_identifier (testData : GenerateTestResponse)
    (mcqsData : GetMcqsResponse) :
  (∀ fetchedId,
     first_non_empty [mcqs_mcqs_id mcqsData; mcqs_document_id mcqsData] = Some fetchedId →
     documentIdOf (Dashboard.merged testData mcqsData) = fetchedId)
  ∧ (first_non_empty [mcqs_mcqs_id mcqsData; mcqs_document_id mcqsData] = None →
     mcqs_document_id mcqsData = None →
     documentIdOf (Dashboard.merged testData mcqsData) = documentIdOf testData)
  ∧ (first_non_empty [mcqs_mcqs_id mcqsData; mcqs_document_id mcqsData] = None →
     mcqs_document_id mcqsData = Some "" →
     first_non_empty [mcqs_id testData; documentId testData; id testData; _id testData]
       = None →
     documentIdOf (Dashboard.merged testData mcqsData) = "").
Proof.
  split; [|split].
  - intros fetchedId Hf. apply documentIdOf_mcqs_id.
    + by rewrite merged_identifier, Hf.
    + by eapply first_non_empty_Some.
  - intros Hf Hdoc. unfold documentIdOf.
    rewrite merged_identifier, Hf. simpl. by rewrite Hdoc.
  - intros Hf Hdoc Hrest. apply documentIdOf_empty. unfold candidates.
    rewrite merged_identifier, Hf. simpl. rewrite Hdoc.
    unfold first_non_empty in *. simpl in *.
    destruct (mcqs_id testData) as [a|]; simpl in *; [|done].
    destruct (decide (a = "")) as [->|Ha].
    + rewrite filter_cons_False in Hrest by (by intros H).
      rewrite !filter_cons_False by (by intros H). done.
    + by rewrite filter_cons_True in Hrest.
Qed.

Lemma merged_test_identifier_witness :
  documentIdOf (Dashboard.merged sampleTest storedCopy) = "mcq-7"
  ∧ documentIdOf sampleTest = "doc-1"
  ∧ documentIdOf (Dashboard.merged sampleTest unnamedCopy) = "".
Proof.
  destruct (merged_test_identifier sampleTest storedCopy) as (Hfetched & _).
  destruct (merged_test_identifier sampleTest unnamedCopy) as (_ & _ & Hlost).
  split; [exact (Hfetched "mcq-7" eq_refl)|]. split; [reflexivity|].
  exact (Hlost eq_refl eq_refl eq_refl).
Defined.

(** ** The CV form *)

Section CVCollectionFacts.

Import CVCollection.
Context {rt : Runtime}.
Variable selectedJob : SelectedJob.
Variable api_submitUserData : list (string * FormValue) → Outcome SubmitUserDataResult.
Variable engine : Exn → string.
Implicit Types (st : State).

Lemma cv_handleSubmit_formData st :
  formData (handleSubmit selectedJob api_submitUserData engine st).1 = formData st.
Proof. unfold handleSubmit. by destruct (check (formData st)). Qed.

Lemma cv_handleSubmit_uploadedFile st :
  uploadedFile (handleSubmit selectedJob api_submitUserData engine st).1 = uploadedFile st.
Proof. unfold handleSubmit. by destruct (check (formData st)). Qed.

Lemma handleAddSkill_added st :
  trim (newSkill st) ≠ "" → trim (newSkill st) ∉ skills (formData st) →
  handleAddSkill st =
    setNewSkill ""
      (setFormData (λ prev, with_skills (skills prev ++ [trim (newSkill st)]) prev) st).
Proof.
  intros Hne%String.eqb_neq Hnew. unfold handleAddSkill, elem.
  by rewrite Hne, bool_decide_eq_false_2.
Qed.

Lemma handleAddSkill_ignored st :
  trim (newSkill st) = "" ∨ trim (newSkill st) ∈ skills (formData st) →
  handleAddSkill st = st.
Proof.
  intros [Hblank|Hin]; unfold handleAddSkill, elem.
  - by rewrite Hblank.
  - rewrite (bool_decide_eq_true_2 _ Hin). by rewrite andb_false_r.
Qed.

Lemma skills_distinct_step (a : CvAction) st :
  skills_distinct st →
  skills_distinct (cv_step selectedJob api_submitUserData engine a st).
Proof.
  intros [Hnodup Hnamed]. destruct a as [s|field value| |s|selected| |]; simpl.
  - done.
  - done.
  - destruct (decide (trim (newSkill st) = "")) as [Hblank|Hne];
      [by rewrite handleAddSkill_ignored by (by left)|].
    destruct (decide (trim (newSkill st) ∈ skills (formData st))) as [Hin|Hnew];
      [by rewrite handleAddSkill_ignored by (by right)|].
    rewrite (handleAddSkill_added st Hne Hnew). split; simpl.
    + apply NoDup_app. split; [done|]. split; [|apply NoDup_singleton].
      intros x Hx ->%list_elem_of_singleton. done.
    + rewrite elem_of_app, list_elem_of_singleton. intros [?|?]; [done|by apply Hne].
  - split; simpl.
    + by apply NoDup_filter.
    + intros [_ Hin]%list_elem_of_filter. done.
  - unfold handleFileUpload. destruct selected as [f|]; [|done].
    destruct (negb _); [done|]. by destruct (N.ltb _ _).
  - done.
  - unfold skills_distinct. by rewrite cv_handleSubmit_formData.
Qed.

Lemma file_accepted_step (a : CvAction) st :
  file_accepted st →
  file_accepted (cv_step selectedJob api_submitUserData engine a st).
Proof.
  intros [Hsame Hpassed]. destruct a as [s|field value| |s|selected| |]; simpl.
  - done.
  - done.
  - unfold handleAddSkill. by destruct (_ && _).
  - done.
  - unfold handleFileUpload, elem. destruct selected as [f|]; [|done].
    destruct (decide (file_type f ∈ allowedTypes)) as [Htype|Htype];
      [rewrite (bool_decide_eq_true_2 _ Htype)|by rewrite (bool_decide_eq_false_2 _ Htype)].
    simpl. destruct (N.ltb_spec (5 * 1024 * 1024) (file_size f)) as [|Hsize]; [done|].
    split; simpl; [done|]. intros f' [= <-]. split; [done|]. lia.
  - split; simpl; [done|]. by intros f.
  - unfold file_accepted.
    by rewrite cv_handleSubmit_formData, cv_handleSubmit_uploadedFile.
Qed.

End CVCollectionFacts.

(** X17.  Whatever the user does in the CV form, the skills listed stay
    distinct and none of them is empty: a skill is added only when, with
    the white space around it removed, it is not empty and not yet in the
    list. *)
Theorem skills_stay_distinct (rt : Runtime) (selectedJob : CVCollection.SelectedJob)
    (api_submitUserData :
       list (string * CVCollection.FormValue) → Outcome CVCollection.SubmitUserDataResult)
    (engine : Exn → string) (actions : list CvAction) :
  let st := cv_run selectedJob api_submitUserData engine actions CVCollection.initial in
  NoDup (CVCollection.skills (CVCollection.formData st))
  ∧ "" ∉ CVCollection.skills (CVCollection.formData st).
Proof.
  intros st. subst st.
  assert (skills_distinct CVCollection.initial) as H0
    by (split; [apply NoDup_nil_2|apply not_elem_of_nil]).
  revert H0. generalize CVCollection.initial. unfold cv_run.
  induction actions as [|a actions IH]; intros st H; simpl; [done|].
  by apply IH, skills_distinct_step.
Qed.

(** X18.  Whatever the user does in the CV form, the file attached to the form
    is the file shown, and it is a PDF or Word document of at most 5 MB
    (5242880 bytes, the bound included): a file of another type or a larger
    one is refused and leaves the file chosen before in place. *)
Theorem attached_file_accepted (rt : Runtime) (selectedJob : CVCollection.SelectedJob)
    (api_submitUserData :
       list (string * CVCollection.FormValue) → Outcome CVCollection.SubmitUserDataResult)
    (engine : Exn → string) (actions : list CvAction) :
  let st := cv_run selectedJob api_submitUserData engine actions CVCollection.initial in
  CVCollection.file (CVCollection.formData st) = CVCollection.uploadedFile st
  ∧ (∀ f, CVCollection.uploadedFile st = Some f →
          CVCollection.file_type f ∈ CVCollection.allowedTypes
          ∧ (CVCollection.file_size f ≤ 5242880)%N)
  ∧ (∀ f, CVCollection.file_type f ∉ CVCollection.allowedTypes
          ∨ (5242880 < CVCollection.file_size f)%N →
          ∃ t, CVCollection.handleFileUpload (Some f) st = (st, [t])
               ∧ variant t = Destructive)
  ∧ (∀ f, CVCollection.file_type f ∈ CVCollection.allowedTypes →
          (CVCollection.file_size f ≤ 5242880)%N →
          CVCollection.uploadedFile (CVCollection.handleFileUpload (Some f) st).1 = Some f
          ∧ (CVCollection.handleFileUpload (Some f) st).2 = []).
Proof.
  intros st.
  assert (file_accepted st) as [Hsame Hpassed].
  { subst st.
    assert (file_accepted CVCollection.initial) as H0 by (split; [done|by intros f]).
    revert H0. generalize CVCollection.initial. unfold cv_run.
    induction actions as [|a actions IH]; intros st H; simpl; [done|].
    by apply IH, file_accepted_step. }
  split; [exact Hsame|]. split; [exact Hpassed|]. split.
  - intros f Hbad. unfold CVCollection.handleFileUpload, elem.
    destruct (decide (CVCollection.file_type f ∈ CVCollection.allowedTypes)) as [Htype|Htype];
      [rewrite (bool_decide_eq_true_2 _ Htype)
      |rewrite (bool_decide_eq_false_2 _ Htype); by eexists].
    simpl. destruct Hbad as [?|Hsize]; [done|].
    destruct (N.ltb_spec (5 * 1024 * 1024) (CVCollection.file_size f)); [by eexists|lia].
  - intros f Htype Hsize. unfold CVCollection.handleFileUpload, elem.
    rewrite (bool_decide_eq_true_2 _ Htype). simpl.
    destruct (N.ltb_spec (5 * 1024 * 1024) (CVCollection.file_size f)); [lia|done].
Qed.

Lemma attached_file_accepted_witness :
  CVCollection.uploadedFile
    (CVCollection.handleFileUpload (Some fiveMegabytes) CVCollection.initial).1
    = Some fiveMegabytes
  ∧ ∃ t, CVCollection.handleFileUpload (Some oversized)
           (cv_run sampleJob accepting silent [CvUpload (Some fiveMegabytes)]
              CVCollection.initial)
         = (cv_run sampleJob accepting silent [CvUpload (Some fiveMegabytes)]
              CVCollection.initial, [t])
         ∧ variant t = Destructive.
Proof.
  assert (CVCollection.file_type fiveMegabytes ∈ CVCollection.allowedTypes) as Htype
    by (vm_compute; repeat constructor).
  assert (CVCollection.file_size fiveMegabytes ≤ 5242880)%N as Hsize
    by (vm_compute; discriminate).
  assert (5242880 < CVCollection.file_size oversized)%N as Hlarge
    by (vm_compute; reflexivity).
  destruct (attached_file_accepted utf8 sampleJob accepting silent [])
    as (_ & _ & _ & Haccept).
  destruct (attached_file_accepted utf8 sampleJob accepting silent
              [CvUpload (Some fiveMegabytes)]) as (_ & _ & Hrefuse & _).
  split; [exact (proj1 (Haccept fiveMegabytes Htype Hsize))|].
  exact (Hrefuse oversized (or_intror Hlarge)).
Defined.

Lemma filter_others (skill : string) (l : list string) :
  skill ∉ l → filter (λ other, other ≠ skill) l = l.
Proof.
  induction l as [|x l IH]; [done|]. intros Hnot.
  apply not_elem_of_cons in Hnot as [Hx Hl].
  rewrite filter_cons_True by done. by rewrite IH.
Qed.

(** X19.  Adding a skill and removing it again gives back the list of skills
    one had, and a skill that was removed is no longer listed; adding is
    refused, and changes nothing at all, when the text typed is blank or
    names a skill already listed. *)
Theorem remove_undoes_add (rt : Runtime) (st : CVCollection.State) :
  let typed := trim (CVCollection.newSkill st) in
  let listed := CVCollection.skills (CVCollection.formData st) in
  (typed ≠ "" → typed ∉ listed →
     CVCollection.skills (CVCollection.formData (CVCollection.handleAddSkill st))
       = listed ++ [typed]
     ∧ CVCollection.newSkill (CVCollection.handleAddSkill st) = ""
     ∧ CVCollection.skills
         (CVCollection.formData
            (CVCollection.handleRemoveSkill typed (CVCollection.handleAddSkill st)))
       = listed)
  ∧ (typed = "" ∨ typed ∈ listed → CVCollection.handleAddSkill st = st)
  ∧ ∀ skillToRemove,
      skillToRemove ∉ CVCollection.skills
        (CVCollection.formData (CVCollection.handleRemoveSkill skillToRemove st)).
Proof.
  intros typed listed. subst typed listed. split; [|split].
  - intros Hne Hnew. rewrite (handleAddSkill_added st Hne Hnew). simpl.
    split; [done|]. split; [done|].
    rewrite filter_app, filter_cons_False, filter_nil, app_nil_r by (by intros H).
    by apply filter_others.
  - apply handleAddSkill_ignored.
  - intros skillToRemove. simpl. by intros [Hne _]%list_elem_of_filter.
Qed.

Lemma remove_undoes_add_witness :
  CVCollection.skills (CVCollection.formData (CVCollection.handleAddSkill filledForm))
    = ["SQL"; "Python"]
  ∧ CVCollection.skills
      (CVCollection.formData
         (CVCollection.handleRemoveSkill "Python" (CVCollection.handleAddSkill filledForm)))
    = ["SQL"].
Proof.
  assert (trim (CVCollection.newSkill filledForm) ≠ "") as Hne by (vm_compute; discriminate).
  assert (trim (CVCollection.newSkill filledForm)
          ∉ CVCollection.skills (CVCollection.formData filledForm)) as Hnew.
  { intros Hin. vm_compute in Hin.
    repeat (apply elem_of_cons in Hin as [Hin|Hin]; [discriminate Hin|]).
    by apply elem_of_nil in Hin. }
  destruct (proj1 (remove_undoes_add utf8 filledForm) Hne Hnew) as (Hadd & _ & Hback).
  split; [exact Hadd|exact Hback].
Defined.

Ltac check_fails :=
  split; [discriminate|intros (? & ? & ? & ? & ? & ? & ?); congruence].

Lemma check_passes {rt : Runtime} (d : CVCollection.CVData) :
  CVCollection.check d = None ↔
  trim (CVCollection.name d) ≠ ""
  ∧ trim (CVCollection.email d) ≠ "" ∧ includes (CVCollection.email d) "@" = true
  ∧ trim (CVCollection.phone d) ≠ ""
  ∧ trim (CVCollection.experience d) ≠ ""
  ∧ CVCollection.skills d ≠ []
  ∧ trim (CVCollection.education d) ≠ "".
Proof.
  unfold CVCollection.check.
  destruct (String.eqb_spec (trim (CVCollection.name d)) ""); [check_fails|].
  destruct (String.eqb_spec (trim (CVCollection.email d)) ""); [check_fails|].
  destruct (includes (CVCollection.email d) "@"); [|check_fails]. simpl.
  destruct (String.eqb_spec (trim (CVCollection.phone d)) ""); [check_fails|].
  destruct (String.eqb_spec (trim (CVCollection.experience d)) ""); [check_fails|].
  destruct (CVCollection.skills d); [check_fails|]. simpl.
  destruct (String.eqb_spec (trim (CVCollection.education d)) ""); [check_fails|].
  split; [intros _; by repeat split|done].
Qed.

Lemma check_destructive {rt : Runtime} (d : CVCollection.CVData) (t : Toast) :
  CVCollection.check d = Some t → variant t = Destructive.
Proof.
  unfold CVCollection.check. repeat case_match; by intros [= <-].
Qed.

(** X20.  The CV form hands its data to [onCVSubmit] exactly when the data
    passes the checks and the server accepts it; the data handed over is
    the data of the form, so it has a name, an e-mail address with an [@],
    a phone number, experience, at least one skill and education.  Data
    that fails a check is not sent: the form is left as it is and one
    destructive notification is raised.  Data that passes is sent once,
    before anything else, with the skills joined by commas. *)
Theorem cv_handed_over_when_accepted (rt : Runtime) (selectedJob : CVCollection.SelectedJob)
    (api_submitUserData :
       list (string * CVCollection.FormValue) → Outcome CVCollection.SubmitUserDataResult)
    (engine : Exn → string) (st : CVCollection.State) :
  let d := CVCollection.formData st in
  let run := CVCollection.handleSubmit selectedJob api_submitUserData engine st in
  (∀ data,
     CVCollection.CVSubmit data ∈ run.2 ↔
     data = d ∧ CVCollection.check d = None
     ∧ ∃ result, api_submitUserData (CVCollection.formDataToSend selectedJob d) = Ok result)
  ∧ (CVCollection.check d = None ↔
     trim (CVCollection.name d) ≠ ""
     ∧ trim (CVCollection.email d) ≠ "" ∧ includes (CVCollection.email d) "@" = true
     ∧ trim (CVCollection.phone d) ≠ ""
     ∧ trim (CVCollection.experience d) ≠ ""
     ∧ CVCollection.skills d ≠ []
     ∧ trim (CVCollection.education d) ≠ "")
  ∧ (CVCollection.check d ≠ None →
     ∃ t, run = (st, [CVCollection.Notify t]) ∧ variant t = Destructive)
  ∧ (CVCollection.check d = None →
     ∃ body evs,
       run.2 = CVCollection.SubmitUserData body :: evs
       ∧ (∀ e, e ∈ evs → ∀ body', e ≠ CVCollection.SubmitUserData body')
       ∧ body !! 5 = Some ("skills", CVCollection.FormText (join "," (CVCollection.skills d)))
       ∧ CVCollection.isSubmitting run.1 = false
       ∧ CVCollection.formData run.1 = d).
Proof.
  intros d run. subst d run. split; [|split; [apply check_passes|split]].
  - intros data. unfold CVCollection.handleSubmit.
    destruct (CVCollection.check (CVCollection.formData st)) as [t|] eqn:Hcheck; simpl.
    + split; [|by intros (_ & ? & _)].
      intros Hin%list_elem_of_singleton. discriminate Hin.
    + destruct (api_submitUserData _) as [result|e] eqn:Hapi.
      * split.
        -- intros Hin. repeat (apply elem_of_cons in Hin as [Hin|Hin]; [by simplify_eq; eauto|]).
           by apply elem_of_nil in Hin.
        -- intros (-> & _ & _). by repeat constructor.
      * split; [|by intros (_ & _ & result & ?)].
        intros Hin. repeat (apply elem_of_cons in Hin as [Hin|Hin]; [discriminate Hin|]).
        by apply elem_of_nil in Hin.
  - intros Hcheck. unfold CVCollection.handleSubmit.
    destruct (CVCollection.check (CVCollection.formData st)) as [t|] eqn:E; [|done].
    exists t. split; [done|]. by eapply check_destructive.
  - intros Hcheck. unfold CVCollection.handleSubmit. rewrite Hcheck.
    destruct (api_submitUserData _) as [result|e]; simpl; eexists _, _;
      (split; [reflexivity|]); (split; [|done]); intros e' Hin body';
      repeat (apply elem_of_cons in Hin as [Hin|Hin]; [by subst e'|]);
      by apply elem_of_nil in Hin.
Qed.

Lemma cv_handed_over_when_accepted_witness :
  CVCollection.CVSubmit sampleCV
    ∈ (CVCollection.handleSubmit sampleJob accepting silent filledForm).2
  ∧ (CVCollection.CVSubmit sampleCV
     ∉ (CVCollection.handleSubmit sampleJob refusing silent filledForm).2)
  ∧ ∃ t, CVCollection.handleSubmit sampleJob accepting silent CVCollection.initial
         = (CVCollection.initial, [CVCollection.Notify t])
         ∧ variant t = Destructive.
Proof.
  destruct (cv_handed_over_when_accepted utf8 sampleJob accepting silent filledForm)
    as (Haccepted & _).
  destruct (cv_handed_over_when_accepted utf8 sampleJob refusing silent filledForm)
    as (Hrefused & _).
  destruct (cv_handed_over_when_accepted utf8 sampleJob accepting silent CVCollection.initial)
    as (_ & _ & Hempty & _).
  split; [|split].
  - apply (proj2 (Haccepted sampleCV)).
    split; [reflexivity|]. split; [reflexivity|]. exists saved. reflexivity.
  - intros Hin. apply (proj1 (Hrefused sampleCV)) in Hin as (_ & _ & result & Hok).
    discriminate Hok.
  - apply Hempty. discriminate.
Defined.

(** ** Signing in and up *)

Section AuthFormFacts.

Import AuthForm.
Variable api_signup : FormData → Outcome JValue.
Variable api_signin : SigninData → Outcome JValue.
Variable now : string.
Implicit Types (st : State).

Lemma auth_handleSubmit_isLoading mode st :
  isLoading (handleSubmit mode api_signup api_signin now st).1 = false.
Proof. unfold handleSubmit. by destruct (attempt _ _ _ _ _) as [[st' evs] thrown]. Qed.

Lemma signin_blank st :
  email (formData st) = "" ∨ password (formData st) = "" →
  handleSubmit signin_mode api_signup api_signin now st =
    (setIsLoading false (setIsLoading true st), [Notify (authError fillInAllFields)]).
Proof.
  intros H. unfold handleSubmit, attempt. simpl.
  destruct H as [-> | ->]; [done|]. by rewrite orb_true_r.
Qed.

Lemma signin_sent st :
  email (formData st) ≠ "" → password (formData st) ≠ "" →
  handleSubmit signin_mode api_signup api_signin now st =
    let signinData := {| signin_email := email (formData st);
                         signin_password := password (formData st) |} in
    (setIsLoading false (setIsLoading true st),
     Signin signinData ::
     match api_signin signinData with
     | Ok response =>
         if nullish response then [Notify (authError TypeError)]
         else [Login (userDataOf now response (formData st)); Notify welcomeBack]
     | Throw e => [Notify (authError e)]
     end).
Proof.
  intros He%String.eqb_neq Hp%String.eqb_neq. unfold handleSubmit, attempt. simpl.
  rewrite He, Hp. simpl.
  destruct (api_signin _) as [response|e]; [|done]. by destruct (nullish response).
Qed.

Lemma signup_blank st :
  name (formData st) = "" ∨ email (formData st) = ""
  ∨ password (formData st) = "" ∨ role (formData st) = "" →
  handleSubmit signup_mode api_signup api_signin now st =
    (setIsLoading false (setIsLoading true st), [Notify (authError fillInAllFields)]).
Proof.
  intros H. unfold handleSubmit, attempt. simpl.
  destruct H as [-> | [-> | [-> | ->]]]; [done| | |];
    by rewrite ?orb_true_r.
Qed.

Lemma signup_sent st :
  name (formData st) ≠ "" → email (formData st) ≠ "" →
  password (formData st) ≠ "" → role (formData st) ≠ "" →
  handleSubmit signup_mode api_signup api_signin now st =
    match api_signup (formData st) with
    | Ok _ => (setIsLoading false (setFormData (λ _, emptyForm) (setIsLoading true st)),
               [Signup (formData st); Notify accountCreated; ToggleMode])
    | Throw e => (setIsLoading false (setIsLoading true st),
                  [Signup (formData st); Notify (authError e)])
    end.
Proof.
  intros Hn%String.eqb_neq He%String.eqb_neq Hp%String.eqb_neq Hr%String.eqb_neq.
  unfold handleSubmit, attempt. simpl. rewrite Hn, He, Hp, Hr. simpl.
  by destruct (api_signup _).
Qed.

End AuthFormFacts.

(** No event of an explicit list is a call of [login]. *)
Ltac no_login :=
  let Hin := fresh "Hin" in
  intros Hin;
  repeat (apply elem_of_cons in Hin as [Hin|Hin]; [discriminate Hin|]);
  by apply elem_of_nil in Hin.

(** X21.  The sign-in form calls [login] exactly when it is in sign-in mode,
    e-mail address and password are filled in, and the server answers the
    request with a value other than [null]; it is then called once, with
    the [user] member of the response if that is truthy, and otherwise with
    a user made of the [id], [name] and [role] of the response (the current
    time, "User" and "TVET" standing in for missing ones) and the e-mail
    address typed.  In every other case nobody is signed in, and whatever
    happens the form stops loading and keeps what was typed. *)
Theorem login_after_signin (mode : AuthForm.Mode)
    (api_signup : AuthForm.FormData → Outcome JValue)
    (api_signin : AuthForm.SigninData → Outcome JValue)
    (now : string) (st : AuthForm.State) :
  let d := AuthForm.formData st in
  let run := AuthForm.handleSubmit mode api_signup api_signin now st in
  (∀ userData,
     AuthForm.Login userData ∈ run.2 ↔
     mode = AuthForm.signin_mode
     ∧ AuthForm.email d ≠ "" ∧ AuthForm.password d ≠ ""
     ∧ ∃ response,
         api_signin {| AuthForm.signin_email := AuthForm.email d;
                       AuthForm.signin_password := AuthForm.password d |} = Ok response
         ∧ nullish response = false
         ∧ userData = js_or (prop response "user")
             (JObj {[ "id" := js_or (prop response "id") (JStr now);
                      "name" := js_or (prop response "name") (JStr "User");
                      "email" := JStr (AuthForm.email d);
                      "role" := js_or (prop response "role") (JStr "TVET") ]}))
  ∧ AuthForm.isLoading run.1 = false
  ∧ (mode = AuthForm.signin_mode → AuthForm.formData run.1 = d)
  ∧ (mode = AuthForm.signin_mode →
     AuthForm.email d = "" ∨ AuthForm.password d = "" →
     run.2 = [AuthForm.Notify {| title := "Error";
                                 description := Text "Please fill in all fields";
                                 variant := Destructive |}]).
Proof.
  intros d run. subst d run.
  split; [|split; [apply auth_handleSubmit_isLoading|split]].
  - intros userData. destruct mode.
    + destruct (decide (AuthForm.email (AuthForm.formData st) = "")) as [He|He];
        [rewrite signin_blank by (by left); split; [no_login|by intros (_ & ? & _)]|].
      destruct (decide (AuthForm.password (AuthForm.formData st) = "")) as [Hp|Hp];
        [rewrite signin_blank by (by right); split; [no_login|by intros (_ & _ & ? & _)]|].
      rewrite (signin_sent api_signup api_signin now st He Hp). simpl.
      destruct (api_signin _) as [response|e] eqn:Hapi.
      * destruct (nullish response) eqn:Hnull.
        -- split; [no_login|]. intros (_ & _ & _ & response' & [= <-] & Hn & _). congruence.
        -- split.
           ++ intros Hin. repeat split; try done. exists response.
              repeat (apply elem_of_cons in Hin as [Hin|Hin]; [by simplify_eq|]).
              by apply elem_of_nil in Hin.
           ++ intros (_ & _ & _ & response' & [= <-] & _ & ->).
              unfold AuthForm.userDataOf. by repeat constructor.
      * split; [no_login|]. by intros (_ & _ & _ & response & ? & _).
    + split; [|by intros (? & _)].
      unfold AuthForm.handleSubmit, AuthForm.attempt. simpl.
      destruct (_ || _); [no_login|]. destruct (api_signup _); no_login.
  - intros ->. unfold AuthForm.handleSubmit, AuthForm.attempt. simpl.
    destruct (_ || _); [done|]. destruct (api_signin _) as [response|e]; [|done].
    by destruct (nullish response).
  - intros -> Hblank. by rewrite signin_blank.
Qed.

Lemma login_after_signin_witness :
  AuthForm.Login
    (JObj {[ "id" := JStr "1762128000000"; "name" := JStr "User";
             "email" := JStr "ada@example.org"; "role" := JStr "TVET" ]})
    ∈ (AuthForm.handleSubmit AuthForm.signin_mode registering greeting "1762128000000"
         credentials).2
  ∧ (∀ userData,
       AuthForm.Login userData
       ∉ (AuthForm.handleSubmit AuthForm.signin_mode registering unknownUser "1762128000000"
            credentials).2).
Proof.
  split.
  - apply (proj2 (proj1 (login_after_signin AuthForm.signin_mode registering greeting
                           "1762128000000" credentials) _)).
    split; [reflexivity|]. split; [discriminate|]. split; [discriminate|].
    exists (JObj {[ "message" := JStr "Login successful" ]}).
    split; [reflexivity|]. split; [reflexivity|]. vm_compute. reflexivity.
  - intros userData Hin.
    apply (proj1 (proj1 (login_after_signin AuthForm.signin_mode registering unknownUser
                           "1762128000000" credentials) userData)) in Hin
      as (_ & _ & _ & response & Hok & _).
    discriminate Hok.
Defined.

(** X22.  Signing up sends the form only when name, e-mail address, password
    and role are all filled in.  When the server accepts it, the form is
    cleared (the password with it), the success is announced and the view
    is asked to switch to signing in; nobody is signed in.  When the server
    refuses it, the failure is reported, what was typed stays and the mode
    is not switched. *)
Theorem signup_outcomes (api_signup : AuthForm.FormData → Outcome JValue)
    (api_signin : AuthForm.SigninData → Outcome JValue)
    (now : string) (st : AuthForm.State) :
  let d := AuthForm.formData st in
  let run := AuthForm.handleSubmit AuthForm.signup_mode api_signup api_signin now st in
  let filled := AuthForm.name d ≠ "" ∧ AuthForm.email d ≠ ""
                ∧ AuthForm.password d ≠ "" ∧ AuthForm.role d ≠ "" in
  (¬ filled →
     AuthForm.formData run.1 = d
     ∧ run.2 = [AuthForm.Notify {| title := "Error";
                                   description := Text "Please fill in all fields";
                                   variant := Destructive |}])
  ∧ (filled → ∀ response, api_signup d = Ok response →
       AuthForm.formData run.1 = AuthForm.emptyForm
       ∧ run.2 = [AuthForm.Signup d; AuthForm.Notify AuthForm.accountCreated;
                  AuthForm.ToggleMode])
  ∧ (filled → ∀ e, api_signup d = Throw e →
       AuthForm.formData run.1 = d
       ∧ run.2 = [AuthForm.Signup d; AuthForm.Notify (AuthForm.authError e)]).
Proof.
  intros d run filled. subst d run filled. split; [|split].
  - intros Hnot. rewrite signup_blank; [done|].
    destruct (decide (AuthForm.name (AuthForm.formData st) = "")); [by left|].
    destruct (decide (AuthForm.email (AuthForm.formData st) = "")); [by right; left|].
    destruct (decide (AuthForm.password (AuthForm.formData st) = ""));
      [by right; right; left|].
    destruct (decide (AuthForm.role (AuthForm.formData st) = ""));
      [by right; right; right|].
    by destruct Hnot.
  - intros (Hn & He & Hp & Hr) response Hapi.
    by rewrite (signup_sent api_signup api_signin now st Hn He Hp Hr), Hapi.
  - intros (Hn & He & Hp & Hr) e Hapi.
    by rewrite (signup_sent api_signup api_signin now st Hn He Hp Hr), Hapi.
Qed.

Lemma signup_outcomes_witness :
  AuthForm.formData
    (AuthForm.handleSubmit AuthForm.signup_mode registering greeting "0" registration).1
    = AuthForm.emptyForm
  ∧ AuthForm.formData
      (AuthForm.handleSubmit AuthForm.signup_mode taken greeting "0" registration).1
    = AuthForm.formData registration
  ∧ (AuthForm.handleSubmit AuthForm.signup_mode registering greeting "0" credentials).2
    = [AuthForm.Notify {| title := "Error";
                          description := Text "Please fill in all fields";
                          variant := Destructive |}].
Proof.
  assert (AuthForm.name (AuthForm.formData registration) ≠ ""
          ∧ AuthForm.email (AuthForm.formData registration) ≠ ""
          ∧ AuthForm.password (AuthForm.formData registration) ≠ ""
          ∧ AuthForm.role (AuthForm.formData registration) ≠ "") as Hfilled
    by (repeat split; discriminate).
  destruct (signup_outcomes registering greeting "0" registration) as (_ & Hok & _).
  destruct (signup_outcomes taken greeting "0" registration) as (_ & _ & Hthrow).
  destruct (signup_outcomes registering greeting "0" credentials) as (Hblank & _).
  split; [exact (proj1 (Hok Hfilled _ eq_refl))|].
  split; [exact (proj1 (Hthrow Hfilled _ eq_refl))|].
  apply Hblank. intros (Hname & _). by apply Hname.
Defined.

Lemma constructed_role (id name email role : JValue) :
  prop (JObj {[ "id" := id; "name" := name; "email" := email; "role" := role ]}) "role"
  = role.
Proof.
  simpl. by rewrite !lookup_insert_ne, lookup_singleton_eq by done.
Qed.

(** X23.  The page [Index] renders for the user a successful sign-in hands to
    [login] is never the sign-in form again.  When the response of the
    server has no (truthy) [user] member, it is the ADOF dashboard exactly
    when the [role] member of the response is the string "ADOF", and the
    ordinary dashboard otherwise, in particular when the response names no
    role. *)
Theorem signed_in_page (now : string) (response : JValue) (d : AuthForm.FormData)
    (authMode : AuthForm.Mode) :
  let userData := AuthForm.userDataOf now response d in
  (∀ mode, Index.render false userData authMode ≠ Index.AuthFormPage mode)
  ∧ (truthy (prop response "user") = false →
     (Index.render false userData authMode = Index.ADOFDashboardPage
      ↔ prop response "role" = JStr "ADOF")
     ∧ (truthy (prop response "role") = false →
        Index.render false userData authMode = Index.DashboardPage)).
Proof.
  intros userData. subst userData. unfold Index.render, AuthForm.userDataOf, js_or.
  split.
  - intros mode. destruct (truthy (prop response "user")) eqn:Hu.
    + rewrite Hu. by destruct (Index.is_string _ _).
    + simpl. by destruct (Index.is_string _ _).
  - intros Hu. rewrite Hu. cbn [truthy]. rewrite constructed_role.
    destruct (truthy (prop response "role")) eqn:Hr.
    + split; [|done]. unfold Index.is_string.
      destruct (prop response "role") as [| | | |s| |]; try by (split; intros; simplify_eq).
      destruct (String.eqb_spec s "ADOF") as [->|Hs]; [done|].
      split; [done|]. by intros [= ->].
    + split; [|done]. simpl. split; [done|]. intros Heq. by rewrite Heq in Hr.
Qed.

Lemma signed_in_page_witness :
  Index.render false
    (AuthForm.userDataOf "0" (JObj {[ "message" := JStr "Login successful" ]})
       (AuthForm.formData credentials)) AuthForm.signin_mode
  = Index.DashboardPage.
Proof.
  exact (proj2 (proj2 (signed_in_page "0" (JObj {[ "message" := JStr "Login successful" ]})
                         (AuthForm.formData credentials) AuthForm.signin_mode) eq_refl)
           eq_refl).
Defined.

(** ** The job list *)

Lemma includes_empty (s : string) : includes s "" = true.
Proof. by destruct s. Qed.

Section JobSelectionFacts.

Import JobSelection.
Variable toLowerCase : string → string.
Implicit Types (st : State) (job : Job).

Lemma matchesSearch_empty st job :
  toLowerCase (searchTerm st) = "" → matchesSearch toLowerCase st job = true.
Proof. intros H. unfold matchesSearch. by rewrite H, includes_empty. Qed.

Lemma shown_all st job :
  shown toLowerCase st job = true →
  shown toLowerCase (setSelectedCategory all st) job = true.
Proof.
  unfold shown. simpl.
  change (matchesSearch toLowerCase (setSelectedCategory all st) job)
    with (matchesSearch toLowerCase st job).
  destruct (selectedCategory st); [done|..]; by intros [? _]%andb_true_iff.
Qed.

Lemma someSkill_nil (search : string) : someSkill toLowerCase [] search = false.
Proof. reflexivity. Qed.

Lemma matchesCategory_bare st job :
  job_title job = None → job_skills job = None ∨ job_skills job = Some [] →
  matchesCategory toLowerCase st job = false.
Proof.
  intros Ht Hs. unfold matchesCategory, lowered. rewrite Ht.
  assert (default [] (job_skills job) = []) as -> by (by destruct Hs as [-> | ->]).
  destruct (selectedCategory st); reflexivity.
Qed.

End JobSelectionFacts.

(** X24.  The jobs listed are jobs that were loaded, in the order they were
    loaded; a category only narrows what the search alone would list; a
    job without a title and without skills is listed under no category but
    "All Jobs"; and with the filters cleared (an empty search, which lower
    case leaves empty, and the category "All Jobs") every loaded job is
    listed, also one of which title, company and skills are missing. *)
Theorem filtered_jobs (toLowerCase : string → string) (st : JobSelection.State) :
  sublist (JobSelection.filteredJobs toLowerCase st) (JobSelection.jobs st)
  ∧ (∀ job, job ∈ JobSelection.filteredJobs toLowerCase st →
            job ∈ JobSelection.filteredJobs toLowerCase
                    (JobSelection.setSelectedCategory JobSelection.all st))
  ∧ (∀ job, JobSelection.selectedCategory st ≠ JobSelection.all →
            JobSelection.job_title job = None →
            JobSelection.job_skills job = None ∨ JobSelection.job_skills job = Some [] →
            job ∉ JobSelection.filteredJobs toLowerCase st)
  ∧ (toLowerCase "" = "" →
     JobSelection.filteredJobs toLowerCase (JobSelection.clearFilters st)
     = JobSelection.jobs st).
Proof.
  unfold JobSelection.filteredJobs. split; [|split; [|split]].
  - induction (JobSelection.jobs st) as [|job l IH]; simpl; [constructor|].
    destruct (JobSelection.shown toLowerCase st job); by constructor.
  - intros job. rewrite !list_elem_of_In, !filter_In.
    intros [Hin Hshown]. split; [done|]. by apply shown_all.
  - intros job Hc Ht Hs. rewrite list_elem_of_In, filter_In. intros [_ Hshown].
    unfold JobSelection.shown in Hshown.
    rewrite (matchesCategory_bare toLowerCase st job Ht Hs), andb_false_r in Hshown.
    by destruct (JobSelection.selectedCategory st).
  - intros Hlower. simpl. induction (JobSelection.jobs st) as [|job l IH]; simpl; [done|].
    rewrite IH. unfold JobSelection.shown at 1. simpl.
    by rewrite matchesSearch_empty.
Qed.

Lemma filtered_jobs_witness :
  JobSelection.filteredJobs lower (JobSelection.clearFilters searching)
    = [analystJob; bareJob]
  ∧ bareJob ∉ JobSelection.filteredJobs lower searching.
Proof.
  destruct (filtered_jobs lower searching) as (_ & _ & Hbare & Hclear).
  split; [exact (Hclear eq_refl)|].
  apply Hbare; [discriminate|reflexivity|by left].
Defined.

(** X25.  Loading the jobs, on mounting and on Retry, always ends with the
    spinner gone and leaves the search and the category alone.  When the
    request resolves, the jobs are the ones delivered and no error is
    shown; when it is rejected, the jobs loaded before stay and the error
    view is shown with a message that is not empty: the message of the
    error, or a fixed text if that is empty, after mounting, and a fixed
    text after Retry. *)
Theorem jobs_loaded_or_failed (toLowerCase : string → string)
    (api_getJobs : Outcome (list JobSelection.Job)) (engine : Exn → string)
    (st : JobSelection.State) :
  let mounted := JobSelection.fetchJobs api_getJobs engine st in
  let retried := JobSelection.retry api_getJobs st in
  (∀ data, api_getJobs = Ok data →
     mounted = (JobSelection.setIsLoading false
                  (JobSelection.setError None (JobSelection.setJobs data st)), [])
     ∧ retried = mounted.1
     ∧ ∀ message, JobSelection.view toLowerCase retried ≠ JobSelection.Failure message)
  ∧ (∀ e, api_getJobs = Throw e →
     ∃ message,
       message ≠ ""
       ∧ (message_of engine e ≠ "" → message = message_of engine e)
       ∧ mounted = (JobSelection.setIsLoading false
                      (JobSelection.setError (Some message) st),
                    [JobSelection.loadError message])
       ∧ JobSelection.view toLowerCase mounted.1 = JobSelection.Failure message
       ∧ retried = JobSelection.setIsLoading false
                     (JobSelection.setError (Some "Failed to load jobs. Please try again.") st)
       ∧ JobSelection.view toLowerCase retried
         = JobSelection.Failure "Failed to load jobs. Please try again.").
Proof.
  intros mounted retried. subst mounted retried.
  unfold JobSelection.fetchJobs, JobSelection.retry. split.
  - intros data ->. split; [done|]. split; [done|].
    intros message. unfold JobSelection.view. simpl.
    by destruct (JobSelection.filteredJobs _ _).
  - intros e ->.
    exists (str_or (message_of engine e) "Failed to load jobs. Please try again later.").
    assert (str_or (message_of engine e) "Failed to load jobs. Please try again later." ≠ "")
      as Hne.
    { unfold str_or. destruct (String.eqb_spec (message_of engine e) ""); done. }
    split; [exact Hne|]. split; [by apply str_or_non_empty|]. split; [done|].
    split; [|done]. unfold JobSelection.view. simpl.
    apply String.eqb_neq in Hne. by rewrite Hne.
Qed.

Lemma jobs_loaded_or_failed_witness :
  (∃ message,
     message ≠ ""
     ∧ JobSelection.view lower
         (JobSelection.fetchJobs (Throw TypeError) silent JobSelection.initial).1
       = JobSelection.Failure message)
  ∧ ∀ message,
      JobSelection.view lower
        (JobSelection.retry (Ok [analystJob])
           (JobSelection.fetchJobs (Throw TypeError) silent JobSelection.initial).1)
      ≠ JobSelection.Failure message.
Proof.
  destruct (jobs_loaded_or_failed lower (Throw TypeError) silent JobSelection.initial)
    as (_ & Hfailed).
  destruct (jobs_loaded_or_failed lower (Ok [analystJob]) silent
              (JobSelection.fetchJobs (Throw TypeError) silent JobSelection.initial).1)
    as (Hloaded & _).
  split.
  - destruct (Hfailed TypeError eq_refl) as (message & Hne & _ & _ & Hview & _).
    exists message. split; [exact Hne|exact Hview].
  - exact (proj2 (proj2 (Hloaded [analystJob] eq_refl))).
Defined.

(** ** The ADOF wizard *)

Section WizardFacts.

Import ADOFDashboard.
Context {SelectedJob CVData : Type}.
Implicit Types (st : State SelectedJob CVData) (c : Callback SelectedJob CVData).

Lemma wizard_invariant_initial : wizard_invariant (initial (SelectedJob:=SelectedJob)
                                                     (CVData:=CVData)).
Proof. split; [done|]. split; [by intros [? ?]|done]. Qed.

Lemma wizard_invariant_fire c st : wizard_invariant st → wizard_invariant (fire c st).
Proof.
  intros (Hrenders & Hcv & Hresults). unfold fire, wizard_invariant, renders in *.
  destruct (currentStep st) eqn:Hstep, c; simpl; rewrite ?Hstep;
    repeat split; try done; try tauto;
    try (intros Htruthy; specialize (Hresults Htruthy); discriminate Hresults);
    try (by intros [? ?]); by eexists.
Qed.

Lemma wizard_invariant_run (callbacks : list (Callback SelectedJob CVData)) st :
  wizard_invariant st → wizard_invariant (wizard_run callbacks st).
Proof.
  revert st. unfold wizard_run.
  induction callbacks as [|c callbacks IH]; intros st H; simpl; [done|].
  by apply IH, wizard_invariant_fire.
Qed.

Lemma onTestEvents_silent (evs : list Event) st :
  (∀ v, TestComplete v ∉ evs) → onTestEvents evs st = st.
Proof.
  unfold onTestEvents. revert st. induction evs as [|e evs IH]; intros st Hnone; [done|].
  simpl. destruct e as [c|t|v]; [| |by destruct (Hnone v); left];
    apply IH; intros v Hin; apply (Hnone v); by right.
Qed.

End WizardFacts.

(** X26.  In the ADOF wizard, whatever callbacks the components rendered for
    the current step fire, the step shown always has what it is rendered
    with: a selected job on the CV step, a selected job and CV data on the
    test and report steps.  Moreover the step indicator is consistent: the
    CV step is only marked completed when the job step is, and the test
    and report steps only while the report is shown. *)
Theorem wizard_steps_render (SelectedJob CVData : Type)
    (callbacks : list (ADOFDashboard.Callback SelectedJob CVData)) :
  let st := wizard_run callbacks ADOFDashboard.initial in
  (ADOFDashboard.currentStep st = ADOFDashboard.cv →
     is_Some (ADOFDashboard.selectedJob st))
  ∧ (ADOFDashboard.currentStep st = ADOFDashboard.test
     ∨ ADOFDashboard.currentStep st = ADOFDashboard.report →
     is_Some (ADOFDashboard.selectedJob st) ∧ is_Some (ADOFDashboard.cvData st))
  ∧ (ADOFDashboard.isCompleted st ADOFDashboard.cv = true →
     ADOFDashboard.isCompleted st ADOFDashboard.jobs = true)
  ∧ (ADOFDashboard.isCompleted st ADOFDashboard.test = true
     ∨ ADOFDashboard.isCompleted st ADOFDashboard.report = true →
     ADOFDashboard.currentStep st = ADOFDashboard.report).
Proof.
  intros st.
  destruct (wizard_invariant_run callbacks ADOFDashboard.initial wizard_invariant_initial)
    as (Hrenders & Hcv & Hresults).
  fold st in Hrenders, Hcv, Hresults. unfold ADOFDashboard.renders in Hrenders.
  split; [|split; [|split]].
  - intros Hstep. by rewrite Hstep in Hrenders.
  - intros [Hstep|Hstep]; by rewrite Hstep in Hrenders.
  - simpl. intros H%bool_decide_eq_true. by apply bool_decide_eq_true, Hcv.
  - simpl. intros [H|H]; by apply Hresults.
Qed.

Lemma wizard_steps_render_witness :
  ADOFDashboard.currentStep atTest = ADOFDashboard.test
  ∧ is_Some (ADOFDashboard.selectedJob atTest)
  ∧ is_Some (ADOFDashboard.cvData atTest).
Proof.
  split; [reflexivity|].
  exact (proj1 (proj2 (wizard_steps_render CVCollection.SelectedJob CVCollection.CVData
                         [ADOFDashboard.JobSelect sampleJob; ADOFDashboard.CVSubmit sampleCV]))
           (or_introl eq_refl)).
Defined.

(** X27.  The dashboard moves from the test to the report only with a result
    that the test view fetched after an accepted submission: after
    [handleSubmit] of the test view, the dashboard is still on the test
    step, or it is on the report step with a result that is neither [null]
    nor [undefined] and has a [data] member that is neither, delivered by
    the result request; job and CV data are as before. *)
Theorem report_shows_fetched_result (B : Backend) (SelectedJob CVData : Type)
    (user : option string) (r : Run B ADOFTestDisplay.State)
    (st : ADOFDashboard.State SelectedJob CVData) :
  ADOFDashboard.currentStep st = ADOFDashboard.test →
  let props := {| ADOFTestDisplay.userId := ADOFDashboard.userIdOf user |} in
  let st' := onTestEvents (events (ADOFTestDisplay.handleSubmit props) r) st in
  ADOFDashboard.selectedJob st' = ADOFDashboard.selectedJob st
  ∧ ADOFDashboard.cvData st' = ADOFDashboard.cvData st
  ∧ (st' = st
     ∨ ADOFDashboard.currentStep st' = ADOFDashboard.report
       ∧ nullish (ADOFDashboard.testResults st') = false
       ∧ nullish (prop (ADOFDashboard.testResults st') "data") = false
       ∧ ∃ resultId w1 w2,
           Request (CallGetResultById resultId)
             ∈ events (ADOFTestDisplay.handleSubmit props) r
           ∧ api_getResultById B resultId w1 = (Ok (ADOFDashboard.testResults st'), w2)).
Proof.
  intros Hstep props st'. subst st'.
  destruct (adof_handleSubmit_cases props r)
    as [(t & submitResponse & w1 & resultResponse & w2 & Ht & Hn & Hd & Hs & E1 & E2
         & Hr & E3 & E4)|Hnone]; [|by rewrite onTestEvents_silent; auto].
  pose proof (adof_handleSubmit_completed props r t submitResponse w1 resultResponse w2
                Ht Hn Hd Hs E1 E2 Hr E3 E4) as Hrun.
  rewrite (events_eq _ _ _ (f_equal (λ x, trace x.2) Hrun)).
  unfold onTestEvents, ADOFDashboard.fire. simpl. rewrite Hstep. simpl.
  split; [done|]. split; [done|]. right. split; [done|]. split; [done|]. split; [done|].
  eexists _, w1, w2. split; [|exact Hr]. by repeat constructor.
Qed.

Lemma report_shows_fetched_result_witness :
  ADOFDashboard.currentStep
    (onTestEvents
       (events (ADOFTestDisplay.handleSubmit
                  {| ADOFTestDisplay.userId := ADOFDashboard.userIdOf (Some "user-1") |})
          (start registry (adofAnswered sampleTest) tt)) atTest)
    = ADOFDashboard.report
  ∧ onTestEvents
      (events (ADOFTestDisplay.handleSubmit
                 {| ADOFTestDisplay.userId := ADOFDashboard.userIdOf (Some "user-1") |})
         (start forgetful (adofAnswered sampleTest) tt)) atTest
    = atTest.
Proof.
  destruct (report_shows_fetched_result registry _ _ (Some "user-1")
              (start registry (adofAnswered sampleTest) tt) atTest eq_refl)
    as (_ & _ & [Hsame|(Hreport & _)]).
  - exfalso. apply (f_equal ADOFDashboard.currentStep) in Hsame.
    vm_compute in Hsame. discriminate Hsame.
  - split; [exact Hreport|]. vm_compute. reflexivity.
Defined.

(** ** The score announced *)

(** X28.  Announcing the score after an accepted submission never fails, for
    any response that is neither [null] nor [undefined]: the percentage
    announced is [data.percentage] when that is truthy, else
    [data.data.percentage] when that is defined, else the text "N/A".  So a
    score of zero, not being truthy, is announced as "N/A". *)
Theorem score_announced (B : Backend) (rt : Runtime) (props : TestDisplay.Props)
    (r : Run B TestDisplay.State) (o : Outcome GetMcqsResponse) (w1 : World B)
    (submitResponse : JValue) (w2 : World B) :
  size (TestDisplay.selectedAnswers (comp r)) = TestDisplay.questionCount props →
  0 < TestDisplay.questionCount props →
  trim (TestDisplay.userId props) ≠ "" →
  trim (TestDisplay.documentId props) ≠ "" →
  api_getMcqs B (TestDisplay.userId props) (world r) = (o, w1) →
  api_submitAnswers B (TestDisplay.requestBody props (comp r)) w1 = (Ok submitResponse, w2) →
  nullish submitResponse = false →
  let data := prop submitResponse "data" in
  ∃ p, last (events (TestDisplay.handleSubmit props) r) = Some (Notify (submitted p))
       ∧ (truthy (prop data "percentage") = true → p = prop data "percentage")
       ∧ (truthy (prop data "percentage") = false →
          prop (prop data "data") "percentage" ≠ JUndefined →
          p = prop (prop data "data") "percentage")
       ∧ (truthy (prop data "percentage") = false →
          prop (prop data "data") "percentage" = JUndefined →
          p = JStr "N/A").
Proof.
  intros Hn Hpos Hu Hd Hm Hs Hobj data.
  assert (∃ p, (∀ r', TestDisplay.percentageOf (B:=B) submitResponse r' = (Ok p, r'))
               ∧ (truthy (prop data "percentage") = true → p = prop data "percentage")
               ∧ (truthy (prop data "percentage") = false →
                  prop (prop data "data") "percentage" ≠ JUndefined →
                  p = prop (prop data "data") "percentage")
               ∧ (truthy (prop data "percentage") = false →
                  prop (prop data "data") "percentage" = JUndefined →
                  p = JStr "N/A")) as (p & Hp & Hcases).
  { assert (opt_prop data "percentage" = prop data "percentage") as Hdirect.
    { unfold opt_prop. by destruct data. }
    assert (opt_prop (opt_prop data "data") "percentage"
            = prop (prop data "data") "percentage") as Hnested.
    { unfold opt_prop. destruct data; try done. by destruct (prop _ "data"). }
    exists (if truthy (prop data "percentage") then prop data "percentage"
            else match prop (prop data "data") "percentage" with
                 | JUndefined => JStr "N/A"
                 | nested => nested
                 end).
    split.
    - intros r'. unfold TestDisplay.percentageOf, get_prop. rewrite Hobj. exec.
      fold data. rewrite Hdirect, Hnested.
      destruct (truthy (prop data "percentage")); [done|].
      destruct (prop (prop data "data") "percentage") eqn:Hnest; [done|..].
      all: assert (nullish data = false) as Hdata
          by (destruct data; try done; simpl in Hnest; discriminate Hnest).
      all: assert (nullish (prop data "data") = false) as Hinner
          by (destruct (prop data "data"); try done; simpl in Hnest; discriminate Hnest).
      all: exec; rewrite Hdata; exec; rewrite Hinner, Hnest; reflexivity.
    - split; [by intros ->|]. split.
      + intros -> Hdef. by destruct (prop (prop data "data") "percentage").
      + by intros -> ->. }
  exists p. split; [|exact Hcases].
  unfold events.
  rewrite (handleSubmit_accepted props r o w1 submitResponse w2 Hn Hpos Hu Hd Hm Hs).
  unfold conclude, try_finally, try_catch, TestDisplay.resolveResult.
  rewrite run_bind, (resultIdOf_run _ _ Hobj). cbv beta iota.
  destruct (truthy (resultIdValue submitResponse)).
  - unfold await_getResultById. exec.
    destruct (api_getResultById B (resultIdValue submitResponse) w2) as [[detailed|e] w3];
      simpl; [unfold get_prop; destruct (nullish detailed)|]; exec; rewrite Hp; exec;
      rewrite <- !(assoc_L (++)), drop_app_length; reflexivity.
  - exec. rewrite Hp. exec. rewrite <- !(assoc_L (++)), drop_app_length. reflexivity.
Qed.

Lemma score_announced_witness :
  last (events (TestDisplay.handleSubmit sampleProps) (start strict answered tt))
  = Some (Notify (submitted (JStr "N/A"))).
Proof.
  assert (trim (TestDisplay.userId sampleProps) ≠ "") as Hu by (vm_compute; discriminate).
  assert (trim (TestDisplay.documentId sampleProps) ≠ "") as Hd by (vm_compute; discriminate).
  destruct (score_announced strict utf8 sampleProps (start strict answered tt)
              (Ok storedCopy) tt zeroResponse tt eq_refl (le_n 1) Hu Hd eq_refl eq_refl eq_refl)
    as (p & Hlast & _ & _ & Hna).
  rewrite Hlast. f_equal. f_equal. f_equal. exact (Hna eq_refl eq_refl).
Defined.

(** ** The requests of the ADOF test view *)

(** X29.  [ADOFTestDisplay.handleSubmit] contacts the server exactly when a
    test is loaded, as many answers are selected as it has questions, and
    its identifier is not the empty string; the first request then carries
    the answers built from the selection.  Unlike the other test view it
    checks neither the user identifier nor that there is an answer at all,
    and an identifier of white space only passes.  In every other case the
    server is left alone and at most one notification, a destructive one,
    is raised. *)
Theorem adof_submission_requests (B : Backend) (props : ADOFTestDisplay.Props)
    (r : Run B ADOFTestDisplay.State) :
  (∀ t, ADOFTestDisplay.testData (comp r) = Some t →
        size (ADOFTestDisplay.selectedAnswers (comp r)) = length (questions t) →
        documentIdOf t ≠ "" →
        ∃ evs, events (ADOFTestDisplay.handleSubmit props) r =
                 Request (CallSubmitAnswers (ADOFTestDisplay.requestBody props t (comp r)))
                 :: evs)
  ∧ ((∀ t, ADOFTestDisplay.testData (comp r) = Some t →
           size (ADOFTestDisplay.selectedAnswers (comp r)) ≠ length (questions t)
           ∨ documentIdOf t = "") →
     world (ADOFTestDisplay.handleSubmit props r).2 = world r
     ∧ (events (ADOFTestDisplay.handleSubmit props) r = []
        ∨ ∃ t, events (ADOFTestDisplay.handleSubmit props) r = [Notify t]
               ∧ variant t = Destructive)).
Proof.
  split.
  - intros t Ht Hn Hd. unfold events.
    apply Nat.eqb_eq in Hn as Hn'. apply String.eqb_neq in Hd as Hd'.
    unfold ADOFTestDisplay.handleSubmit. exec_seq. rewrite Ht, Hn'. exec_seq.
    unfold try_finally, try_catch, await_submitAnswers, await_getResultById, call, get_prop.
    rewrite Hd'. exec.
    destruct (api_submitAnswers B (ADOFTestDisplay.requestBody props t (comp r)) (world r))
      as [[submitResponse|e] w1]; exec;
      [|rewrite <- !(assoc_L (++)), drop_app_length; by eexists].
    destruct (nullish submitResponse); exec;
      [rewrite <- !(assoc_L (++)), drop_app_length; by eexists|].
    destruct (nullish (prop submitResponse "data")); exec;
      [rewrite <- !(assoc_L (++)), drop_app_length; by eexists|].
    destruct (api_getResultById B (prop (prop submitResponse "data") "result_id") w1)
      as [[resultResponse|e] w2]; exec;
      [|rewrite <- !(assoc_L (++)), drop_app_length; by eexists].
    destruct (nullish resultResponse); exec;
      [rewrite <- !(assoc_L (++)), drop_app_length; by eexists|].
    destruct (nullish (prop resultResponse "data")); exec;
      rewrite <- !(assoc_L (++)), drop_app_length; by eexists.
  - intros Hnot. destruct (ADOFTestDisplay.testData (comp r)) as [t|] eqn:Ht.
    + destruct (Hnot t eq_refl) as [Hn|Hd].
      * pose proof (adof_handleSubmit_incomplete props r t Ht Hn) as Hrun.
        rewrite (events_eq _ _ _ (f_equal (λ x, trace x.2) Hrun)), Hrun. eauto.
      * destruct (decide (size (ADOFTestDisplay.selectedAnswers (comp r))
                          = length (questions t))) as [Hn|Hn].
        -- pose proof (adof_handleSubmit_missing_id props r t Ht Hn Hd) as Hrun.
           rewrite (events_eq _ _ _ (f_equal (λ x, trace x.2) Hrun)), Hrun. eauto.
        -- pose proof (adof_handleSubmit_incomplete props r t Ht Hn) as Hrun.
           rewrite (events_eq _ _ _ (f_equal (λ x, trace x.2) Hrun)), Hrun. eauto.
    + pose proof (adof_handleSubmit_no_test props r Ht) as Hrun.
      unfold events. rewrite Hrun, drop_all. auto.
Qed.

Lemma adof_submission_requests_witness :
  (∃ evs, events (ADOFTestDisplay.handleSubmit adofProps)
            (start archive (adofAnswered sampleTest) tt) =
            Request (CallSubmitAnswers
                       {| user_id := "user-1"; mcq_id := "doc-1";
                          answers := {[ "1" := "Agree" ]} |}) :: evs)
  ∧ ∃ t, events (ADOFTestDisplay.handleSubmit adofProps) (start archive adofLoaded tt)
         = [Notify t]
         ∧ variant t = Destructive.
Proof.
  assert (documentIdOf sampleTest ≠ "") as Hd by (vm_compute; discriminate).
  pose proof (adof_submission_requests archive adofProps) as H. split.
  - exact (proj1 (H (start archive (adofAnswered sampleTest) tt)) sampleTest eq_refl eq_refl Hd).
  - destruct (proj2 (H (start archive adofLoaded tt))) as (_ & [Hev|Hev]);
      [|discriminate Hev|exact Hev].
    intros t [= <-]. left. vm_compute. discriminate.
Defined.

(** ** From the response of the server to the notification *)

Section WiredFacts.

Variable JSON_parse : string → option JValue.
Variable W : Type.
Variable generate : string → W → Outcome GenerateTestResponse * W.
Variable mcqs : string → W → Outcome GetMcqsResponse * W.
Variable fetch_submit : SubmitAnswersData → W → FetchOutcome * W.
Variable fetch_result : JValue → W → FetchOutcome * W.
Local Abbreviation B := (wired JSON_parse W generate mcqs fetch_submit fetch_result).

Lemma on_fetch_failed (f : FetchOutcome) :
  failed f → on_fetch (submitAnswers JSON_parse) f = Throw (thrown JSON_parse f).
Proof.
  destruct f as [|response]; [done|]. simpl. intros Hok. unfold submitAnswers.
  by rewrite Hok.
Qed.

Lemma wired_submit_failed (body : SubmitAnswersData) (w : W) :
  failed (fetch_submit body w).1 →
  api_submitAnswers B body w
  = (Throw (thrown JSON_parse (fetch_submit body w).1), (fetch_submit body w).2).
Proof. intros Hf. simpl. by rewrite on_fetch_failed. Qed.

End WiredFacts.

Lemma thrown_description (JSON_parse : string → option JValue) (response : Response) :
  (∀ errorData s,
     JSON_parse (text response) = Some errorData → prop errorData "error" = JStr s →
     s ≠ "" →
     error_description (thrown JSON_parse (Responded response)) = Text s)
  ∧ (JSON_parse (text response) = None → text response ≠ "" →
     error_description (thrown JSON_parse (Responded response)) = Text (text response))
  ∧ (JSON_parse (text response) = None → text response = "" →
     error_description (thrown JSON_parse (Responded response))
     = Text "Answer submission failed").
Proof.
  split; [|split]; simpl.
  - intros errorData s Hparse Herror Hs.
    assert (nullish errorData = false) as Hn by (by destruct errorData).
    rewrite (error_message_parsed _ _ _ _ Hparse Hn), Herror. unfold js_or. simpl.
    apply String.eqb_neq in Hs. by rewrite Hs.
  - intros Hparse Htext. rewrite (error_message_unparsed _ _ _ Hparse).
    by rewrite str_or_non_empty.
  - intros Hparse Htext. rewrite (error_message_unparsed _ _ _ Hparse). by rewrite Htext.
Qed.

(** X30.  What the server answers to a failed submission is what the user is
    told.  In [TestDisplay], when both submissions fail (the one with the
    selected answers and the one with the fixed answers), the events are
    the three requests and one "Submission Failed" notification whose
    description is the message [api.submitAnswers] extracts from the
    response to the second one: the [error] member of its body when that is
    a non-empty string, the text of the body when it is not JSON, the
    engine's text for a network failure.  In [ADOFTestDisplay], which sends
    the answers once, it is the message extracted from that response. *)
Theorem server_error_reaches_user (rt : Runtime) (JSON_parse : string → option JValue) (W : Type)
    (generate : string → W → Outcome GenerateTestResponse * W)
    (mcqs : string → W → Outcome GetMcqsResponse * W)
    (fetch_submit : SubmitAnswersData → W → FetchOutcome * W)
    (fetch_result : JValue → W → FetchOutcome * W) :
  let B := wired JSON_parse W generate mcqs fetch_submit fetch_result in
  (∀ (props : TestDisplay.Props) (r : Run B TestDisplay.State),
     size (TestDisplay.selectedAnswers (comp r)) = TestDisplay.questionCount props →
     0 < TestDisplay.questionCount props →
     trim (TestDisplay.userId props) ≠ "" →
     trim (TestDisplay.documentId props) ≠ "" →
     let w1 := (mcqs (TestDisplay.userId props) (world r)).2 in
     let first := fetch_submit (TestDisplay.requestBody props (comp r)) w1 in
     let second := fetch_submit (TestDisplay.hardcodedTestRequest props) first.2 in
     failed first.1 → failed second.1 →
     events (TestDisplay.handleSubmit props) r =
       [Request (CallGetMcqs (TestDisplay.userId props));
        Request (CallSubmitAnswers (TestDisplay.requestBody props (comp r)));
        Request (CallSubmitAnswers (TestDisplay.hardcodedTestRequest props));
        Notify (submissionFailed (error_description (thrown JSON_parse second.1)))])
  ∧ (∀ (props : ADOFTestDisplay.Props) (r : Run B ADOFTestDisplay.State) t,
       ADOFTestDisplay.testData (comp r) = Some t →
       size (ADOFTestDisplay.selectedAnswers (comp r)) = length (questions t) →
       documentIdOf t ≠ "" →
       let only := fetch_submit (ADOFTestDisplay.requestBody props t (comp r)) (world r) in
       failed only.1 →
       events (ADOFTestDisplay.handleSubmit props) r =
         [Request (CallSubmitAnswers (ADOFTestDisplay.requestBody props t (comp r)));
          Notify (submissionFailed (error_description (thrown JSON_parse only.1)))])
  ∧ error_description (thrown JSON_parse NetworkFailure) = MessageOf TypeError
  ∧ ∀ response,
      (∀ errorData s,
         JSON_parse (text response) = Some errorData → prop errorData "error" = JStr s →
         s ≠ "" →
         error_description (thrown JSON_parse (Responded response)) = Text s)
      ∧ (JSON_parse (text response) = None → text response ≠ "" →
         error_description (thrown JSON_parse (Responded response)) = Text (text response))
      ∧ (JSON_parse (text response) = None → text response = "" →
         error_description (thrown JSON_parse (Responded response))
         = Text "Answer submission failed").
Proof.
  intros B. split; [|split; [|split; [done|apply thrown_description]]].
  - intros props r Hn Hpos Hu Hd w1 first second Hfirst Hsecond.
    destruct (mcqs (TestDisplay.userId props) (world r)) as [o w1'] eqn:Hm.
    pose proof (handleSubmit_rejected (B:=B) props r o w1'
                  (thrown JSON_parse first.1) first.2 Hn Hpos Hu Hd Hm
                  (wired_submit_failed _ _ _ _ _ _ _ _ Hfirst)) as Hrun.
    simpl in Hrun. fold first in Hrun. fold second in Hrun.
    rewrite (on_fetch_failed JSON_parse _ Hsecond) in Hrun.
    by rewrite (events_eq _ _ _ (f_equal (λ x, trace x.2) Hrun)).
  - intros props r t Ht Hn Hd only Honly. unfold events.
    apply Nat.eqb_eq in Hn as Hn'. apply String.eqb_neq in Hd as Hd'.
    unfold ADOFTestDisplay.handleSubmit. exec_seq. rewrite Ht, Hn'. exec_seq.
    unfold try_finally, try_catch, await_submitAnswers, call.
    rewrite Hd'. exec. subst B.
    rewrite (wired_submit_failed JSON_parse W generate mcqs fetch_submit fetch_result
               _ _ Honly).
    exec. by rewrite <- !(assoc_L (++)), drop_app_length.
Qed.

Lemma server_error_reaches_user_witness :
  events (TestDisplay.handleSubmit sampleProps) (start (failing rejected) answered tt) =
    [Request (CallGetMcqs "user-1");
     Request (CallSubmitAnswers (TestDisplay.requestBody sampleProps answered));
     Request (CallSubmitAnswers (TestDisplay.hardcodedTestRequest sampleProps));
     Notify (submissionFailed (Text "mcq_id not found"))]
  ∧ events (ADOFTestDisplay.handleSubmit adofProps)
      (start (failing rejected) (adofAnswered sampleTest) tt) =
    [Request (CallSubmitAnswers
                (ADOFTestDisplay.requestBody adofProps sampleTest (adofAnswered sampleTest)));
     Notify (submissionFailed (Text "mcq_id not found"))].
Proof.
  assert (trim (TestDisplay.userId sampleProps) ≠ "") as Hu by (vm_compute; discriminate).
  assert (trim (TestDisplay.documentId sampleProps) ≠ "") as Hd by (vm_compute; discriminate).
  assert (documentIdOf sampleTest ≠ "") as Hid by (vm_compute; discriminate).
  destruct (server_error_reaches_user utf8 parse_sample unit
              (λ _ w, (Ok sampleTest, w)) (λ _ w, (Ok storedCopy, w))
              (λ _ w, (Responded rejected, w)) (λ _ w, (NetworkFailure, w)))
    as (Htest & Hadof & _).
  split.
  - exact (Htest sampleProps (start (failing rejected) answered tt)
             eq_refl (le_n 1) Hu Hd eq_refl eq_refl).
  - exact (Hadof adofProps (start (failing rejected) (adofAnswered sampleTest) tt)
             sampleTest eq_refl eq_refl Hid eq_refl).
Defined.
